(** * Calendar view for note bases: data model, operations and their properties

    A shallow embedding of the plugin's glue layer:
    - [JS]                 the fragment of the JavaScript runtime the code relies on
                           (dynamic values, strings, binary64 numbers, [Math], [Date]);
    - [Obsidian]           the host contracts the code consumes (records, typed
                           property values, property identifiers, YAML, paths);
    - [Utils]              [src/utils.ts];
    - [NewEventService]    the event-creation service;
    - [CalendarReactView]  the rendering component (event mapping, drop / resize
                           handlers);
    - [CalendarView]       [src/calendar-view.tsx] (extraction pass, write-back,
                           configuration, debounced refresh);
    - [Main]               [src/main.ts] (the style maps of the settings);
    - [Spec]               the vocabulary of the specification;
    - [Examples]           a host, records and a view to evaluate the code on.

    Modelling conventions.
    - Strings are byte strings; white space and letter case are the ASCII ones.
    - JavaScript numbers that the code computes with ([condenseLevel], zoom
      factors) are binary64 values: Rocq's primitive floats.
    - A [Date] is its time value, an integer number of milliseconds since the
      epoch; only valid dates are modelled, and local time is the time value
      shifted by a fixed offset [LocalTZA] supplied by the host.
    - A JavaScript object used as a record of fields (frontmatter, style maps)
      is a finite map from field names to values; what a lookup finds on the
      prototype of such an object is modelled where the code looks up a name
      that it reads from a note or from the configuration ([getProperty]).
    - A method that can leave by an exception, or return without its effect,
      returns a sum or an option; a loop whose end depends on the vault takes
      fuel. *)

From Stdlib Require Import ZArith QArith Qminmax Qround List String Ascii Bool.
From Stdlib Require Import Lia Lqa Floats Uint63.
From stdpp Require Import base option list strings gmap pretty.

Set Warnings "-register-all,-inexact-float".
Local Open Scope string_scope.
Local Open Scope Z_scope.

(* ===================================================================== *)
(** * Part I: definitions *)
(* ===================================================================== *)

(** ** The JavaScript fragment *)
Module JS.

(** Dynamic values ([unknown]).  Numbers held in such values are integers. *)
Inductive Value : Type :=
| VUndefined
| VNull
| VBool (b : bool)
| VNumber (n : Z)
| VString (s : string)
| VArray (items : list Value)
| VObject (props : list (string * Value)).

(** [!!v] *)
Definition truthy (v : Value) : bool :=
  match v with
  | VUndefined | VNull => false
  | VBool b => b
  | VNumber n => negb (n =? 0)
  | VString s => negb (String.eqb s "")
  | VArray _ | VObject _ => true
  end.

(** Truthiness of a [string | null | undefined]. *)
Definition truthy_str (o : option string) : bool :=
  match o with
  | Some s => negb (String.eqb s "")
  | None => false
  end.

(** [Array.prototype.join] *)
Fixpoint join (sep : string) (parts : list string) : string :=
  match parts with
  | [] => ""
  | [p] => p
  | p :: rest => p +:+ sep +:+ join sep rest
  end.

(** [String(v)] *)
Fixpoint ToString (v : Value) : string :=
  match v with
  | VUndefined => "undefined"
  | VNull => "null"
  | VBool true => "true"
  | VBool false => "false"
  | VNumber n => pretty n
  | VString s => s
  | VArray items =>
      join ","
        (map (fun item =>
                match item with
                | VUndefined | VNull => ""
                | _ => ToString item
                end) items)
  | VObject _ => "[object Object]"
  end.

(** *** Strings *)

(** The line feed, [\n]. *)
Definition newline : string := String (ascii_of_nat 10) EmptyString.

Definition isWhiteSpace (c : ascii) : bool :=
  let n := nat_of_ascii c in
  ((9 <=? n) && (n <=? 13))%nat || (n =? 32)%nat.

Fixpoint trimStart (s : string) : string :=
  match s with
  | String c rest => if isWhiteSpace c then trimStart rest else s
  | EmptyString => EmptyString
  end.

Definition trimEnd (s : string) : string :=
  String.rev (trimStart (String.rev s)).

Definition trim (s : string) : string := trimEnd (trimStart s).

Definition toLowerChar (c : ascii) : ascii :=
  let n := nat_of_ascii c in
  if ((65 <=? n) && (n <=? 90))%nat then ascii_of_nat (n + 32) else c.

Fixpoint toLowerCase (s : string) : string :=
  match s with
  | String c rest => String (toLowerChar c) (toLowerCase rest)
  | EmptyString => EmptyString
  end.

(** [s.split(sep)] for a separator that matches one character at a time:
    the pieces between the separators, empty pieces included. *)
Fixpoint split_go (is_sep : ascii -> bool) (s : string) (piece : string)
  : list string :=
  match s with
  | EmptyString => [String.rev piece]
  | String c rest =>
      if is_sep c then String.rev piece :: split_go is_sep rest ""
      else split_go is_sep rest (String c piece)
  end.

Definition split (is_sep : ascii -> bool) (s : string) : list string :=
  split_go is_sep s "".

Definition startsWith (s pre : string) : bool := String.prefix pre s.

(** [s.indexOf(pat, from)]; [None] is [-1]. *)
Definition indexOf (s pat : string) (from : nat) : option nat :=
  String.index from pat s.

(** [s.slice(a, b)] and [s.slice(a)] for [0 <= a <= b]. *)
Definition slice (s : string) (a b : nat) : string :=
  String.substring a (b - a) s.

Definition sliceFrom (s : string) (a : nat) : string :=
  String.substring a (String.length s - a) s.

Fixpoint repeat_string (n : nat) (s : string) : string :=
  match n with
  | O => ""
  | S k => s +:+ repeat_string k s
  end.

(** [s.padStart(targetLength, padString)] *)
Definition padStart (s : string) (targetLength : nat) (padString : string)
  : string :=
  let len := String.length s in
  if (targetLength <=? len)%nat then s
  else if String.eqb padString "" then s
  else
    let fill := (targetLength - len)%nat in
    String.substring 0 fill (repeat_string fill padString) +:+ s.

(** *** Numbers and [Math] (binary64) *)

Definition is_neg_zero (x : float) : bool :=
  match PrimFloat.classify x with
  | NZero => true
  | _ => false
  end.

Definition is_pos_zero (x : float) : bool :=
  match PrimFloat.classify x with
  | PZero => true
  | _ => false
  end.

(** One step of [Math.min]'s loop: [number < lowest], or [number] is [-0]
    and [lowest] is [+0]. *)
Definition min_step (lowest number : float) : float :=
  if PrimFloat.ltb number lowest || (is_neg_zero number && is_pos_zero lowest)
  then number else lowest.

Definition max_step (highest number : float) : float :=
  if PrimFloat.ltb highest number || (is_pos_zero number && is_neg_zero highest)
  then number else highest.

(** [Math.min(a, b)]: [NaN] if an argument is [NaN], else the fold of
    [min_step] from [+Infinity]. *)
Definition Math_min (a b : float) : float :=
  if PrimFloat.is_nan a || PrimFloat.is_nan b then PrimFloat.nan
  else min_step (min_step PrimFloat.infinity a) b.

Definition Math_max (a b : float) : float :=
  if PrimFloat.is_nan a || PrimFloat.is_nan b then PrimFloat.nan
  else max_step (max_step PrimFloat.neg_infinity a) b.

(** [Math.round(n / d)] for an integer [n] and a positive integer [d], as an
    integer: the nearest integer to the quotient, a tie going up.  For
    [|n| < 2^53] the binary64 quotient rounds to the same integer. *)
Definition round_div (n d : Z) : Z := (2 * n + d) / (2 * d).

(** *** Dates

    Time values and the calendar functions of ECMAScript's Date objects
    ([Day], [DayFromYear], [YearFromTime], [MonthFromTime], [DateFromTime],
    [HourFromTime], [MinFromTime], [MakeDay], [LocalTime], ...). *)

Record Date : Type := mkDate { getTime : Z }.

Definition msPerSecond : Z := 1000.
Definition msPerMinute : Z := 60000.
Definition msPerHour : Z := 3600000.
Definition msPerDay : Z := 86400000.

Definition Day (t : Z) : Z := t / msPerDay.
Definition TimeWithinDay (t : Z) : Z := t mod msPerDay.
Definition HourFromTime (t : Z) : Z := (t / msPerHour) mod 24.
Definition MinFromTime (t : Z) : Z := (t / msPerMinute) mod 60.
Definition SecFromTime (t : Z) : Z := (t / msPerSecond) mod 60.
Definition msFromTime (t : Z) : Z := t mod msPerSecond.

(** Year arithmetic. *)
Definition DaysInYear (y : Z) : Z :=
  if negb (y mod 4 =? 0) then 365
  else if negb (y mod 100 =? 0) then 366
  else if negb (y mod 400 =? 0) then 365
  else 366.

(** Day number of the first day of year [y]. *)
Definition DayFromYear (y : Z) : Z :=
  365 * (y - 1970) + (y - 1969) / 4 - (y - 1901) / 100 + (y - 1601) / 400.

Definition TimeFromYear (y : Z) : Z := msPerDay * DayFromYear y.

(** The year a day number falls in: the largest [y] with
    [DayFromYear y <= day], found from the mean year length and adjusted by
    at most one. *)
Definition YearFromDay (day : Z) : Z :=
  let e := 1970 + (400 * day) / 146097 in
  if day <? DayFromYear e then e - 1
  else if DayFromYear (e + 1) <=? day then e + 1
  else e.

Definition YearFromTime (t : Z) : Z := YearFromDay (Day t).

Definition InLeapYear (t : Z) : Z :=
  if DaysInYear (YearFromTime t) =? 366 then 1 else 0.

Definition DayWithinYear (t : Z) : Z := Day t - DayFromYear (YearFromTime t).

(** Day within the year on which month [m] (0 is January) begins, for a leap
    flag [leap] of 0 or 1. *)
Definition monthStart (m leap : Z) : Z :=
  if m <=? 0 then 0
  else if m =? 1 then 31
  else if m =? 2 then 59 + leap
  else if m =? 3 then 90 + leap
  else if m =? 4 then 120 + leap
  else if m =? 5 then 151 + leap
  else if m =? 6 then 181 + leap
  else if m =? 7 then 212 + leap
  else if m =? 8 then 243 + leap
  else if m =? 9 then 273 + leap
  else if m =? 10 then 304 + leap
  else 334 + leap.

Definition monthOfDay (dwy leap : Z) : Z :=
  if dwy <? 31 then 0
  else if dwy <? 59 + leap then 1
  else if dwy <? 90 + leap then 2
  else if dwy <? 120 + leap then 3
  else if dwy <? 151 + leap then 4
  else if dwy <? 181 + leap then 5
  else if dwy <? 212 + leap then 6
  else if dwy <? 243 + leap then 7
  else if dwy <? 273 + leap then 8
  else if dwy <? 304 + leap then 9
  else if dwy <? 334 + leap then 10
  else 11.

(** 0 is January. *)
Definition MonthFromTime (t : Z) : Z :=
  monthOfDay (DayWithinYear t) (InLeapYear t).

Definition DateFromTime (t : Z) : Z :=
  DayWithinYear t - monthStart (MonthFromTime t) (InLeapYear t) + 1.

(** [MakeDay(year, month, date)]: the day number. *)
Definition MakeDay (year month date : Z) : Z :=
  let ym := year + month / 12 in
  let mn := month mod 12 in
  let leap := if DaysInYear ym =? 366 then 1 else 0 in
  DayFromYear ym + monthStart mn leap + date - 1.

Definition MakeTime (hour min sec ms : Z) : Z :=
  hour * msPerHour + min * msPerMinute + sec * msPerSecond + ms.

Definition MakeDate (day time : Z) : Z := day * msPerDay + time.

Section LocalTime.
(** The local time zone adjustment, in milliseconds. *)
Variable LocalTZA : Z.

Definition LocalTime (t : Z) : Z := t + LocalTZA.
Definition UTC (t : Z) : Z := t - LocalTZA.

Definition getFullYear (d : Date) : Z := YearFromTime (LocalTime (getTime d)).
Definition getMonth (d : Date) : Z := MonthFromTime (LocalTime (getTime d)).
Definition getDate (d : Date) : Z := DateFromTime (LocalTime (getTime d)).
Definition getHours (d : Date) : Z := HourFromTime (LocalTime (getTime d)).
Definition getMinutes (d : Date) : Z := MinFromTime (LocalTime (getTime d)).
Definition getSeconds (d : Date) : Z := SecFromTime (LocalTime (getTime d)).
Definition getMilliseconds (d : Date) : Z := msFromTime (LocalTime (getTime d)).

(** [new Date(year, month, date, hours, minutes)] *)
Definition newDate (year month date hours minutes : Z) : Date :=
  mkDate (UTC (MakeDate (MakeDay year month date) (MakeTime hours minutes 0 0))).

(** [d.setHours(hour, min, sec, ms)], as the date it leaves in [d]. *)
Definition setHours (d : Date) (hour min sec ms : Z) : Date :=
  let t := LocalTime (getTime d) in
  mkDate (UTC (MakeDate (Day t) (MakeTime hour min sec ms))).

End LocalTime.

(** [new Date(d)]: a copy with the same time value. *)
Definition copyDate (d : Date) : Date := mkDate (getTime d).

(** [new Date(d.getTime() + ms)] *)
Definition addMilliseconds (d : Date) (ms : Z) : Date := mkDate (getTime d + ms).

(** *** Rounding and printing of numbers *)

(** [Number.isFinite(x)] for a number [x]. *)
Definition Number_isFinite (x : float) : bool := PrimFloat.is_finite x.

(** The integer [n], of magnitude below 2^63, as a number. *)
Definition numberOfZ (n : Z) : float :=
  if n <? 0 then PrimFloat.opp (PrimFloat.of_uint63 (Uint63.of_Z (- n)))
  else PrimFloat.of_uint63 (Uint63.of_Z n).

(** [Math.round(x)]: the integer nearest to [x], a tie going towards
    [+Infinity]; [-0] for the numbers of [[-0.5, -0]]; [x] itself when it
    is an integer or is not finite.  The value of [x] is read off its
    sign, mantissa and exponent, so that the rounding is exact. *)
Definition Math_round (x : float) : float :=
  match Prim2SF x with
  | S754_finite s m e =>
      if 0 <=? e then x
      else
        let n := if s then Z.neg m else Z.pos m in
        let q := (2 * n + 2 ^ (- e)) / 2 ^ (1 - e) in
        if q =? 0 then (if s then PrimFloat.neg_zero else PrimFloat.zero)
        else numberOfZ q
  | _ => x
  end.

(** The digits of [n], a natural number of hundredths, thousandths, ...,
    with the point before the last [fractionDigits] of them. *)
Definition fixedDigits (n : Z) (fractionDigits : nat) : string :=
  let m := pretty n in
  if (fractionDigits =? 0)%nat then m
  else
    let m :=
      if (String.length m <=? fractionDigits)%nat
      then repeat_string (fractionDigits + 1 - String.length m) "0" +:+ m
      else m in
    let k := String.length m in
    String.substring 0 (k - fractionDigits) m +:+ "."
      +:+ String.substring (k - fractionDigits) fractionDigits m.

(** [x.toFixed(fractionDigits)]: the decimal with that many digits after the
    point that is nearest to [x], the larger one on a tie.  [None] stands
    for the text of a finite [x] of magnitude 10^21 or more, which is
    printed in exponent notation and is not modelled. *)
Definition Number_toFixed (x : float) (fractionDigits : nat) : option string :=
  match Prim2SF x with
  | S754_nan => Some "NaN"
  | S754_infinity s => Some (if s then "-Infinity" else "Infinity")
  | S754_zero _ => Some (fixedDigits 0 fractionDigits)
  | S754_finite s m e =>
      let scale := 10 ^ Z.of_nat fractionDigits in
      if (0 <=? e) && (10 ^ 21 <=? Z.pos m * 2 ^ e) then None
      else
        let n :=
          if 0 <=? e then Z.pos m * 2 ^ e * scale
          else (2 * Z.pos m * scale + 2 ^ (- e)) / 2 ^ (1 - e) in
        Some ((if s then "-" else "") +:+ fixedDigits n fractionDigits)
  end.

(** *** Regular expressions

    The fragment that the code uses: classes of one character, sequence,
    alternative and option. *)
Inductive RegExp : Type :=
| RClass (member : ascii -> bool)
| RSeq (first second : RegExp)
| RAlt (one other : RegExp)
| ROpt (body : RegExp).

(** [[lo-hi]] and a single character. *)
Definition charRange (lo hi c : ascii) : bool :=
  ((nat_of_ascii lo <=? nat_of_ascii c) && (nat_of_ascii c <=? nat_of_ascii hi))%nat.

Definition charIs (x c : ascii) : bool := (nat_of_ascii c =? nat_of_ascii x)%nat.

(** A match of [r] at the head of [s], followed by a rest that [continue_]
    accepts; the alternatives are tried in order. *)
Fixpoint matchFrom (r : RegExp) (s : string) (continue_ : string -> bool) : bool :=
  match r with
  | RClass member =>
      match s with
      | String c rest => member c && continue_ rest
      | EmptyString => false
      end
  | RSeq first second =>
      matchFrom first s (fun rest => matchFrom second rest continue_)
  | RAlt one other => matchFrom one s continue_ || matchFrom other s continue_
  | ROpt body => matchFrom body s continue_ || continue_ s
  end.

(** [/^r$/.test(s)] *)
Definition RegExp_test (r : RegExp) (s : string) : bool :=
  matchFrom r s (fun rest => String.eqb rest "").

(** *** Property access on objects

    What [o[key]] finds on an object made by a literal or a spread: a
    property of its own, or a member that every object inherits. *)
Definition objectPrototypeKeys : list string :=
  [ "constructor"; "__defineGetter__"; "__defineSetter__"; "hasOwnProperty";
    "__lookupGetter__"; "__lookupSetter__"; "isPrototypeOf";
    "propertyIsEnumerable"; "toString"; "valueOf"; "__proto__";
    "toLocaleString" ].

Definition isInherited (key : string) : bool :=
  existsb (String.eqb key) objectPrototypeKeys.

Inductive Property (A : Type) : Type :=
| Own (a : A)
| Inherited (key : string).
Arguments Own {A} a.
Arguments Inherited {A} key.

(** [o[key]]; [None] is [undefined].  [__proto__] is an accessor, which an
    assignment never turns into a property of the object. *)
Definition getProperty {A : Type} (o : gmap string A) (key : string)
  : option (Property A) :=
  if String.eqb key "__proto__" then Some (Inherited key)
  else
    match o !! key with
    | Some a => Some (Own a)
    | None => if isInherited key then Some (Inherited key) else None
    end.

(** *** Timers

    The pending timers of the window and the identifier that the next
    timer gets. *)
Record Timers : Type := mkTimers {
  pendingTimers : gset nat;
  nextTimer : nat
}.

(** [window.setTimeout(callback, delay)]: the identifier and the timers. *)
Definition setTimeout (timers : Timers) : nat * Timers :=
  (nextTimer timers,
   mkTimers ({[ nextTimer timers ]} ∪ pendingTimers timers) (S (nextTimer timers))).

Definition clearTimeout (timers : Timers) (id : nat) : Timers :=
  mkTimers (pendingTimers timers ∖ {[ id ]}) (nextTimer timers).

(** A timer fires: it is pending no longer. *)
Definition fireTimer (timers : Timers) (id : nat) : Timers :=
  mkTimers (pendingTimers timers ∖ {[ id ]}) (nextTimer timers).

End JS.

(** ** The host contracts *)
Module Obsidian.
Import JS.

(** A property identifier such as [note.start] or [formula.total]. *)
Definition BasesPropertyId : Type := string.

Inductive BasesPropertyType : Type :=
| NoteProperty
| FormulaProperty
| FileProperty.

(** What [parsePropertyId] returns.  The adapter reads [name]; the creation
    service reads [property], a field that may be undefined. *)
Record BasesProperty : Type := mkBasesProperty {
  prop_type : BasesPropertyType;
  prop_name : string;
  prop_property : option string
}.

(** A typed property value: a [DateValue], whose [date] field may fail to
    hold a [Date], or a value of another kind. *)
Inductive PropertyValue : Type :=
| DateValue (date : option Date)
| OtherValue (v : Value).

(** The outcome of a call into the host: it returns or it throws. *)
Inductive Access (A : Type) : Type :=
| Returned (a : A)
| Thrown.
Arguments Returned {A} a.
Arguments Thrown {A}.

(** A record of the result set; [getValue] returns a typed value or [null]. *)
Record BasesEntry : Type := mkBasesEntry {
  file_path : string;
  file_name : string;
  file_basename : string;
  getValue : BasesPropertyId -> Access (option PropertyValue)
}.

(** Frontmatter of a note, and any object used as a record of fields. *)
Abbreviation Frontmatter := (gmap string Value).

(** The services of the host that the code calls. *)
Record Host : Type := mkHost {
  LocalTZA : Z;
  parsePropertyId : BasesPropertyId -> BasesProperty;
  normalizePath : string -> string;
  parseYaml : string -> Frontmatter;
  stringifyYaml : Frontmatter -> string
}.

(** The vault: the set of paths that name an existing file or folder, so
    that [getAbstractFileByPath path] is not null exactly on its members. *)
Abbreviation Vault := (gset string).

Definition fileExists (vault : Vault) (path : string) : bool :=
  bool_decide (path ∈ vault).

End Obsidian.

(** ** [src/utils.ts] *)
Module Utils.
Import JS Obsidian.

Definition MIN_SLOT_ZOOM : float := 0.1%float.
Definition MAX_SLOT_ZOOM : float := 0.5%float.
Definition MAX_CONDENSE_LEVEL : float := 220%float.
Definition DEFAULT_CONDENSE_LEVEL : float := 80%float.

Definition DEFAULT_PRIORITY_COLOR_MAP : gmap string string :=
  <["high" := "#f87171"]> (<["medium" := "#facc15"]>
    (<["normal" := "#60a5fa"]> (<["low" := "#9ca3af"]> ∅))).

Definition DEFAULT_STATUS_STYLE_MAP : gmap string string :=
  <["blocked" := "italic"]> (<["working" := "bold"]>
    (<["wont-do" := "strikethrough"]> (<["complete" := "strikethrough"]>
      (<["open" := "normal"]> ∅)))).

(** The separators of [/[,;\n]/]. *)
Definition isEntrySeparator (c : ascii) : bool :=
  let n := nat_of_ascii c in
  ((n =? 44) || (n =? 59) || (n =? 10))%nat.

Definition isColon (c : ascii) : bool := (nat_of_ascii c =? 58)%nat.

Definition nonEmpty (s : string) : bool := negb (String.eqb s "").

(** The body of the loop over [Object.entries(value)]. *)
Definition objectStep (map : gmap string string) (kv : string * Value)
  : gmap string string :=
  match snd kv with
  | VString val =>
      if nonEmpty (trim val) then <[toLowerCase (fst kv) := trim val]> map
      else map
  | _ => map
  end.

(** The body of the loop over the [key:value] entries of a string. *)
Definition entryStep (map : gmap string string) (entry : string)
  : gmap string string :=
  let parts := List.map trim (split isColon entry) in
  match parts with
  | key :: mapped :: _ =>
      if negb (nonEmpty key) || negb (nonEmpty mapped) then map
      else <[toLowerCase key := mapped]> map
  | _ => map
  end.

Definition parseStyleMapping (value : Value) (defaults : gmap string string)
  : gmap string string :=
  if negb (truthy value) then defaults
  else
    match value with
    | VObject props => foldl objectStep defaults props
    | _ =>
        let raw := ToString value in
        let entries :=
          List.filter nonEmpty (List.map trim (split isEntrySeparator raw)) in
        foldl entryStep defaults entries
    end.

Section WithHost.
Variable host : Host.

Definition formatDateTimeForFrontmatter (date : Date) : string :=
  let year := getFullYear (LocalTZA host) date in
  let month := padStart (pretty (getMonth (LocalTZA host) date + 1)) 2 "0" in
  let day := padStart (pretty (getDate (LocalTZA host) date)) 2 "0" in
  let hours := padStart (pretty (getHours (LocalTZA host) date)) 2 "0" in
  let minutes := padStart (pretty (getMinutes (LocalTZA host) date)) 2 "0" in
  pretty year +:+ "-" +:+ month +:+ "-" +:+ day +:+ " " +:+ hours +:+ ":"
    +:+ minutes.

End WithHost.

Definition calculateSlotZoom (condenseLevel : float) : float :=
  let safeLevel := Math_max 0 (Math_min MAX_CONDENSE_LEVEL condenseLevel) in
  let range := (MAX_SLOT_ZOOM - MIN_SLOT_ZOOM)%float in
  (MAX_SLOT_ZOOM - (safeLevel / MAX_CONDENSE_LEVEL) * range)%float.

Definition BASE_SLOT_HEIGHT : float := 72%float.

Definition calculateSlotHeightFromZoom (zoom : float) : float :=
  Math_max 4 (Math_round (BASE_SLOT_HEIGHT * zoom)).

Definition formatZoomLabel (condenseLevel : float) : option string :=
  let zoom := calculateSlotZoom condenseLevel in
  (fun fixed => fixed +:+ "x") <$> Number_toFixed zoom 2.

End Utils.

(** ** The event-creation service *)
Module NewEventService.
Import JS Obsidian Utils.

Record NewEventServiceConfig : Type := mkConfig {
  startProperty : option BasesPropertyId;
  endProperty : option BasesPropertyId;
  allDayProperty : option BasesPropertyId;
  folderPath : option string;
  templatePath : option string
}.

Section WithHost.
Variable host : Host.

Definition noteField (propId : option BasesPropertyId) : option string :=
  match propId with
  | None => None
  | Some id =>
      if truthy_str (Some id) then
        let parsed := parsePropertyId host id in
        match prop_type parsed with
        | NoteProperty => prop_property parsed
        | _ => Some id
        end
      else None
  end.

Definition isAllDay (start end_ : Date) : bool :=
  (getHours (LocalTZA host) start =? 0)
  && (getMinutes (LocalTZA host) start =? 0)
  && (getHours (LocalTZA host) end_ =? 0)
  && (getMinutes (LocalTZA host) end_ =? 0).

Definition buildFrontmatter (config : NewEventServiceConfig)
  (title : string) (start end_ : Date) : gmap string string :=
  let result : gmap string string := {[ "title" := title ]} in
  let startField := noteField (startProperty config) in
  let endField := noteField (endProperty config) in
  let result :=
    match startField with
    | Some f =>
        if truthy_str startField
        then <[f := formatDateTimeForFrontmatter host start]> result
        else result
    | None => result
    end in
  let result :=
    match endField with
    | Some f =>
        if truthy_str endField
        then <[f := formatDateTimeForFrontmatter host end_]> result
        else result
    | None => result
    end in
  let allDayField := default "allDay" (noteField (allDayProperty config)) in
  <[allDayField := if isAllDay start end_ then "true" else "false"]> result.

(** [Object.assign(fmObj, fields)]: the fields win, the other keys stay. *)
Definition assignFields (fmObj : Frontmatter) (fields : gmap string string)
  : Frontmatter :=
  (VString <$> fields) ∪ fmObj.

Definition buildNoteContent (templateContent : option string)
  (fields : gmap string string) : string :=
  let tpl := default "" templateContent in
  let trimmed := trimStart tpl in
  let synthesized :=
    "---" +:+ newline +:+ stringifyYaml host (VString <$> fields) +:+ "---"
      +:+ newline +:+ newline +:+ tpl in
  if startsWith trimmed "---" then
    match indexOf trimmed "---" 3 with
    | Some end_ =>
        let fmRaw := trim (slice trimmed 3 end_) in
        let body := trimStart (sliceFrom trimmed (end_ + 3)) in
        let fmObj := if nonEmpty fmRaw then parseYaml host fmRaw else ∅ in
        "---" +:+ newline +:+ stringifyYaml host (assignFields fmObj fields)
          +:+ "---" +:+ newline +:+ newline +:+ body
    | None => synthesized
    end
  else synthesized.

(** The date part of a path, [YYYY-MM-DD]. *)
Definition dateSuffix (date : Date) : string :=
  pretty (getFullYear (LocalTZA host) date) +:+ "-"
  +:+ padStart (pretty (getMonth (LocalTZA host) date + 1)) 2 "0" +:+ "-"
  +:+ padStart (pretty (getDate (LocalTZA host) date)) 2 "0".

(** The path tried when the counter has the value [counter]. *)
Definition numberedPath (folder title : string) (date : Date) (counter : Z)
  : string :=
  normalizePath host
    (folder +:+ "/" +:+ title +:+ " " +:+ dateSuffix date +:+ " "
       +:+ pretty counter +:+ ".md").

(** The [while] loop of [buildUniquePath]: [fuel] bounds the number of
    iterations, and [None] is returned when it runs out. *)
Fixpoint uniquePathLoop (fuel : nat) (vault : Vault) (folder title : string)
  (date : Date) (path : string) (counter : Z) : option string :=
  match fuel with
  | O => None
  | S fuel' =>
      if fileExists vault path then
        uniquePathLoop fuel' vault folder title date
          (numberedPath folder title date counter) (counter + 1)
      else Some path
  end.

Definition buildUniquePath (fuel : nat) (vault : Vault)
  (folder title : string) (date : Date) : option string :=
  let baseTitle := title +:+ ".md" in
  let path := normalizePath host (folder +:+ "/" +:+ baseTitle) in
  if negb (fileExists vault path) then Some path
  else
    let path :=
      normalizePath host
        (folder +:+ "/" +:+ title +:+ " " +:+ dateSuffix date +:+ ".md") in
    uniquePathLoop fuel vault folder title date path 1.

(** [resolveFolderPath], given the path of the vault's root. *)
Definition resolveFolderPath (config : NewEventServiceConfig)
  (rootPath : string) : string :=
  match folderPath config with
  | Some f => if nonEmpty (trim f) then normalizePath host (trim f) else rootPath
  | None => rootPath
  end.

(** [createEvent], as the call to [vault.create] it makes: the path and the
    content of the new note.  [prompted] is what the title prompt resolved
    to and [template] what [loadTemplate] returned; [None] is returned when
    the user cancelled, or when the search for a free path ran out of fuel. *)
Definition createEvent (fuel : nat) (config : NewEventServiceConfig)
  (vault : Vault) (rootPath : string) (prompted : option string)
  (template : option string) (start end_ : Date) : option (string * string) :=
  match prompted with
  | None => None
  | Some title =>
      if negb (nonEmpty title) || negb (nonEmpty (trim title)) then None
      else
        let safeTitle := trim title in
        let folder := resolveFolderPath config rootPath in
        match buildUniquePath fuel vault folder safeTitle start with
        | None => None
        | Some path =>
            let frontmatter := buildFrontmatter config safeTitle start end_ in
            Some (path, buildNoteContent template frontmatter)
        end
  end.

End WithHost.

(** *** The title prompt

    The modal of [promptForTitle] once it is open: whether [finish] has
    run and what the promise was resolved with, whether the focus loop still
    runs, and whether the service still holds the input. *)
Record Prompt : Type := mkPrompt {
  resolved : bool;
  resolution : option (option string);
  focusLoop : bool;
  modalInput : bool
}.

(** The state that [onOpen] leaves. *)
Definition opened : Prompt := mkPrompt false None true true.

(** What the user does with the modal; the text is the value of the input
    at that moment. *)
Inductive PromptAction : Type :=
| PressEnter (inputValue : string)
| SubmitForm (inputValue : string)
| PressEscape
| ClickCancel
| CloseModal.

(** [finish(value)]; the [close()] it ends with runs [onClose], which finds
    the prompt resolved and so does not call [finish] again. *)
Definition finish (value : option string) (prompt : Prompt) : Prompt :=
  if resolved prompt then prompt
  else mkPrompt true (Some value) false false.

(** [input.value.trim() || undefined] *)
Definition enteredTitle (inputValue : string) : option string :=
  if nonEmpty (trim inputValue) then Some (trim inputValue) else None.

Definition act (prompt : Prompt) (action : PromptAction) : Prompt :=
  match action with
  | PressEnter inputValue | SubmitForm inputValue =>
      finish (enteredTitle inputValue) prompt
  | PressEscape | ClickCancel => finish None prompt
  | CloseModal => if negb (resolved prompt) then finish None prompt else prompt
  end.

(** The prompt after the actions of the user. *)
Definition promptForTitle (actions : list PromptAction) : Prompt :=
  foldl act opened actions.

End NewEventService.

(** ** The rendering component *)
Module CalendarReactView.
Import JS Obsidian Utils.

Record CalendarEntry : Type := mkCalendarEntry {
  entry : BasesEntry;
  startDate : Date;
  endDate : option Date
}.

(** The fields of a widget event that depend on the entry's dates and file;
    class names and colours, which depend on priority and status only, are
    left out. *)
Record CalendarEvent : Type := mkCalendarEvent {
  id : string;
  title : string;
  start : Date;
  end_ : Date;
  allDay : bool;
  originalEndDate : option Date;
  display : string
}.

Section WithHost.
Variable host : Host.

(** The function mapped over [entries] to build [events]. *)
Definition toEvent (calEntry : CalendarEntry) : CalendarEvent :=
  let startDate := copyDate (startDate calEntry) in
  let endDate :=
    match endDate calEntry with
    | Some e => copyDate e
    | None => addMilliseconds startDate (60 * 60 * 1000)
    end in
  let isAllDay :=
    (getHours (LocalTZA host) startDate =? 0)
    && (getMinutes (LocalTZA host) startDate =? 0)
    && (getHours (LocalTZA host) endDate =? 0)
    && (getMinutes (LocalTZA host) endDate =? 0) in
  {| id := file_path (entry calEntry);
     title := file_basename (entry calEntry);
     start := startDate;
     end_ := endDate;
     allDay := isAllDay;
     originalEndDate := CalendarReactView.endDate calEntry;
     display := if isAllDay then "block" else "auto" |}.

Definition events (entries : list CalendarEntry) : list CalendarEvent :=
  List.map toEvent entries.

End WithHost.

(** What the widget reports on a drop or a resize. *)
Record EventChangeArg : Type := mkEventChangeArg {
  event_entry : BasesEntry;
  event_start : option Date;
  event_end : option Date
}.

(** What a handler of the component does: revert the widget's change without
    a call, or call the prop it was given, [revert] being run afterwards if
    the call fails. *)
Inductive Handled (R : Type) : Type :=
| Reverted
| Called (result : R).
Arguments Reverted {R}.
Arguments Called {R} result.

(** The props [onEventDrop] and [onEventResize] as the component declares
    them: three arguments. *)
Definition ChangeProp (R : Type) : Type :=
  BasesEntry -> Date -> option Date -> R.

Definition handleDrop {R : Type} (onEventDrop : option (ChangeProp R))
  (dropInfo : EventChangeArg) : Handled R :=
  match onEventDrop with
  | None => Reverted
  | Some onEventDrop =>
      let entry := event_entry dropInfo in
      let newStart := event_start dropInfo in
      let newEnd := event_end dropInfo in
      match newStart with
      | None => Reverted
      | Some newStart =>
          Called (onEventDrop entry newStart (Some (default newStart newEnd)))
      end
  end.

Definition handleResize {R : Type} (onEventResize : option (ChangeProp R))
  (resizeInfo : EventChangeArg) : Handled R :=
  match onEventResize with
  | None => Reverted
  | Some onEventResize =>
      let entry := event_entry resizeInfo in
      match event_start resizeInfo, event_end resizeInfo with
      | Some newStart, Some newEnd =>
          Called (onEventResize entry newStart (Some newEnd))
      | _, _ => Reverted
      end
  end.

(** *** Week start and condense level *)

(** [safeWeekStartDay], for the prop [weekStartDay]: a number, or whatever
    else the adapter found under the configured name. *)
Definition safeWeekStartDay (weekStartDay : Property float) : float :=
  match weekStartDay with
  | Own w => if Number_isFinite w then Math_max 0 (Math_min 6 w) else 1%float
  | Inherited _ => 1%float
  end.

(** [handleCondenseInput], as the level it sets; [rawValue] is the number
    that the value of the slider converts to. *)
Definition handleCondenseInput (rawValue : float) : float :=
  Math_min MAX_CONDENSE_LEVEL
    (Math_max 0
       (if Number_isFinite rawValue then rawValue else DEFAULT_CONDENSE_LEVEL)).

(** *** Priority colour and class names of an event *)

Definition tryGetValue (entry : BasesEntry) (propId : BasesPropertyId)
  : option PropertyValue :=
  match getValue entry propId with
  | Returned value => value
  | Thrown => None
  end.

(** [normalizeValue] on what [tryGetValue] returns: the empty text for
    [null]; [text] is what it makes of a value of the host, a text or an
    exception. *)
Definition normalizeValue (text : PropertyValue -> Access string)
  (value : option PropertyValue) : Access string :=
  match value with
  | None => Returned ""
  | Some v => text v
  end.

Record EventStyle : Type := mkEventStyle {
  classNames : list string;
  priorityColor : Property string
}.

Definition isPipe (c : ascii) : bool := (nat_of_ascii c =? 124)%nat.

(** The colour and the class names, from the texts of priority and
    status; [Thrown] when what the lookup finds as the style of the status
    has no [split]. *)
Definition styleOf (priorityColorMap statusStyleMap : gmap string string)
  (priorityText statusText : string) : Access EventStyle :=
  let priorityValue := toLowerCase (trim priorityText) in
  let statusValue := toLowerCase (trim statusText) in
  let normalizedPriority := if nonEmpty priorityValue then priorityValue else "normal" in
  let normalizedStatus := if nonEmpty statusValue then statusValue else "open" in
  let priorityColor :=
    match getProperty priorityColorMap normalizedPriority with
    | Some found => found
    | None =>
        match getProperty priorityColorMap "normal" with
        | Some found => found
        | None => Own "#60a5fa"
        end
    end in
  match default (Own "normal") (getProperty statusStyleMap normalizedStatus) with
  | Inherited _ => Thrown
  | Own style =>
      let statusStyles :=
        List.filter nonEmpty
          (List.map (fun style => toLowerCase (trim style)) (split isPipe style)) in
      let classNames :=
        (["bases-calendar-event"]
         ++ (if existsb (String.eqb normalizedPriority) ["high"; "medium"; "low"]
             then ["bases-calendar-event-priority-" +:+ normalizedPriority]
             else [])
         ++ (if nonEmpty normalizedStatus
             then ["bases-calendar-event-status-" +:+ normalizedStatus]
             else [])
         ++ List.map (fun style => "bases-calendar-status-" +:+ style) statusStyles)%list in
      Returned (mkEventStyle classNames priorityColor)
  end.

(** The part of the function mapped over [entries] that computes the colour
    and the class names of an event: it reads the priority, then the
    status, then computes the style; [Thrown] when it leaves by an
    exception. *)
Definition eventStyle (text : PropertyValue -> Access string)
  (priorityField statusField : option BasesPropertyId)
  (priorityColorMap statusStyleMap : gmap string string)
  (calEntry : CalendarEntry) : Access EventStyle :=
  let prioritySource :=
    if truthy_str priorityField
    then tryGetValue (entry calEntry) (default "" priorityField)
    else tryGetValue (entry calEntry) "priority" in
  match normalizeValue text prioritySource with
  | Thrown => Thrown
  | Returned priorityText =>
      let statusSource :=
        if truthy_str statusField
        then tryGetValue (entry calEntry) (default "" statusField)
        else tryGetValue (entry calEntry) "status" in
      match normalizeValue text statusSource with
      | Thrown => Thrown
      | Returned statusText =>
          styleOf priorityColorMap statusStyleMap priorityText statusText
      end
  end.

End CalendarReactView.

(** ** [src/calendar-view.tsx] *)
Module CalendarView.
Import JS Obsidian Utils.

Record CalendarEntry : Type := mkCalendarEntry {
  entry : BasesEntry;
  startDate : Date;
  endDate : option Date;
  title : option PropertyValue
}.

(** The configuration fields of the view that the modelled methods read, and
    the result set ([this.data.data], or [None] while there is no data). *)
Record View : Type := mkView {
  startDateProp : option BasesPropertyId;
  endDateProp : option BasesPropertyId;
  titleProp : option BasesPropertyId;
  allDayProperty : option BasesPropertyId;
  data : option (list BasesEntry)
}.

Definition extractDate (entry : BasesEntry) (propId : BasesPropertyId)
  : option Date :=
  match getValue entry propId with
  | Returned (Some (DateValue (Some date))) => Some date
  | Returned _ => None
  | Thrown => None
  end.

(** One iteration of the loop of [updateCalendar] on the entries collected so
    far; [Thrown] when the iteration throws. *)
Definition extractStep (view : View) (startProp : BasesPropertyId)
  (entries : list CalendarEntry) (entry : BasesEntry)
  : Access (list CalendarEntry) :=
  match extractDate entry startProp with
  | Some startDate =>
      let endDate :=
        match endDateProp view with
        | Some p => if truthy_str (Some p) then extractDate entry p else None
        | None => None
        end in
      let title :=
        match titleProp view with
        | Some p =>
            if truthy_str (Some p) then getValue entry p else Returned None
        | None => Returned None
        end in
      match title with
      | Returned title =>
          Returned (entries ++ [mkCalendarEntry entry startDate endDate title])%list
      | Thrown => Thrown
      end
  | None => Returned entries
  end.

(** The loop: the entries collected when it ends, and whether it ended by
    an exception. *)
Fixpoint extractLoop (view : View) (startProp : BasesPropertyId)
  (entries : list CalendarEntry) (records : list BasesEntry)
  : list CalendarEntry * bool :=
  match records with
  | [] => (entries, false)
  | entry :: rest =>
      match extractStep view startProp entries entry with
      | Returned entries' => extractLoop view startProp entries' rest
      | Thrown => (entries, true)
      end
  end.

(** What [updateCalendar] leaves behind. *)
Inductive Refresh : Type :=
| EmptyState
| Rendered (entries : list CalendarEntry)
| Aborted (collected : list CalendarEntry).

Definition updateCalendar (view : View) : Refresh :=
  match data view, startDateProp view with
  | Some records, Some startProp =>
      if truthy_str (Some startProp) then
        match extractLoop view startProp [] records with
        | (entries, false) => Rendered entries
        | (entries, true) => Aborted entries
        end
      else EmptyState
  | _, _ => EmptyState
  end.

Definition normalizeCondenseLevel (value : float) : float :=
  Math_max 0 (Math_min MAX_CONDENSE_LEVEL value).

Section WithHost.
Variable host : Host.

Definition getNoteField (propId : option BasesPropertyId) : option string :=
  match propId with
  | None => None
  | Some id =>
      if truthy_str (Some id) then
        let parsed := parsePropertyId host id in
        match prop_type parsed with
        | NoteProperty => Some (prop_name parsed)
        | _ => None
        end
      else None
  end.

(** The function [updateEntryDates] hands to [processFrontMatter]. *)
Definition writeDates (view : View) (startField : string)
  (endField allDayField : option string) (newStart : Date)
  (newEnd : option Date) (allDay : option bool) (frontmatter : Frontmatter)
  : Frontmatter :=
  let frontmatter :=
    <[startField := VString (formatDateTimeForFrontmatter host newStart)]>
      frontmatter in
  let frontmatter :=
    match newEnd, endField with
    | Some newEnd, Some endField =>
        if truthy_str (endDateProp view) && truthy_str (Some endField) then
          let frontmatter :=
            <[endField := VString (formatDateTimeForFrontmatter host newEnd)]>
              frontmatter in
          let durationMinutes :=
            round_div (getTime newEnd - getTime newStart) (1000 * 60) in
          if 0 <? durationMinutes
          then <["duration" := VNumber durationMinutes]> frontmatter
          else frontmatter
        else frontmatter
    | _, _ => frontmatter
    end in
  match allDayField, allDay with
  | Some allDayField, Some allDay =>
      if truthy_str (Some allDayField)
      then <[allDayField := VBool allDay]> frontmatter
      else frontmatter
  | _, _ => frontmatter
  end.

(** [updateEntryDates], as the frontmatter transaction it runs: [None] when
    it returns without calling [processFrontMatter]. *)
Definition updateEntryDates (view : View) (newStart : Date)
  (newEnd : option Date) (allDay : option bool)
  : option (Frontmatter -> Frontmatter) :=
  if negb (truthy_str (startDateProp view)) then None
  else
    let startField := getNoteField (startDateProp view) in
    let endField := getNoteField (endDateProp view) in
    let allDayField := getNoteField (allDayProperty view) in
    match startField with
    | None => None
    | Some sf =>
        if negb (truthy_str startField) then None
        else if truthy_str (endDateProp view) && negb (truthy_str endField)
        then None
        else Some (writeDates view sf endField allDayField newStart newEnd allDay)
    end.

Definition handleEventDrop (view : View) (newStart : Date)
  (newEnd : option Date) (allDay : option bool)
  : option (Frontmatter -> Frontmatter) :=
  let normalized :=
    match allDay with
    | Some true =>
        (setHours (LocalTZA host) (copyDate newStart) 0 0 0 0,
         match newEnd with
         | Some e => Some (setHours (LocalTZA host) (copyDate e) 0 0 0 0)
         | None => None
         end)
    | _ => (newStart, newEnd)
    end in
  updateEntryDates view (fst normalized) (snd normalized) allDay.

Definition handleEventResize (view : View) (newStart : Date)
  (newEnd : option Date) (allDay : option bool)
  : option (Frontmatter -> Frontmatter) :=
  match newEnd with
  | None => None
  | Some _ => updateEntryDates view newStart newEnd allDay
  end.

(** The props that [renderReactCalendar] passes to the component: arrow
    functions of four parameters, called by the component with three
    arguments, so that the fourth is undefined. *)
Definition onEventDrop (view : View)
  : CalendarReactView.ChangeProp (option (Frontmatter -> Frontmatter)) :=
  fun _ newStart newEnd => handleEventDrop view newStart newEnd None.

Definition onEventResize (view : View)
  : CalendarReactView.ChangeProp (option (Frontmatter -> Frontmatter)) :=
  fun _ newStart newEnd => handleEventResize view newStart newEnd None.

(** A drop in the widget, through the component, to the adapter. *)
Definition dropThroughComponent (view : View)
  (dropInfo : CalendarReactView.EventChangeArg)
  : CalendarReactView.Handled (option (Frontmatter -> Frontmatter)) :=
  CalendarReactView.handleDrop (Some (onEventDrop view)) dropInfo.

Definition isEditable (view : View) : bool :=
  if negb (truthy_str (startDateProp view)) then false
  else
    match prop_type (parsePropertyId host (default "" (startDateProp view))) with
    | NoteProperty =>
        if negb (truthy_str (endDateProp view)) then true
        else
          match prop_type (parsePropertyId host (default "" (endDateProp view))) with
          | NoteProperty => true
          | _ => false
          end
    | _ => false
    end.

End WithHost.

(** *** Configuration: week start, condense level, hour window *)

Definition dayNameToNumber : gmap string float :=
  <["saturday" := 6%float]> (<["friday" := 5%float]> (<["thursday" := 4%float]>
    (<["wednesday" := 3%float]> (<["tuesday" := 2%float]>
      (<["monday" := 1%float]> (<["sunday" := 0%float]> ∅)))))).

(** [getWeekStartDay]: the number in the table, [1] when the table has
    nothing under the name, or what the lookup found on the prototype. *)
Definition getWeekStartDay (dayName : string) : Property float :=
  default (Own 1%float) (getProperty dayNameToNumber dayName).

(** [/^([0-1]?[0-9]|2[0-3]):[0-5][0-9](:[0-5][0-9])?$/], between the
    anchors. *)
Definition timeRegex : RegExp :=
  RSeq (RAlt (RSeq (ROpt (RClass (charRange "0" "1"))) (RClass (charRange "0" "9")))
             (RSeq (RClass (charIs "2")) (RClass (charRange "0" "3"))))
    (RSeq (RClass (charIs ":"))
       (RSeq (RClass (charRange "0" "5"))
          (RSeq (RClass (charRange "0" "9"))
             (ROpt (RSeq (RClass (charIs ":"))
                      (RSeq (RClass (charRange "0" "5"))
                            (RClass (charRange "0" "9")))))))).

Definition normalizeHour (value : string) : string :=
  if negb (nonEmpty value) then ""
  else if negb (RegExp_test timeRegex value) then ""
  else value.

(** The values that [loadConfig] reads from the configuration of the view:
    [None] is [undefined]. *)
Record ViewConfig : Type := mkViewConfig {
  config_weekStartDay : option string;
  config_condenseLevel : option float;
  config_minHour : option string;
  config_maxHour : option string
}.

(** The fields that [loadConfig] computes from them. *)
Record Loaded : Type := mkLoaded {
  weekStartDay : Property float;
  condenseLevel : float;
  minHour : string;
  maxHour : string
}.

(** [loadConfig], for these fields; [fromStorage] is what
    [getCondenseLevelFromStorage] returns. *)
Definition loadConfig (config : ViewConfig) (fromStorage : float) : Loaded :=
  let weekStartDayValue := config_weekStartDay config in
  let weekStartDay :=
    if truthy_str weekStartDayValue
    then getWeekStartDay (default "" weekStartDayValue)
    else Own 1%float in
  let condenseLevel :=
    match config_condenseLevel config with
    | Some configCondenseLevel => normalizeCondenseLevel configCondenseLevel
    | None => fromStorage
    end in
  let orEmpty (value : option string) :=
    if truthy_str value then default "" value else "" in
  mkLoaded weekStartDay condenseLevel
    (normalizeHour (orEmpty (config_minHour config)))
    (normalizeHour (orEmpty (config_maxHour config))).

Definition getSlotRange (loaded : Loaded) : string * string :=
  (if nonEmpty (minHour loaded) then minHour loaded else "00:00",
   if nonEmpty (maxHour loaded) then maxHour loaded else "24:00").

(** [updateCondenseLevel], as the level it leaves in the view and the
    configuration it leaves. *)
Definition updateCondenseLevel (config : ViewConfig) (level : float)
  : float * ViewConfig :=
  let normalized := normalizeCondenseLevel level in
  (normalized,
   mkViewConfig (config_weekStartDay config) (Some normalized)
     (config_minHour config) (config_maxHour config)).

(** *** Debounced refresh

    The fields of the view that the refresh reads and writes, with the
    timers of the window. *)
Record Runtime : Type := mkRuntime {
  entries : list CalendarEntry;
  refreshTimeout : option nat;
  timers : Timers
}.

Definition hasEntryForFile (runtime : Runtime) (path : string) : bool :=
  existsb (fun e => String.eqb (file_path (entry e)) path) (entries runtime).

Definition scheduleRefresh (runtime : Runtime) : Runtime :=
  let timers :=
    match refreshTimeout runtime with
    | Some id => clearTimeout (timers runtime) id
    | None => timers runtime
    end in
  let (id, timers) := setTimeout timers in
  mkRuntime (entries runtime) (Some id) timers.

Definition handleTrackedFileChange (runtime : Runtime) (path : string) : Runtime :=
  if hasEntryForFile runtime path then scheduleRefresh runtime else runtime.

(** The callback that [scheduleRefresh] sets: [collected] is what its loop
    leaves in [entries], and [completed] tells whether the callback ran to
    its last statement, which resets [refreshTimeout], or left before it by
    an exception. *)
Definition refreshCallback (runtime : Runtime) (collected : list CalendarEntry)
  (completed : bool) : Runtime :=
  mkRuntime collected
    (if completed then None else refreshTimeout runtime)
    (timers runtime).

Definition onunload (runtime : Runtime) : Runtime :=
  mkRuntime []
    None
    match refreshTimeout runtime with
    | Some id => clearTimeout (timers runtime) id
    | None => timers runtime
    end.

(** What happens to a loaded view. *)
Inductive Occurrence : Type :=
| FileChanged (path : string)
| TimerFired (id : nat) (collected : list CalendarEntry) (completed : bool)
| CalendarUpdated (collected : list CalendarEntry)
| Unloaded.

(** A file is modified or renamed, or its metadata change; a pending timer
    fires; [updateCalendar] replaces the entries; the view is unloaded. *)
Definition occur (runtime : Runtime) (occurrence : Occurrence) : Runtime :=
  match occurrence with
  | FileChanged path => handleTrackedFileChange runtime path
  | TimerFired id collected completed =>
      if bool_decide (id ∈ pendingTimers (timers runtime)) then
        refreshCallback
          (mkRuntime (entries runtime) (refreshTimeout runtime)
             (fireTimer (timers runtime) id))
          collected completed
      else runtime
  | CalendarUpdated collected =>
      mkRuntime collected (refreshTimeout runtime) (timers runtime)
  | Unloaded => onunload runtime
  end.

(** A view as [onload] leaves it, and the view after a history.  The timers
    are those that the view sets; [next] is the identifier that its first
    timer gets. *)
Definition loaded (next : nat) : Runtime := mkRuntime [] None (mkTimers ∅ next).

Definition after (runtime : Runtime) (history : list Occurrence) : Runtime :=
  foldl occur runtime history.

End CalendarView.

(** ** [src/main.ts]: the settings of the plugin *)
Module Main.
Import JS Obsidian Utils.

(** The style maps of the settings. *)
Record CalendarPluginSettings : Type := mkSettings {
  priorityColors : gmap string string;
  statusStyles : gmap string string
}.

(** [stored?.key] *)
Definition field (stored : Value) (key : string) : Value :=
  match stored with
  | VObject props =>
      match List.find (fun kv => String.eqb (fst kv) key) props with
      | Some kv => snd kv
      | None => VUndefined
      end
  | _ => VUndefined
  end.

(** [a ?? b] *)
Definition coalesce (a b : Value) : Value :=
  match a with
  | VUndefined | VNull => b
  | _ => a
  end.

(** [loadSettings], for the style maps; [stored] is what [loadData]
    returns. *)
Definition loadSettings (stored : Value) : CalendarPluginSettings :=
  let priorityColors :=
    parseStyleMapping
      (coalesce (field stored "priorityColors")
         (coalesce (field stored "priorityColorMap") (VString "")))
      DEFAULT_PRIORITY_COLOR_MAP in
  let statusStyles :=
    parseStyleMapping
      (coalesce (field stored "statusStyles")
         (coalesce (field stored "statusStyleMap") (VString "")))
      DEFAULT_STATUS_STYLE_MAP in
  mkSettings priorityColors statusStyles.

(** A style map of the settings as the object that the code passes around;
    the order of its properties is that of the enumeration of the map. *)
Definition objectOf (map : gmap string string) : Value :=
  VObject ((fun kv : string * string => (fst kv, VString (snd kv)))
             <$> map_to_list map).

Definition getPriorityColorMap (settings : CalendarPluginSettings)
  : gmap string string :=
  parseStyleMapping (objectOf (priorityColors settings)) DEFAULT_PRIORITY_COLOR_MAP.

Definition getStatusStyleMap (settings : CalendarPluginSettings)
  : gmap string string :=
  parseStyleMapping (objectOf (statusStyles settings)) DEFAULT_STATUS_STYLE_MAP.

End Main.

(** ** The vocabulary of the specification

    Definitions that follow the words of the specification, against which
    the code above is compared. *)
Module Spec.
Import JS Obsidian Utils.

(** [p] holds of the [n] integers from [lo] on. *)
Fixpoint all_from (p : Z -> bool) (n : nat) (lo : Z) : bool :=
  match n with
  | O => true
  | S k => p lo && all_from p k (lo + 1)
  end.

(** The decimal digit [k]. *)
Definition digitChar (k : Z) : ascii := ascii_of_nat (48 + Z.to_nat k).

(** A number below 100 on two digits, zero-padded. *)
Definition twoDigits (n : Z) : string :=
  String (digitChar (n / 10)) (String (digitChar (n mod 10)) EmptyString).

(** The condense levels: the numbers of [0, 220]. *)
Definition inRange (x : float) : bool :=
  PrimFloat.leb 0 x && PrimFloat.leb x MAX_CONDENSE_LEVEL.

(** An integer condense level as a number. *)
Definition levelOfZ (n : Z) : float := PrimFloat.of_uint63 (Uint63.of_Z n).

(** [n] is the difference of two instants in whole minutes: the integer
    nearest to the difference in minutes, half a minute counting up. *)
Definition wholeMinuteDifference (start end_ : Date) (n : Z) : Prop :=
  60000 * n - 30000 <= getTime end_ - getTime start < 60000 * n + 30000.

Section WithHost.
Variable host : Host.

(** [YYYY-MM-DD] in local time: the year in decimal, then month and day on
    two digits. *)
Definition dateText (d : Date) : string :=
  pretty (getFullYear (LocalTZA host) d) +:+ "-"
  +:+ twoDigits (getMonth (LocalTZA host) d + 1) +:+ "-"
  +:+ twoDigits (getDate (LocalTZA host) d).

(** [YYYY-MM-DD HH:MM] in local time. *)
Definition dateTimeText (d : Date) : string :=
  dateText d +:+ " " +:+ twoDigits (getHours (LocalTZA host) d) +:+ ":"
  +:+ twoDigits (getMinutes (LocalTZA host) d).

(** The instant falls exactly on a local midnight. *)
Definition atLocalMidnight (d : Date) : bool :=
  TimeWithinDay (LocalTime (LocalTZA host) (getTime d)) =? 0.

(** The instant falls in the first minute after a local midnight. *)
Definition inMidnightMinute (d : Date) : bool :=
  TimeWithinDay (LocalTime (LocalTZA host) (getTime d)) <? msPerMinute.

(** [m] is the local midnight that begins the day of [d]. *)
Definition localMidnightOf (d m : Date) : Prop :=
  getFullYear (LocalTZA host) m = getFullYear (LocalTZA host) d
  /\ getMonth (LocalTZA host) m = getMonth (LocalTZA host) d
  /\ getDate (LocalTZA host) m = getDate (LocalTZA host) d
  /\ atLocalMidnight m = true.

(** A field that is bound: named, and not by the empty name. *)
Definition boundField (field : option string) : option string :=
  if truthy_str field then field else None.

(** The frontmatter after a write-back: the start under the start field;
    with an end field and an end, the end under the end field and, when
    the difference in whole minutes is positive, that difference under
    [duration]; the all-day flag under the all-day field when both are
    given. *)
Definition writeBack (startField : string) (endField allDayField : option string)
  (newStart : Date) (newEnd : option Date) (allDay : option bool)
  (frontmatter : Frontmatter) : Frontmatter :=
  let fm1 := <[startField := VString (dateTimeText newStart)]> frontmatter in
  let fm2 :=
    match endField, newEnd with
    | Some endField, Some newEnd =>
        let fm := <[endField := VString (dateTimeText newEnd)]> fm1 in
        let minutes := (getTime newEnd - getTime newStart + 30000) / 60000 in
        if 0 <? minutes then <["duration" := VNumber minutes]> fm else fm
    | _, _ => fm1
    end in
  match allDayField, allDay with
  | Some allDayField, Some allDay => <[allDayField := VBool allDay]> fm2
  | _, _ => fm2
  end.

(** The paths the creation service tries, in order: [Title.md], then
    [Title YYYY-MM-DD.md], then [Title YYYY-MM-DD n.md] for n = 1, 2, ...;
    [day] is the date the suffix is taken from. *)
Definition candidatePath (folder title : string) (day : Date) (i : nat)
  : string :=
  match i with
  | O => normalizePath host (folder +:+ "/" +:+ title +:+ ".md")
  | S O =>
      normalizePath host
        (folder +:+ "/" +:+ title +:+ " " +:+ dateText day +:+ ".md")
  | S (S k) =>
      normalizePath host
        (folder +:+ "/" +:+ title +:+ " " +:+ dateText day +:+ " "
           +:+ pretty (Z.of_nat (S k)) +:+ ".md")
  end.

(** The paths of the loop of [buildUniquePath]: the dated path, then the
    numbered ones. *)
Definition laterPath (folder title : string) (day : Date) (n : nat) : string :=
  candidatePath folder title day (S n).

(** Path normalization keeps the numbered candidates apart. *)
Definition numberedApart (folder title : string) (day : Date) : Prop :=
  forall a b : Z,
    0 < a -> 0 < b ->
    NewEventService.numberedPath host folder title day a
    = NewEventService.numberedPath host folder title day b ->
    a = b.

End WithHost.

(** The interpolation of [calculateSlotZoom] in exact arithmetic, on the
    rationals, with the decimal constants of the source. *)
Definition exactSlotZoom (level : Q) : Q :=
  let safeLevel := Qmax 0 (Qmin 220 level) in
  let range := ((1 # 2) - (1 # 10))%Q in
  ((1 # 2) - (safeLevel / 220) * range)%Q.

(** From level [a] up to 220, no integer level has a greater zoom than
    [a] has. *)
Definition zoomAntitoneFrom (a : Z) : bool :=
  all_from (fun b => PrimFloat.leb (calculateSlotZoom (levelOfZ b))
                                   (calculateSlotZoom (levelOfZ a)))
    (Z.to_nat (221 - a)) a.

(** The start-date property of a record resolves to a date. *)
Definition resolves (startProp : BasesPropertyId) (record : BasesEntry) : bool :=
  match getValue record startProp with
  | Returned (Some (DateValue (Some _))) => true
  | _ => false
  end.

(** No record with a start date throws when its title property is read. *)
Definition titlesReadable (startProp : BasesPropertyId)
  (titleProp : option BasesPropertyId) (records : list BasesEntry) : Prop :=
  forall record title,
    In record records -> resolves startProp record = true ->
    titleProp = Some title -> truthy_str (Some title) = true ->
    getValue record title <> Thrown.

(** The overrides an object supplies: its string-valued properties whose
    trimmed value is not empty, under the lower-cased key. *)
Definition objectOverrides (props : list (string * Value))
  : list (string * string) :=
  omap (fun kv : string * Value =>
          match snd kv with
          | VString val =>
              if nonEmpty (trim val)
              then Some (toLowerCase (fst kv), trim val) else None
          | _ => None
          end) props.

(** The overrides a string supplies: for each of its non-blank segments
    between [,], [;] and line feeds, the trimmed text before the first colon
    as key, lower-cased, and the trimmed text between the first and the
    second colon as value, when neither is empty. *)
Definition stringOverrides (raw : string) : list (string * string) :=
  omap (fun segment : string =>
          match List.map trim (split isColon segment) with
          | key :: mapped :: _ =>
              if nonEmpty key && nonEmpty mapped
              then Some (toLowerCase key, mapped) else None
          | _ => None
          end)
       (List.filter nonEmpty (List.map trim (split isEntrySeparator raw))).

(** The overrides that an input of any shape supplies. *)
Definition overrides (value : Value) : list (string * string) :=
  if negb (truthy value) then []
  else
    match value with
    | VObject props => objectOverrides props
    | _ => stringOverrides (ToString value)
    end.

(** A map with overrides merged over it, the later ones winning. *)
Definition mergeOver (defaults : gmap string string)
  (supplied : list (string * string)) : gmap string string :=
  foldl (fun map kv => <[fst kv := snd kv]> map) defaults supplied.

(** A time of day as text: the hour in decimal, with a leading zero when
    [padded], then the minute and, when there is one, the second, on two
    digits each, with colons between. *)
Definition clockText (hour minute : Z) (second : option Z) (padded : bool)
  : string :=
  (if padded then twoDigits hour else pretty hour) +:+ ":" +:+ twoDigits minute
  +:+ match second with
      | Some sec => ":" +:+ twoDigits sec
      | None => ""
      end.

(** The text is a time of day: an hour of 0 to 23 on one or two digits, a
    minute of 0 to 59 and optionally a second of 0 to 59. *)
Definition clockTime (text : string) : Prop :=
  exists (hour minute : Z) (second : option Z) (padded : bool),
    0 <= hour <= 23 /\ 0 <= minute <= 59
    /\ match second with
       | Some sec => 0 <= sec <= 59
       | None => True
       end
    /\ text = clockText hour minute second padded.

(** The number of a day of the week, from its English name in lower case. *)
Definition dayNumber (name : string) : option Z :=
  if String.eqb name "sunday" then Some 0
  else if String.eqb name "monday" then Some 1
  else if String.eqb name "tuesday" then Some 2
  else if String.eqb name "wednesday" then Some 3
  else if String.eqb name "thursday" then Some 4
  else if String.eqb name "friday" then Some 5
  else if String.eqb name "saturday" then Some 6
  else None.

(** The integer nearest to a rational, half counting up. *)
Definition roundQ (q : Q) : Z := Qfloor (q + (1 # 2)).

(** The height of a slot at an integer level, in exact arithmetic: 72 times
    the zoom, rounded; and the zoom in hundredths, rounded. *)
Definition exactSlotHeight (level : Z) : Z :=
  roundQ (72 * exactSlotZoom (inject_Z level)).

Definition exactZoomHundredths (level : Z) : Z :=
  roundQ (100 * exactSlotZoom (inject_Z level)).

(** No timer of the view is pending, or one is, and it is the one that
    [refreshTimeout] holds. *)
Definition atMostOneRefresh (runtime : CalendarView.Runtime) : Prop :=
  pendingTimers (CalendarView.timers runtime) = ∅
  \/ exists id,
       CalendarView.refreshTimeout runtime = Some id
       /\ pendingTimers (CalendarView.timers runtime) = {[ id ]}.

(** The text of a property of a record, as [text] reads the values of the
    host: the property is [field] when one is configured and [fallback]
    otherwise; the text is empty when the record has no such property or
    the property cannot be read, and there is none when [text] fails on the
    value. *)
Definition readText (text : PropertyValue -> Access string) (record : BasesEntry)
  (field : option BasesPropertyId) (fallback : BasesPropertyId) : Access string :=
  match getValue record (if truthy_str field then default "" field else fallback) with
  | Returned (Some value) => text value
  | _ => Returned ""
  end.

(** A text as a key: trimmed and in lower case, [fallback] when nothing is
    left. *)
Definition keyOf (source fallback : string) : string :=
  if nonEmpty (toLowerCase (trim source)) then toLowerCase (trim source)
  else fallback.

(** The text styles that a style of the settings names: its parts between
    bars, trimmed and in lower case, the empty ones left out. *)
Definition textStyles (style : string) : list string :=
  List.filter nonEmpty
    (List.map (fun part => toLowerCase (trim part))
       (split CalendarReactView.isPipe style)).

(** The text does not begin with white space. *)
Definition trimmedStart (s : string) : Prop :=
  match s with
  | String c _ => isWhiteSpace c = false
  | EmptyString => True
  end.

(** A style map in the form that parsing leaves: keys in lower case, values
    trimmed and not empty. *)
Definition normalForm (map : gmap string string) : Prop :=
  forall k v, map !! k = Some v ->
    toLowerCase k = k /\ trim v = v /\ v <> "".

End Spec.

(** ** A host and a configuration for the examples *)
Module Examples.
Import JS Obsidian Utils.

(** Property identifiers are read as [type.name]. *)
Definition parseId (id : BasesPropertyId) : BasesProperty :=
  if String.prefix "note." id then
    let name := sliceFrom id 5 in mkBasesProperty NoteProperty name (Some name)
  else if String.prefix "formula." id then
    let name := sliceFrom id 8 in mkBasesProperty FormulaProperty name (Some name)
  else mkBasesProperty FileProperty id (Some id).

(** YAML reduced to lines of the form [key: text]. *)
Definition parseLine (line : string) : option (string * Value) :=
  match List.map trim (split isColon line) with
  | key :: text :: _ =>
      if nonEmpty key then Some (key, VString text) else None
  | _ => None
  end.

Definition isLineFeed (c : ascii) : bool := (nat_of_ascii c =? 10)%nat.

Definition parseLines (text : string) : Frontmatter :=
  list_to_map (omap parseLine (split isLineFeed text)).

Definition printLines (fields : Frontmatter) : string :=
  foldr (fun kv rest =>
           fst kv +:+ ": " +:+ ToString (snd kv) +:+ newline +:+ rest)
        "" (map_to_list fields).

(** Local time is UTC and paths are left as they are. *)
Definition utcHost : Host :=
  {| LocalTZA := 0;
     parsePropertyId := parseId;
     normalizePath := fun path => path;
     parseYaml := parseLines;
     stringifyYaml := printLines |}.

(** The same host, with parsed identifiers that have a [type] and a [name]
    and no [property] field. *)
Definition nameOnlyHost : Host :=
  {| LocalTZA := 0;
     parsePropertyId := fun id =>
       mkBasesProperty (prop_type (parseId id)) (prop_name (parseId id)) None;
     normalizePath := fun path => path;
     parseYaml := parseLines;
     stringifyYaml := printLines |}.

(** Values of the host read as their text; a date cannot be read. *)
Definition plainText (value : PropertyValue) : Access string :=
  match value with
  | OtherValue v => Returned (ToString v)
  | DateValue _ => Thrown
  end.

(** A task with a priority and a status. *)
Definition taskEntry (priority status : string) : BasesEntry :=
  {| file_path := "Tasks/Task.md";
     file_name := "Task.md";
     file_basename := "Task";
     getValue := fun id =>
       if String.eqb id "priority"
       then Returned (Some (OtherValue (VString priority)))
       else if String.eqb id "status"
       then Returned (Some (OtherValue (VString status)))
       else Returned None |}.

(** A record with no property at all. *)
Definition bareEntry (path basename : string) : BasesEntry :=
  {| file_path := path;
     file_name := basename +:+ ".md";
     file_basename := basename;
     getValue := fun _ => Returned None |}.

(** A record dated 2024-03-01 09:00 whose [note.title] cannot be read. *)
Definition unreadableTitleEntry : BasesEntry :=
  {| file_path := "Events/Broken.md";
     file_name := "Broken.md";
     file_basename := "Broken";
     getValue := fun id =>
       if String.eqb id "note.start"
       then Returned (Some (DateValue (Some (newDate 0 2024 2 1 9 0))))
       else if String.eqb id "note.title" then Thrown
       else Returned None |}.

(** A record dated 2024-03-02 10:00, titled "Review". *)
Definition datedEntry : BasesEntry :=
  {| file_path := "Events/Review.md";
     file_name := "Review.md";
     file_basename := "Review";
     getValue := fun id =>
       if String.eqb id "note.start"
       then Returned (Some (DateValue (Some (newDate 0 2024 2 2 10 0))))
       else if String.eqb id "note.title"
       then Returned (Some (OtherValue (VString "Review")))
       else Returned None |}.

(** A record whose [note.start] is text, one without [note.start], and one
    whose [note.start] cannot be read. *)
Definition textStartEntry : BasesEntry :=
  {| file_path := "Events/Text.md";
     file_name := "Text.md";
     file_basename := "Text";
     getValue := fun id =>
       if String.eqb id "note.start"
       then Returned (Some (OtherValue (VString "tomorrow")))
       else Returned None |}.

Definition unreadableStartEntry : BasesEntry :=
  {| file_path := "Events/Locked.md";
     file_name := "Locked.md";
     file_basename := "Locked";
     getValue := fun id =>
       if String.eqb id "note.start" then Thrown else Returned None |}.

(** A view bound to the note properties [start], [end] and [allDay]. *)
Definition noteView : CalendarView.View :=
  {| CalendarView.startDateProp := Some "note.start";
     CalendarView.endDateProp := Some "note.end";
     CalendarView.titleProp := None;
     CalendarView.allDayProperty := Some "note.allDay";
     CalendarView.data := None |}.

End Examples.

(* ===================================================================== *)
(** * Part II: properties *)
(* ===================================================================== *)

(** ** Strings *)
Module StringFacts.
Import JS.

Lemma append_cons (x : ascii) (a b : string) :
  String x a +:+ b = String x (a +:+ b).
Proof. reflexivity. Qed.

Lemma append_nil_l (b : string) : "" +:+ b = b.
Proof. reflexivity. Qed.

Lemma append_assoc (a b c : string) : (a +:+ b) +:+ c = a +:+ (b +:+ c).
Proof.
  induction a as [|x a IH]; [reflexivity|].
  rewrite !append_cons, IH. reflexivity.
Qed.

Lemma append_length (a b : string) :
  String.length (a +:+ b) = (String.length a + String.length b)%nat.
Proof.
  induction a as [|x a IH]; [reflexivity|].
  rewrite append_cons. simpl. rewrite IH. reflexivity.
Qed.

Lemma append_inj_l (a b c : string) : a +:+ c = b +:+ c -> a = b.
Proof.
  revert b. induction a as [|x a IH]; intros [|y b] H.
  - reflexivity.
  - apply (f_equal String.length) in H.
    rewrite !append_length in H. simpl in H. lia.
  - apply (f_equal String.length) in H.
    rewrite !append_length in H. simpl in H. lia.
  - rewrite !append_cons in H. injection H as -> H. f_equal. apply IH, H.
Qed.

End StringFacts.

(** ** Binary64 comparisons *)
Module FloatFacts.
Import JS.

Lemma SFcompare_swap (a b : spec_float) :
  SFcompare b a = option_map CompOpp (SFcompare a b).
Proof.
  destruct a as [sa|sa| |sa ma ea], b as [sb|sb| |sb mb eb]; simpl;
    try reflexivity; try (destruct sa; reflexivity);
    try (destruct sb; reflexivity); try (destruct sa, sb; reflexivity).
  rewrite (Z.compare_antisym ea eb).
  destruct sa, sb; simpl; try reflexivity;
    destruct (ea ?= eb); simpl; try reflexivity;
    rewrite ?CompOpp_involutive, ?Pos.compare_cont_antisym; reflexivity.
Qed.

Lemma SFcompare_refl (a : spec_float) :
  a <> S754_nan -> SFcompare a a = Some Eq.
Proof.
  destruct a as [s|s| |s m e]; simpl; intros H; try reflexivity;
    try (destruct s; reflexivity); try congruence.
  rewrite Z.compare_refl, Pos.compare_cont_refl. destruct s; reflexivity.
Qed.

Lemma is_nan_true (x : float) : PrimFloat.is_nan x = true -> x = PrimFloat.nan.
Proof.
  unfold PrimFloat.is_nan. rewrite FloatAxioms.eqb_spec. unfold SFeqb. intros H.
  apply Prim2SF_inj.
  destruct (Prim2SF x) as [s|s| |s m e] eqn:E; try reflexivity; exfalso.
  - discriminate H.
  - destruct s; discriminate H.
  - rewrite (SFcompare_refl (S754_finite s m e)) in H; discriminate.
Qed.

Lemma ltb_leb (x y : float) :
  PrimFloat.ltb x y = true -> PrimFloat.leb x y = true.
Proof.
  rewrite FloatAxioms.ltb_spec, FloatAxioms.leb_spec. unfold SFltb, SFleb.
  destruct (SFcompare _ _) as [[]|]; congruence.
Qed.

Lemma leb_not_ltb_eqb (x y : float) :
  PrimFloat.leb x y = true -> PrimFloat.ltb x y = false ->
  PrimFloat.eqb x y = true.
Proof.
  rewrite FloatAxioms.ltb_spec, FloatAxioms.leb_spec, FloatAxioms.eqb_spec.
  unfold SFltb, SFleb, SFeqb.
  destruct (SFcompare _ _) as [[]|]; congruence.
Qed.

Lemma eqb_sym (x y : float) : PrimFloat.eqb x y = PrimFloat.eqb y x.
Proof.
  rewrite !FloatAxioms.eqb_spec. unfold SFeqb.
  rewrite (SFcompare_swap (Prim2SF x) (Prim2SF y)).
  destruct (SFcompare _ _) as [[]|]; reflexivity.
Qed.

Lemma leb_not_nan_l (x y : float) :
  PrimFloat.leb x y = true -> PrimFloat.is_nan x = false.
Proof.
  unfold PrimFloat.is_nan. rewrite FloatAxioms.leb_spec, FloatAxioms.eqb_spec.
  unfold SFleb, SFeqb.
  destruct (Prim2SF x) eqn:E; simpl; try discriminate; intros _.
  - reflexivity.
  - destruct s; reflexivity.
  - rewrite Z.compare_refl, Pos.compare_cont_refl. destruct s; reflexivity.
Qed.

Lemma ltb_not_nan_l (x y : float) :
  PrimFloat.ltb x y = true -> PrimFloat.is_nan x = false.
Proof. intros H. apply (leb_not_nan_l x y), ltb_leb, H. Qed.

(** Two values that compare equal are the same value, unless they are the
    two zeros. *)
Lemma eqb_true_eq (x y : float) :
  PrimFloat.eqb x y = true -> is_neg_zero x = is_neg_zero y -> x = y.
Proof.
  unfold is_neg_zero.
  rewrite FloatAxioms.eqb_spec, !FloatAxioms.classify_spec. unfold SFeqb.
  intros H Hz. apply Prim2SF_inj. revert H Hz.
  destruct (Prim2SF x) as [sa|sa| |sa ma ea], (Prim2SF y) as [sb|sb| |sb mb eb];
    simpl; try discriminate.
  all: try (destruct sa, sb; simpl; intros; congruence).
  all: try (destruct sa; simpl; intros; congruence).
  all: try (destruct sb; simpl; intros; congruence).
  intros H _.
  destruct sa, sb; try discriminate H;
    destruct (ea ?= eb) eqn:E; try discriminate H;
    apply Z.compare_eq in E; subst eb;
    destruct (Pos.compare_cont Eq ma mb) eqn:E2; try discriminate H;
    apply Pos.compare_eq in E2; subst; reflexivity.
Qed.

End FloatFacts.

(** ** Dates *)
Module DateFacts.
Import JS.

(** Case analysis on every test of the goal, each outcome kept as an
    equation. *)
Ltac case_tests :=
  repeat match goal with
         | |- context [if ?b then _ else _] => destruct b eqn:?
         end.

(** Linear arithmetic with divisions and remainders by constants. *)
Ltac div_lia := Z.div_mod_to_equations; lia.

(** [YearFromDay] is the year the day falls in. *)
Lemma YearFromDay_spec (d : Z) :
  DayFromYear (YearFromDay d) <= d < DayFromYear (YearFromDay d + 1).
Proof. unfold YearFromDay, DayFromYear. case_tests; div_lia. Qed.

Lemma DaysInYear_spec (y : Z) :
  DayFromYear (y + 1) - DayFromYear y = DaysInYear y.
Proof. unfold DayFromYear, DaysInYear. case_tests; div_lia. Qed.

Lemma DaysInYear_cases (y : Z) : DaysInYear y = 365 \/ DaysInYear y = 366.
Proof. unfold DaysInYear. case_tests; auto. Qed.

(** No other year does: the years begin on increasing days. *)
Lemma DayFromYear_increasing (y y' : Z) :
  y < y' -> DayFromYear y < DayFromYear y'.
Proof. unfold DayFromYear. intros H. div_lia. Qed.

Lemma YearFromDay_unique (d y : Z) :
  DayFromYear y <= d < DayFromYear (y + 1) -> YearFromDay d = y.
Proof.
  intros H. pose proof (YearFromDay_spec d) as H'.
  destruct (Z.lt_trichotomy (YearFromDay d) y) as [Hlt|[Heq|Hgt]];
    [|exact Heq|].
  - assert (YearFromDay d + 1 <= y) as Hle by lia.
    destruct (Z.eq_dec (YearFromDay d + 1) y) as [E|E].
    + rewrite E in H'. lia.
    + pose proof (DayFromYear_increasing (YearFromDay d + 1) y ltac:(lia)). lia.
  - destruct (Z.eq_dec (y + 1) (YearFromDay d)) as [E|E].
    + rewrite <- E in H'. lia.
    + pose proof (DayFromYear_increasing (y + 1) (YearFromDay d) ltac:(lia)). lia.
Qed.

Lemma DayWithinYear_range (t : Z) :
  0 <= DayWithinYear t < 365 + InLeapYear t.
Proof.
  unfold DayWithinYear, InLeapYear, YearFromTime.
  pose proof (YearFromDay_spec (Day t)) as H.
  pose proof (DaysInYear_spec (YearFromDay (Day t))) as H1.
  destruct (DaysInYear_cases (YearFromDay (Day t))) as [E|E]; rewrite E in *;
    simpl; lia.
Qed.

Lemma InLeapYear_cases (t : Z) : InLeapYear t = 0 \/ InLeapYear t = 1.
Proof. unfold InLeapYear. destruct (_ =? _); auto. Qed.

Lemma MonthFromTime_range (t : Z) : 0 <= MonthFromTime t <= 11.
Proof. unfold MonthFromTime, monthOfDay. case_tests; lia. Qed.

Lemma DateFromTime_range (t : Z) : 1 <= DateFromTime t <= 31.
Proof.
  unfold DateFromTime, MonthFromTime.
  pose proof (DayWithinYear_range t) as H.
  destruct (InLeapYear_cases t) as [E|E]; rewrite E in *;
    unfold monthOfDay; case_tests; unfold monthStart; simpl; lia.
Qed.

(** The civil date of an instant names its day. *)
Lemma MakeDay_civil (t : Z) :
  MakeDay (YearFromTime t) (MonthFromTime t) (DateFromTime t) = Day t.
Proof.
  unfold MakeDay. pose proof (MonthFromTime_range t) as Hm.
  replace (MonthFromTime t / 12) with 0 by div_lia.
  replace (MonthFromTime t mod 12) with (MonthFromTime t) by div_lia.
  rewrite Z.add_0_r. fold (InLeapYear t).
  unfold DateFromTime, DayWithinYear. lia.
Qed.

Lemma HourFromTime_range (t : Z) : 0 <= HourFromTime t <= 23.
Proof. unfold HourFromTime. pose proof (Z.mod_pos_bound (t / msPerHour) 24). lia. Qed.

Lemma MinFromTime_range (t : Z) : 0 <= MinFromTime t <= 59.
Proof. unfold MinFromTime. pose proof (Z.mod_pos_bound (t / msPerMinute) 60). lia. Qed.

(** Midnight of a day. *)
Lemma Day_MakeDate_midnight (day : Z) : Day (MakeDate day (MakeTime 0 0 0 0)) = day.
Proof. unfold Day, MakeDate, MakeTime, msPerDay. simpl. Z.div_mod_to_equations; lia. Qed.

Lemma HourFromTime_midnight (day : Z) :
  HourFromTime (MakeDate day (MakeTime 0 0 0 0)) = 0.
Proof.
  unfold HourFromTime, MakeDate, MakeTime, msPerDay, msPerHour. simpl.
  Z.div_mod_to_equations; lia.
Qed.

Lemma MinFromTime_midnight (day : Z) :
  MinFromTime (MakeDate day (MakeTime 0 0 0 0)) = 0.
Proof.
  unfold MinFromTime, MakeDate, MakeTime, msPerDay, msPerMinute. simpl.
  Z.div_mod_to_equations; lia.
Qed.

(** The civil date of an instant depends on its day number only. *)
Lemma civil_same_day (t t' : Z) :
  Day t = Day t' ->
  YearFromTime t = YearFromTime t'
  /\ MonthFromTime t = MonthFromTime t'
  /\ DateFromTime t = DateFromTime t'.
Proof.
  intros H.
  assert (HY : YearFromTime t = YearFromTime t')
    by (unfold YearFromTime; rewrite H; reflexivity).
  assert (HL : InLeapYear t = InLeapYear t')
    by (unfold InLeapYear; rewrite HY; reflexivity).
  assert (HD : DayWithinYear t = DayWithinYear t')
    by (unfold DayWithinYear; rewrite HY, H; reflexivity).
  assert (HM : MonthFromTime t = MonthFromTime t')
    by (unfold MonthFromTime; rewrite HD, HL; reflexivity).
  repeat split; try assumption.
  unfold DateFromTime. rewrite HD, HM, HL. reflexivity.
Qed.

Lemma TimeWithinDay_midnight (day : Z) :
  TimeWithinDay (MakeDate day (MakeTime 0 0 0 0)) = 0.
Proof.
  unfold TimeWithinDay, MakeDate, MakeTime, msPerDay, msPerHour, msPerMinute,
    msPerSecond.
  Z.div_mod_to_equations; lia.
Qed.

Lemma LocalTime_UTC (tza t : Z) : LocalTime tza (UTC tza t) = t.
Proof. unfold LocalTime, UTC. lia. Qed.

Section Getters.
Variable tza : Z.

Lemma setHours_midnight_hours (d : Date) :
  getHours tza (setHours tza d 0 0 0 0) = 0.
Proof.
  unfold getHours, setHours. simpl. rewrite LocalTime_UTC.
  apply HourFromTime_midnight.
Qed.

Lemma setHours_midnight_minutes (d : Date) :
  getMinutes tza (setHours tza d 0 0 0 0) = 0.
Proof.
  unfold getMinutes, setHours. simpl. rewrite LocalTime_UTC.
  apply MinFromTime_midnight.
Qed.

Lemma setHours_midnight_seconds (d : Date) :
  getSeconds tza (setHours tza d 0 0 0 0) = 0
  /\ getMilliseconds tza (setHours tza d 0 0 0 0) = 0.
Proof.
  unfold getSeconds, getMilliseconds, setHours. simpl. rewrite LocalTime_UTC.
  unfold SecFromTime, msFromTime, MakeDate, MakeTime, msPerDay, msPerSecond. simpl.
  split; Z.div_mod_to_equations; lia.
Qed.

Lemma setHours_midnight_day (d : Date) :
  Day (LocalTime tza (getTime (setHours tza d 0 0 0 0)))
  = Day (LocalTime tza (getTime d)).
Proof. unfold setHours. simpl. rewrite LocalTime_UTC. apply Day_MakeDate_midnight. Qed.

Lemma setHours_midnight_civil (d : Date) :
  getFullYear tza (setHours tza d 0 0 0 0) = getFullYear tza d
  /\ getMonth tza (setHours tza d 0 0 0 0) = getMonth tza d
  /\ getDate tza (setHours tza d 0 0 0 0) = getDate tza d.
Proof. apply civil_same_day, setHours_midnight_day. Qed.

End Getters.
End DateFacts.

(** ** Formatting *)
Module FormatFacts.
Import JS Obsidian Utils Spec DateFacts StringFacts.

Lemma all_from_spec (p : Z -> bool) (n : nat) :
  forall lo, all_from p n lo = true ->
  forall i, lo <= i < lo + Z.of_nat n -> p i = true.
Proof.
  induction n as [|k IH]; intros lo H i Hi; [lia|].
  simpl in H. apply andb_true_iff in H as [H1 H2].
  destruct (Z.eq_dec i lo) as [->|]; [assumption|].
  apply (IH (lo + 1)); [assumption|lia].
Qed.

(** [String(n).padStart(2, "0")] writes a number below 100 on two digits. *)
Lemma padStart_twoDigits (n : Z) :
  0 <= n <= 99 -> padStart (pretty n) 2 "0" = twoDigits n.
Proof.
  intros Hn.
  assert (H : all_from (fun k => String.eqb (padStart (pretty k) 2 "0")
                                   (twoDigits k)) 100 0 = true)
    by (vm_compute; reflexivity).
  apply String.eqb_eq. apply (all_from_spec _ _ _ H n). lia.
Qed.

Section WithHost.
Variable host : Host.

Lemma dateSuffix_dateText (d : Date) :
  NewEventService.dateSuffix host d = dateText host d.
Proof.
  unfold NewEventService.dateSuffix, dateText.
  pose proof (MonthFromTime_range (LocalTime (LocalTZA host) (getTime d))).
  pose proof (DateFromTime_range (LocalTime (LocalTZA host) (getTime d))).
  rewrite !padStart_twoDigits by (unfold getMonth, getDate; lia).
  reflexivity.
Qed.

Lemma formatDateTimeForFrontmatter_text (d : Date) :
  formatDateTimeForFrontmatter host d = dateTimeText host d.
Proof.
  unfold formatDateTimeForFrontmatter, dateTimeText, dateText.
  pose proof (MonthFromTime_range (LocalTime (LocalTZA host) (getTime d))).
  pose proof (DateFromTime_range (LocalTime (LocalTZA host) (getTime d))).
  pose proof (HourFromTime_range (LocalTime (LocalTZA host) (getTime d))).
  pose proof (MinFromTime_range (LocalTime (LocalTZA host) (getTime d))).
  rewrite !padStart_twoDigits
    by (unfold getMonth, getDate, getHours, getMinutes; lia).
  rewrite !append_assoc. reflexivity.
Qed.

End WithHost.

Lemma pretty_year_length (y : Z) :
  1000 <= y <= 9999 -> String.length (pretty y) = 4%nat.
Proof.
  intros Hy.
  assert (H : all_from (fun k => Nat.eqb (String.length (pretty k)) 4)
                (Z.to_nat 9000) 1000 = true) by (vm_compute; reflexivity).
  apply Nat.eqb_eq. apply (all_from_spec _ _ _ H y). rewrite Z2Nat.id; lia.
Qed.

(** With a year of four digits the text has the 16 characters of
    [YYYY-MM-DD HH:MM]. *)
Lemma dateTimeText_length (host : Host) (d : Date) :
  1000 <= getFullYear (LocalTZA host) d <= 9999 ->
  String.length (dateTimeText host d) = 16%nat.
Proof.
  intros Hy. unfold dateTimeText, dateText.
  rewrite !append_length, (pretty_year_length _ Hy). reflexivity.
Qed.

End FormatFacts.

Module FormatRoundTrip.
Import JS Obsidian Utils Spec DateFacts FormatFacts.

(** The fields that the format prints rebuild the instant, cut to the
    minute. *)
Lemma newDate_of_fields (tza : Z) (d : Date) :
  getTime (newDate tza (getFullYear tza d) (getMonth tza d) (getDate tza d)
             (getHours tza d) (getMinutes tza d))
  = getTime d - (getSeconds tza d * msPerSecond + getMilliseconds tza d).
Proof.
  unfold newDate, getFullYear, getMonth, getDate. cbn [getTime].
  rewrite MakeDay_civil.
  unfold getHours, getMinutes, getSeconds, getMilliseconds, UTC, LocalTime,
    MakeDate, MakeTime, Day, HourFromTime, MinFromTime, SecFromTime, msFromTime,
    msPerDay, msPerHour, msPerMinute, msPerSecond.
  div_lia.
Qed.


End FormatRoundTrip.

(** ** The write-back and its specification *)
Module WriteBackFacts.
Import JS Obsidian Utils Spec CalendarView DateFacts FormatFacts.

Lemma round_div_minutes (n : Z) : round_div n (1000 * 60) = (n + 30000) / 60000.
Proof. unfold round_div. Z.div_mod_to_equations; lia. Qed.

Lemma wholeMinuteDifference_nearest (s e : Date) :
  wholeMinuteDifference s e ((getTime e - getTime s + 30000) / 60000).
Proof. unfold wholeMinuteDifference. Z.div_mod_to_equations; lia. Qed.

Lemma copyDate_id (d : Date) : copyDate d = d.
Proof. destruct d. reflexivity. Qed.

Section WithHost.
Variable host : Host.

Lemma getNoteField_falsy (p : option BasesPropertyId) :
  truthy_str p = false -> getNoteField host p = None.
Proof.
  destruct p as [id|]; [|reflexivity]. unfold getNoteField. intros ->. reflexivity.
Qed.

(** What passes the guards of [updateEntryDates]. *)
Lemma updateEntryDates_Some (view : View) (s : Date) (e : option Date)
  (ad : option bool) (write : Frontmatter -> Frontmatter) (sf : string) :
  getNoteField host (startDateProp view) = Some sf ->
  updateEntryDates host view s e ad = Some write ->
  write = writeDates host view sf (getNoteField host (endDateProp view))
            (getNoteField host (allDayProperty view)) s e ad
  /\ (truthy_str (endDateProp view) = true ->
      truthy_str (getNoteField host (endDateProp view)) = true).
Proof.
  intros Hsf. unfold updateEntryDates. rewrite Hsf. cbv zeta.
  destruct (truthy_str (startDateProp view)); cbn [negb]; [|discriminate].
  destruct (truthy_str (Some sf)); cbn [negb]; [|discriminate].
  destruct (truthy_str (endDateProp view)) eqn:E1;
    destruct (truthy_str (getNoteField host (endDateProp view))) eqn:E2;
    cbn [negb andb]; try discriminate; intros [= <-]; split; auto;
    intros; discriminate.
Qed.

Lemma writeDates_writeBack (view : View) (sf : string) (adf : option string)
  (s : Date) (e : option Date) (ad : option bool) (fm : Frontmatter) :
  (truthy_str (endDateProp view) = true ->
   truthy_str (getNoteField host (endDateProp view)) = true) ->
  writeDates host view sf (getNoteField host (endDateProp view)) adf s e ad fm
  = writeBack host sf (boundField (getNoteField host (endDateProp view)))
      (boundField adf) s e ad fm.
Proof.
  intros Hg. unfold writeDates, writeBack, boundField.
  rewrite !formatDateTimeForFrontmatter_text.
  assert (Hend :
    match e, getNoteField host (endDateProp view) with
    | Some newEnd, Some endField =>
        if truthy_str (endDateProp view) && truthy_str (Some endField)
        then
          if 0 <? round_div (getTime newEnd - getTime s) (1000 * 60)
          then <["duration" :=
                   VNumber (round_div (getTime newEnd - getTime s) (1000 * 60))]>
                 (<[endField := VString (formatDateTimeForFrontmatter host newEnd)]>
                    (<[sf := VString (dateTimeText host s)]> fm))
          else <[endField := VString (formatDateTimeForFrontmatter host newEnd)]>
                 (<[sf := VString (dateTimeText host s)]> fm)
        else <[sf := VString (dateTimeText host s)]> fm
    | _, _ => <[sf := VString (dateTimeText host s)]> fm
    end
    = match (if truthy_str (getNoteField host (endDateProp view))
             then getNoteField host (endDateProp view) else None), e with
      | Some endField, Some newEnd =>
          if 0 <? (getTime newEnd - getTime s + 30000) / 60000
          then <["duration" := VNumber ((getTime newEnd - getTime s + 30000) / 60000)]>
                 (<[endField := VString (dateTimeText host newEnd)]>
                    (<[sf := VString (dateTimeText host s)]> fm))
          else <[endField := VString (dateTimeText host newEnd)]>
                 (<[sf := VString (dateTimeText host s)]> fm)
      | _, _ => <[sf := VString (dateTimeText host s)]> fm
      end).
  { destruct (truthy_str (endDateProp view)) eqn:E1.
    - rewrite (Hg eq_refl).
      destruct (getNoteField host (endDateProp view)) as [ef|] eqn:E2;
        destruct e as [newEnd|]; try reflexivity.
      rewrite (Hg eq_refl). simpl.
      rewrite round_div_minutes, formatDateTimeForFrontmatter_text. reflexivity.
    - rewrite (getNoteField_falsy _ E1). simpl. destruct e; reflexivity. }
  cbv zeta. rewrite Hend.
  destruct adf as [f|], ad as [b|]; simpl; try reflexivity;
    try (destruct (negb (String.eqb f "")); reflexivity).
Qed.

End WithHost.
End WriteBackFacts.

(** ** Entry extraction *)
Module Extraction.
Import JS Obsidian Utils Spec CalendarView.
Local Open Scope list_scope.

Lemma extractDate_resolves (record : BasesEntry) (p : BasesPropertyId) :
  resolves p record = true <-> exists d, extractDate record p = Some d.
Proof.
  unfold resolves, extractDate.
  destruct (getValue record p) as [[[[d|]|v]|]|]; split;
    try discriminate; try (intros [d' H]; discriminate); eauto.
Qed.

(** A record whose start date does not resolve adds nothing and stops
    nothing. *)
Lemma extractStep_excluded (view : View) (p : BasesPropertyId)
  (entries : list CalendarEntry) (record : BasesEntry) :
  resolves p record = false -> extractStep view p entries record = Returned entries.
Proof.
  unfold resolves, extractStep, extractDate.
  destruct (getValue record p) as [[[[d|]|v]|]|]; try discriminate; reflexivity.
Qed.

Lemma extractStep_included (view : View) (p : BasesPropertyId)
  (entries : list CalendarEntry) (record : BasesEntry) :
  resolves p record = true ->
  (forall title, titleProp view = Some title -> truthy_str (Some title) = true ->
                 getValue record title <> Thrown) ->
  exists e, extractStep view p entries record = Returned (entries ++ [e])
            /\ entry e = record /\ extractDate record p = Some (startDate e).
Proof.
  intros Hr Ht. apply extractDate_resolves in Hr as [d Hd].
  unfold extractStep. rewrite Hd.
  destruct (titleProp view) as [title|] eqn:E.
  - destruct (truthy_str (Some title)) eqn:E2.
    + specialize (Ht title eq_refl E2).
      destruct (getValue record title) as [t|]; [|congruence].
      eexists. split; [reflexivity|]. split; reflexivity.
    + eexists. split; [reflexivity|]. split; reflexivity.
  - eexists. split; [reflexivity|]. split; reflexivity.
Qed.

(** When no title access throws, the loop ends normally, and the records of
    the entries it adds are the records whose start date resolves, in the
    order of the result set. *)
Lemma extractLoop_entries (view : View) (p : BasesPropertyId)
  (records : list BasesEntry) :
  forall entries,
    titlesReadable p (titleProp view) records ->
    exists added,
      extractLoop view p entries records = (entries ++ added, false)
      /\ List.map entry added = List.filter (resolves p) records
      /\ Forall (fun e => extractDate (entry e) p = Some (startDate e)) added.
Proof.
  induction records as [|record rest IH]; intros entries Ht.
  - exists []. rewrite app_nil_r.
    split; [reflexivity|]. split; [reflexivity|constructor].
  - assert (Ht' : titlesReadable p (titleProp view) rest).
    { intros r t Hin. apply Ht. right. exact Hin. }
    simpl. destruct (resolves p record) eqn:Hr.
    + destruct (extractStep_included view p entries record Hr) as (e & -> & He & Hd).
      { intros t H1 H2. apply (Ht record t); auto. left. reflexivity. }
      destruct (IH (entries ++ [e]) Ht') as (added & -> & Hm & Hf).
      exists (e :: added). rewrite <- app_assoc. simpl.
      split; [reflexivity|]. split; [congruence|].
      constructor; [rewrite He; exact Hd|exact Hf].
    + rewrite extractStep_excluded by exact Hr.
      destruct (IH entries Ht') as (added & -> & Hm & Hf).
      exists added. split; [reflexivity|]. split; assumption.
Qed.

(** X1.  The extraction pass when no title access throws: the entries rendered
    are those of the records whose start-date property resolves to a date,
    each with that date; records whose start date is absent, of another
    type, or throws are left out and stop nothing. *)
Theorem updateCalendar_extracts_resolvable (view : View)
  (startProp : BasesPropertyId) (records : list BasesEntry) :
  startDateProp view = Some startProp ->
  truthy_str (Some startProp) = true ->
  data view = Some records ->
  titlesReadable startProp (titleProp view) records ->
  exists entries,
    updateCalendar view = Rendered entries
    /\ List.map entry entries = List.filter (resolves startProp) records
    /\ Forall (fun e => extractDate (entry e) startProp = Some (startDate e))
         entries.
Proof.
  intros Hs Ht Hd Hr. unfold updateCalendar. rewrite Hd, Hs, Ht.
  destruct (extractLoop_entries view startProp records [] Hr)
    as (added & -> & Hm & Hf).
  exists added. split; [reflexivity|]. split; assumption.
Qed.

Lemma updateCalendar_extracts_resolvable_witness :
  exists entries,
    updateCalendar
      (mkView (Some "note.start") None None None
         (Some [Examples.textStartEntry; Examples.datedEntry;
                Examples.unreadableStartEntry;
                Examples.bareEntry "Events/Plain.md" "Plain"]))
    = Rendered entries
    /\ List.map entry entries = [Examples.datedEntry].
Proof.
  destruct (updateCalendar_extracts_resolvable
              (mkView (Some "note.start") None None None
                 (Some [Examples.textStartEntry; Examples.datedEntry;
                        Examples.unreadableStartEntry;
                        Examples.bareEntry "Events/Plain.md" "Plain"]))
              "note.start" _ eq_refl eq_refl eq_refl)
    as (entries & H1 & H2 & _).
  - intros record title _ _ H. discriminate H.
  - exists entries. split; [exact H1|exact H2].
Defined.

(** C1 at a result set on which the code departs from it: with a title
    property bound, a record whose start date resolves but whose title
    cannot be read makes the pass throw; nothing is rendered, and the dated
    record after it is never extracted. *)
Theorem updateCalendar_title_throw_aborts :
  let view :=
    mkView (Some "note.start") None (Some "note.title") None
      (Some [Examples.unreadableTitleEntry; Examples.datedEntry]) in
  updateCalendar view = Aborted []
  /\ List.filter (resolves "note.start")
       [Examples.unreadableTitleEntry; Examples.datedEntry]
     = [Examples.unreadableTitleEntry; Examples.datedEntry].
Proof. split; reflexivity. Qed.

End Extraction.

(** ** Write-back on drag and resize *)
Module WriteBack.
Import JS Obsidian Utils Spec CalendarView DateFacts FormatFacts WriteBackFacts.

(** An instant built from local fields has those local fields back. *)
Lemma newDate_local (tza y m d h mi : Z) :
  LocalTime tza (getTime (newDate tza y m d h mi))
  = MakeDate (MakeDay y m d) (MakeTime h mi 0 0).
Proof. unfold newDate. simpl. apply LocalTime_UTC. Qed.

Lemma dateTimeText_newDate (host : Host) (y m d h mi : Z) :
  dateTimeText host (newDate (LocalTZA host) y m d h mi)
  = let t := MakeDate (MakeDay y m d) (MakeTime h mi 0 0) in
    pretty (YearFromTime t) +:+ "-" +:+ twoDigits (MonthFromTime t + 1) +:+ "-"
    +:+ twoDigits (DateFromTime t) +:+ " " +:+ twoDigits (HourFromTime t)
    +:+ ":" +:+ twoDigits (MinFromTime t).
Proof.
  unfold dateTimeText, dateText, getFullYear, getMonth, getDate, getHours,
    getMinutes.
  rewrite !newDate_local. cbv zeta. rewrite !StringFacts.append_assoc.
  reflexivity.
Qed.



End WriteBack.

Module Rejections.
Import JS Obsidian Utils Spec CalendarView.

(** X3.  A resize needs an end date: without one the adapter writes nothing, and
    the component reverts the change without calling the adapter. *)
Theorem resize_requires_end (host : Host) (view : View)
  (newStart : Date) (allDay : option bool)
  (resizeInfo : CalendarReactView.EventChangeArg) :
  handleEventResize host view newStart None allDay = None
  /\ (CalendarReactView.event_end resizeInfo = None ->
      CalendarReactView.handleResize (Some (onEventResize host view)) resizeInfo
      = CalendarReactView.Reverted).
Proof.
  split; [reflexivity|]. intros H. unfold CalendarReactView.handleResize.
  rewrite H. destruct (CalendarReactView.event_start resizeInfo); reflexivity.
Qed.

(** X4.  A write-back is rejected, nothing being written, when the start-date
    property is not a note property, and when an end-date property is bound
    that is not a note property. *)
Theorem updateEntryDates_rejects_computed (host : Host) (view : View)
  (newStart : Date) (newEnd : option Date) (allDay : option bool) :
  (getNoteField host (startDateProp view) = None ->
   updateEntryDates host view newStart newEnd allDay = None)
  /\ (truthy_str (endDateProp view) = true ->
      getNoteField host (endDateProp view) = None ->
      updateEntryDates host view newStart newEnd allDay = None).
Proof.
  unfold updateEntryDates. split.
  - intros ->. destruct (negb _); reflexivity.
  - intros -> ->. destruct (negb _); [reflexivity|].
    destruct (getNoteField host (startDateProp view)); [|reflexivity].
    destruct (negb _); reflexivity.
Qed.

(** A view whose end date is a formula rejects a drag. *)
Lemma updateEntryDates_rejects_computed_witness :
  updateEntryDates Examples.utcHost
    (mkView (Some "note.start") (Some "formula.finish") None None None)
    (newDate 0 2024 2 1 9 0) (Some (newDate 0 2024 2 1 10 0)) None
  = None.
Proof.
  apply (proj2 (updateEntryDates_rejects_computed Examples.utcHost
                  (mkView (Some "note.start") (Some "formula.finish") None None None)
                  (newDate 0 2024 2 1 9 0) (Some (newDate 0 2024 2 1 10 0)) None));
    reflexivity.
Defined.

Lemma resize_requires_end_witness :
  CalendarReactView.handleResize
    (Some (onEventResize Examples.utcHost Examples.noteView))
    (CalendarReactView.mkEventChangeArg
       (Examples.bareEntry "Events/Meeting.md" "Meeting")
       (Some (newDate 0 2024 2 1 9 0)) None)
  = CalendarReactView.Reverted.
Proof.
  apply (proj2 (resize_requires_end Examples.utcHost Examples.noteView
                  (newDate 0 2024 2 1 9 0) None
                  (CalendarReactView.mkEventChangeArg
                     (Examples.bareEntry "Events/Meeting.md" "Meeting")
                     (Some (newDate 0 2024 2 1 9 0)) None))).
  reflexivity.
Defined.

End Rejections.

(** ** Unique paths for new events *)
Module UniquePath.
Import JS Obsidian Utils Spec NewEventService FormatFacts StringFacts.

(** Below a bound, a decidable property holds nowhere or has a least
    number. *)
Lemma none_or_least_below (P : nat -> Prop) (dec : forall n, Decision (P n))
  (bound : nat) :
  (forall j, (j < bound)%nat -> ~ P j)
  \/ exists m, (m < bound)%nat /\ P m /\ forall j, (j < m)%nat -> ~ P j.
Proof.
  induction bound as [|b [IH|(m & Hm & HP & Hmin)]].
  - left. intros j Hj. lia.
  - destruct (dec b) as [HP|HP].
    + right. exists b. split; [lia|]. split; [exact HP|exact IH].
    + left. intros j Hj. destruct (decide (j = b)) as [->|]; [exact HP|].
      apply IH. lia.
  - right. exists m. split; [lia|]. split; assumption.
Qed.

Lemma least_below (P : nat -> Prop) (dec : forall n, Decision (P n))
  (bound : nat) :
  (exists m, (m < bound)%nat /\ P m) ->
  exists m, (m < bound)%nat /\ P m /\ forall j, (j < m)%nat -> ~ P j.
Proof.
  intros (m & Hm & HP).
  destruct (none_or_least_below P dec bound) as [Hnone|Hleast];
    [|exact Hleast].
  exfalso. exact (Hnone m Hm HP).
Qed.

Section WithHost.
Variable host : Host.
Variables (vault : Vault) (folder title : string) (date : Date).

Lemma later_numbered (n : nat) :
  laterPath host folder title date (S n)
  = numberedPath host folder title date (Z.of_nat (S n)).
Proof.
  unfold laterPath, candidatePath, numberedPath. rewrite dateSuffix_dateText.
  reflexivity.
Qed.

Lemma fileExists_true (path : string) :
  fileExists vault path = true <-> path ∈ vault.
Proof. unfold fileExists. apply bool_decide_eq_true. Qed.

Lemma fileExists_false (path : string) :
  fileExists vault path = false <-> path ∉ vault.
Proof. unfold fileExists. apply bool_decide_eq_false. Qed.

(** The loop returns the first path that is free, given fuel to reach it. *)
Lemma uniquePathLoop_first_free (fuel : nat) :
  forall n m,
    (n <= m < n + fuel)%nat ->
    laterPath host folder title date m ∉ vault ->
    (forall j, (n <= j < m)%nat -> laterPath host folder title date j ∈ vault) ->
    uniquePathLoop host fuel vault folder title date
      (laterPath host folder title date n) (Z.of_nat (S n))
    = Some (laterPath host folder title date m).
Proof.
  induction fuel as [|fuel IH]; intros n m Hnm Hfree Hbusy; [lia|].
  simpl. destruct (decide (n = m)) as [->|Hne].
  - apply fileExists_false in Hfree. rewrite Hfree. reflexivity.
  - assert (Hn : laterPath host folder title date n ∈ vault) by (apply Hbusy; lia).
    apply fileExists_true in Hn. rewrite Hn.
    replace (Z.of_nat (S n) + 1) with (Z.of_nat (S (S n))) by lia.
    rewrite <- later_numbered.
    apply IH; [lia|exact Hfree|]. intros j Hj. apply Hbusy. lia.
Qed.

(** More numbered paths than the vault has files cannot all exist. *)
Lemma some_numbered_free :
  numberedApart host folder title date ->
  exists m, (m < S (S (size vault)))%nat /\ laterPath host folder title date m ∉ vault.
Proof.
  intros Hinj.
  set (numbers := seq 1 (S (size vault))).
  destruct (decide (Forall (fun m => laterPath host folder title date m ∈ vault)
                      numbers)) as [Hall|Hex].
  - exfalso.
    assert (Hnd : NoDup (laterPath host folder title date <$> numbers)).
    { apply NoDup_fmap_2_strong; [|apply NoDup_seq].
      intros x y Hx Hy Hxy. apply elem_of_seq in Hx, Hy.
      destruct x as [|x]; [lia|]. destruct y as [|y]; [lia|].
      rewrite !later_numbered in Hxy. apply Hinj in Hxy; lia. }
    assert (Hsub : (list_to_set (laterPath host folder title date <$> numbers)
                    : gset string) ⊆ vault).
    { intros p Hp. apply elem_of_list_to_set, list_elem_of_fmap in Hp
        as (m & -> & Hm).
      rewrite Forall_forall in Hall. apply Hall. exact Hm. }
    apply subseteq_size in Hsub.
    rewrite size_list_to_set in Hsub by exact Hnd.
    rewrite length_fmap in Hsub. unfold numbers in Hsub.
    rewrite length_seq in Hsub. lia.
  - apply not_Forall_Exists in Hex; [|intros m; apply _].
    apply Exists_exists in Hex as (m & Hm & Hfree).
    apply elem_of_seq in Hm. exists m. split; [lia|exact Hfree].
Qed.

Lemma buildUniquePath_first_free (fuel : nat) :
  numberedApart host folder title date ->
  (S (size vault) < fuel)%nat ->
  exists (i : nat) (path : string),
    buildUniquePath host fuel vault folder title date = Some path
    /\ path = candidatePath host folder title date i
    /\ (path ∉ vault)
    /\ forall j, (j < i)%nat -> candidatePath host folder title date j ∈ vault.
Proof.
  intros Hinj Hfuel. unfold buildUniquePath.
  destruct (fileExists vault (normalizePath host (folder +:+ "/" +:+ title +:+ ".md")))
    eqn:Hbase.
  - simpl.
    destruct (least_below (fun m => laterPath host folder title date m ∉ vault)
                (fun m => _)
                (S (S (size vault))) (some_numbered_free Hinj))
      as (m & Hm & Hfree & Hmin).
    exists (S m), (laterPath host folder title date m).
    rewrite dateSuffix_dateText.
    change (normalizePath host
              (folder +:+ "/" +:+ title +:+ " " +:+ dateText host date +:+ ".md"))
      with (laterPath host folder title date 0%nat).
    assert (Hbusy : forall j, (j < m)%nat -> laterPath host folder title date j ∈ vault).
    { intros j Hj.
      destruct (decide (laterPath host folder title date j ∈ vault))
        as [Hin|Hout]; [exact Hin|].
      exfalso. apply (Hmin j); [lia|exact Hout]. }
    pose proof (uniquePathLoop_first_free fuel 0 m ltac:(lia) Hfree
                  (fun j Hj => Hbusy j (proj2 Hj))) as Hloop.
    change (Z.of_nat 1) with 1 in Hloop. rewrite Hloop.
    split; [reflexivity|]. split; [reflexivity|]. split; [exact Hfree|].
    intros [|j] Hj.
    + apply fileExists_true. exact Hbase.
    + apply Hbusy. lia.
  - simpl. exists 0%nat. eexists. split; [reflexivity|].
    split; [reflexivity|]. split; [apply fileExists_false; exact Hbase|].
    intros j Hj. lia.
Qed.

End WithHost.

(** When paths are left as they are, the numbered candidates are apart. *)
Lemma numberedApart_identity (host : Host) (folder title : string) (date : Date) :
  (forall path, normalizePath host path = path) ->
  numberedApart host folder title date.
Proof.
  intros Hid a b _ _. unfold numberedPath. rewrite !Hid. intros H.
  repeat match type of H with
         | ?p +:+ _ = ?p +:+ _ => apply (String.app_inj p) in H
         end.
  apply append_inj_l in H. apply (inj pretty) in H. exact H.
Qed.

(** C3, as the code has it.  The path builder tries [Title.md], then
    [Title YYYY-MM-DD.md], then the same with [ 1], [ 2], ... appended, the
    date being the local date of its date argument, which [createEvent]
    takes from the start of the new event; given that path normalization
    keeps the numbered paths apart it returns the first of these that names
    no existing file. *)
Theorem buildUniquePath_returns_first_free (host : Host) (vault : Vault)
  (folder title : string) (date : Date) (fuel : nat) :
  numberedApart host folder title date ->
  (S (size vault) < fuel)%nat ->
  (exists (i : nat) (path : string),
     buildUniquePath host fuel vault folder title date = Some path
     /\ path = candidatePath host folder title date i
     /\ (path ∉ vault)
     /\ forall j, (j < i)%nat -> candidatePath host folder title date j ∈ vault)
  /\ (forall config rootPath prompted template start end_ path content,
        createEvent host fuel config vault rootPath (Some prompted) template
          start end_ = Some (path, content) ->
        buildUniquePath host fuel vault (resolveFolderPath host config rootPath)
          (trim prompted) start = Some path).
Proof.
  intros Hinj Hfuel. split; [apply buildUniquePath_first_free; assumption|].
  intros config rootPath prompted template start end_ path content.
  unfold createEvent.
  destruct (negb (nonEmpty prompted) || negb (nonEmpty (trim prompted)));
    [discriminate|].
  destruct (buildUniquePath _ _ _ _ _ _) as [p|]; [|discriminate].
  intros [= <- _]. reflexivity.
Qed.

(** A folder that holds [Meeting.md], the dated file and the first numbered
    one, for an event that starts on 2024-03-05. *)
Lemma buildUniquePath_returns_first_free_witness :
  let vault : Vault :=
    {[ "Events/Meeting.md"; "Events/Meeting 2024-03-05.md";
       "Events/Meeting 2024-03-05 1.md" ]} in
  let start := newDate 0 2024 2 5 10 0 in
  exists (i : nat) (path : string),
    buildUniquePath Examples.utcHost 5 vault "Events" "Meeting" start = Some path
    /\ path = candidatePath Examples.utcHost "Events" "Meeting" start i
    /\ (path ∉ vault)
    /\ forall j, (j < i)%nat ->
                 candidatePath Examples.utcHost "Events" "Meeting" start j ∈ vault.
Proof.
  intros vault start.
  apply (buildUniquePath_returns_first_free Examples.utcHost vault "Events"
           "Meeting" start 5).
  - apply numberedApart_identity. intros path. reflexivity.
  - vm_compute. lia.
Defined.

Example buildUniquePath_third_collision :
  buildUniquePath Examples.utcHost 5
    {[ "Events/Meeting.md"; "Events/Meeting 2024-03-05.md";
       "Events/Meeting 2024-03-05 1.md" ]}
    "Events" "Meeting" (newDate 0 2024 2 5 10 0)
  = Some "Events/Meeting 2024-03-05 2.md".
Proof. vm_compute. reflexivity. Qed.

(** Created on 2024-03-01 for an event that starts on 2024-03-05, in a folder
    that holds [Meeting.md]: the note is dated 2024-03-05, not with the date
    of the day. *)
Lemma createEvent_path_not_dated_today :
  let today := newDate 0 2024 2 1 8 0 in
  let start := newDate 0 2024 2 5 10 0 in
  let end_ := newDate 0 2024 2 5 11 0 in
  let config :=
    mkConfig (Some "note.start") (Some "note.end") None (Some "Events") None in
  let created :=
    createEvent Examples.utcHost 3 config {[ "Events/Meeting.md" ]} "/"
      (Some "Meeting") None start end_ in
  fst <$> created = Some "Events/Meeting 2024-03-05.md"
  /\ candidatePath Examples.utcHost "Events" "Meeting" today 1
     = "Events/Meeting 2024-03-01.md"
  /\ fst <$> created
     <> Some (candidatePath Examples.utcHost "Events" "Meeting" today 1).
Proof.
  cbv zeta.
  assert (H1 : fst <$> createEvent Examples.utcHost 3
                 (mkConfig (Some "note.start") (Some "note.end") None
                    (Some "Events") None)
                 {[ "Events/Meeting.md" ]} "/" (Some "Meeting") None
                 (newDate 0 2024 2 5 10 0) (newDate 0 2024 2 5 11 0)
               = Some "Events/Meeting 2024-03-05.md")
    by (vm_compute; reflexivity).
  assert (H2 : candidatePath Examples.utcHost "Events" "Meeting"
                 (newDate 0 2024 2 1 8 0) 1
               = "Events/Meeting 2024-03-01.md")
    by (vm_compute; reflexivity).
  split; [exact H1|]. split; [exact H2|].
  rewrite H1, H2. discriminate.
Qed.

End UniquePath.

(** ** All-day drops; drops through the component; event mapping *)
Module AllDayDrop.
Import JS Obsidian Utils Spec CalendarView DateFacts FormatFacts WriteBackFacts.

Section WithHost.
Variable host : Host.

(** [setHours(0, 0, 0, 0)] moves a date to the local midnight of its day. *)
Lemma setHours_localMidnightOf (d : Date) :
  localMidnightOf host d (setHours (LocalTZA host) (copyDate d) 0 0 0 0).
Proof.
  rewrite copyDate_id. unfold localMidnightOf, atLocalMidnight.
  destruct (setHours_midnight_civil (LocalTZA host) d) as (Hy & Hm & Hd).
  split; [exact Hy|]. split; [exact Hm|]. split; [exact Hd|].
  unfold setHours. cbn [getTime]. rewrite LocalTime_UTC, TimeWithinDay_midnight.
  reflexivity.
Qed.

Lemma dateTimeText_midnight (d : Date) :
  dateTimeText host (setHours (LocalTZA host) (copyDate d) 0 0 0 0)
  = dateText host d +:+ " 00:00".
Proof.
  rewrite copyDate_id. unfold dateTimeText, dateText.
  rewrite setHours_midnight_hours, setHours_midnight_minutes.
  destruct (setHours_midnight_civil (LocalTZA host) d) as (-> & -> & ->).
  reflexivity.
Qed.

End WithHost.



End AllDayDrop.

Module ComponentDrop.
Import JS Obsidian Utils Spec CalendarView DateFacts FormatFacts WriteBackFacts.



End ComponentDrop.

Module EventMapping.
Import JS Obsidian Utils Spec CalendarReactView DateFacts WriteBackFacts.

Lemma midnight_minute (t : Z) :
  (HourFromTime t = 0 /\ MinFromTime t = 0) <-> 0 <= TimeWithinDay t < msPerMinute.
Proof.
  unfold HourFromTime, MinFromTime, TimeWithinDay, msPerHour, msPerMinute,
    msPerDay.
  split; [intros [H1 H2]|intros H]; [|split]; Z.div_mod_to_equations; lia.
Qed.

Lemma inMidnightMinute_iff (host : Host) (d : Date) :
  inMidnightMinute host d = true
  <-> getHours (LocalTZA host) d = 0 /\ getMinutes (LocalTZA host) d = 0.
Proof.
  unfold inMidnightMinute, getHours, getMinutes. rewrite midnight_minute.
  rewrite Z.ltb_lt.
  pose proof (Z.mod_pos_bound (LocalTime (LocalTZA host) (getTime d)) msPerDay).
  unfold TimeWithinDay, msPerDay in *. lia.
Qed.

(** C4, as the code has it.  The event keeps the entry's start; its end is
    the entry's end, or the start plus 60 minutes when the entry has none;
    and it is all-day exactly when the local hour and minute of both are 0,
    that is, when both fall in the first minute after a local midnight. *)
Theorem toEvent_allDay (host : Host) (calEntry : CalendarEntry) :
  let ev := toEvent host calEntry in
  start ev = startDate calEntry
  /\ end_ ev = default (addMilliseconds (startDate calEntry) (60 * msPerMinute))
                 (endDate calEntry)
  /\ (allDay ev = true
      <-> getHours (LocalTZA host) (start ev) = 0
          /\ getMinutes (LocalTZA host) (start ev) = 0
          /\ getHours (LocalTZA host) (end_ ev) = 0
          /\ getMinutes (LocalTZA host) (end_ ev) = 0)
  /\ (allDay ev = true
      <-> inMidnightMinute host (start ev) = true
          /\ inMidnightMinute host (end_ ev) = true).
Proof.
  cbv zeta.
  assert (Hs : start (toEvent host calEntry) = startDate calEntry)
    by (unfold toEvent; simpl; apply copyDate_id).
  assert (He : end_ (toEvent host calEntry)
               = default (addMilliseconds (startDate calEntry) (60 * msPerMinute))
                   (endDate calEntry)).
  { unfold toEvent. simpl. destruct (endDate calEntry); simpl;
      rewrite copyDate_id; reflexivity. }
  assert (Ha : allDay (toEvent host calEntry) = true
               <-> getHours (LocalTZA host) (start (toEvent host calEntry)) = 0
                   /\ getMinutes (LocalTZA host) (start (toEvent host calEntry)) = 0
                   /\ getHours (LocalTZA host) (end_ (toEvent host calEntry)) = 0
                   /\ getMinutes (LocalTZA host) (end_ (toEvent host calEntry)) = 0).
  { unfold toEvent. cbn [allDay start end_].
    rewrite !andb_true_iff, !Z.eqb_eq. tauto. }
  split; [exact Hs|]. split; [exact He|]. split; [exact Ha|].
  rewrite Ha, !inMidnightMinute_iff. tauto.
Qed.

(** An entry from 00:00:30 on 2024-03-01 to the next midnight is mapped to an
    all-day event, though its start is not a midnight. *)
Lemma toEvent_allDay_not_exact_midnight :
  let calEntry :=
    mkCalendarEntry (Examples.bareEntry "Events/Meeting.md" "Meeting")
      (mkDate (getTime (newDate 0 2024 2 1 0 0) + 30 * msPerSecond))
      (Some (newDate 0 2024 2 2 0 0)) in
  ~ (allDay (toEvent Examples.utcHost calEntry) = true
     <-> atLocalMidnight Examples.utcHost (startDate calEntry) = true
         /\ atLocalMidnight Examples.utcHost
              (end_ (toEvent Examples.utcHost calEntry)) = true).
Proof.
  cbv zeta. intros [H _].
  assert (Ht : allDay (toEvent Examples.utcHost
                 (mkCalendarEntry (Examples.bareEntry "Events/Meeting.md" "Meeting")
                    (mkDate (getTime (newDate 0 2024 2 1 0 0) + 30 * msPerSecond))
                    (Some (newDate 0 2024 2 2 0 0)))) = true)
    by (vm_compute; reflexivity).
  destruct (H Ht) as [Hm _]. vm_compute in Hm. discriminate Hm.
Qed.

End EventMapping.

(** ** Style maps *)
Module StyleMapping.
Import JS Obsidian Utils Spec.
Local Open Scope list_scope.

(** A loop that sets a field for some of the items is a merge of the
    overrides those items supply. *)
Lemma foldl_step_omap {A : Type} (step : gmap string string -> A -> gmap string string)
  (supply : A -> option (string * string)) (items : list A) :
  (forall map item,
     step map item = match supply item with
                     | Some kv => <[fst kv := snd kv]> map
                     | None => map
                     end) ->
  forall defaults,
    foldl step defaults items = mergeOver defaults (omap supply items).
Proof.
  intros Hstep. unfold mergeOver.
  induction items as [|item rest IH]; intros defaults; [reflexivity|].
  simpl. rewrite Hstep. destruct (supply item) as [kv|]; simpl; apply IH.
Qed.

Lemma parseStyleMapping_mergeOver (value : Value) (defaults : gmap string string) :
  parseStyleMapping value defaults = mergeOver defaults (overrides value).
Proof.
  unfold parseStyleMapping, overrides.
  destruct (negb (truthy value)); [reflexivity|].
  assert (Hs : forall raw,
            foldl entryStep defaults
              (List.filter nonEmpty (List.map trim (split isEntrySeparator raw)))
            = mergeOver defaults (stringOverrides raw)).
  { intros raw. unfold stringOverrides. apply foldl_step_omap.
    intros map entry. unfold entryStep.
    destruct (List.map trim (split isColon entry)) as [|key [|mapped rest]];
      try reflexivity.
    destruct (nonEmpty key), (nonEmpty mapped); reflexivity. }
  destruct value; try apply Hs.
  unfold objectOverrides. apply foldl_step_omap.
  intros map [key val]. unfold objectStep. simpl.
  destruct val; try reflexivity. destruct (nonEmpty (trim s)); reflexivity.
Qed.

Lemma mergeOver_snoc (defaults : gmap string string)
  (supplied : list (string * string)) (kv : string * string) :
  mergeOver defaults (supplied ++ [kv])
  = <[fst kv := snd kv]> (mergeOver defaults supplied).
Proof. unfold mergeOver. rewrite foldl_app. reflexivity. Qed.

(** A merge keeps every key, and a key changes only to a supplied value. *)
Lemma mergeOver_lookup (defaults : gmap string string)
  (supplied : list (string * string)) (k : string) :
  mergeOver defaults supplied !! k = defaults !! k
  \/ exists v, In (k, v) supplied /\ mergeOver defaults supplied !! k = Some v.
Proof.
  induction supplied as [|[k' v'] supplied IH] using rev_ind; [left; reflexivity|].
  rewrite mergeOver_snoc. simpl.
  destruct (decide (k' = k)) as [->|Hne].
  - right. exists v'. rewrite lookup_insert_eq. split; [|reflexivity].
    apply in_or_app. right. left. reflexivity.
  - rewrite lookup_insert_ne by exact Hne.
    destruct IH as [IH|(v & Hin & IH)]; [left; exact IH|].
    right. exists v. split; [|exact IH]. apply in_or_app. left. exact Hin.
Qed.

Lemma mergeOver_keeps_keys (defaults : gmap string string)
  (supplied : list (string * string)) (k : string) :
  is_Some (defaults !! k) -> is_Some (mergeOver defaults supplied !! k).
Proof.
  intros H. destruct (mergeOver_lookup defaults supplied k) as [->|(v & _ & ->)];
    [exact H|eauto].
Qed.

Lemma objectOverrides_nonEmpty (props : list (string * Value)) (k v : string) :
  In (k, v) (objectOverrides props) -> v <> "".
Proof.
  unfold objectOverrides. intros H.
  apply list_elem_of_In, list_elem_of_omap in H as ([key val] & _ & H).
  simpl in H. destruct val; try discriminate.
  destruct (nonEmpty (trim s)) eqn:E; [|discriminate].
  injection H as _ <-. unfold nonEmpty in E.
  intros Hv. rewrite Hv in E. discriminate E.
Qed.

Lemma stringOverrides_nonEmpty (raw k v : string) :
  In (k, v) (stringOverrides raw) -> v <> "".
Proof.
  unfold stringOverrides. intros H.
  apply list_elem_of_In, list_elem_of_omap in H as (segment & _ & H).
  destruct (List.map trim (split isColon segment)) as [|key [|mapped rest]];
    try discriminate.
  destruct (nonEmpty key); [|discriminate].
  destruct (nonEmpty mapped) eqn:E; [|discriminate].
  injection H as _ <-. unfold nonEmpty in E.
  intros Hv. rewrite Hv in E. discriminate E.
Qed.

Lemma overrides_nonEmpty (value : Value) (k v : string) :
  In (k, v) (overrides value) -> v <> "".
Proof.
  unfold overrides. destruct (negb (truthy value)); [intros []|].
  destruct value; try apply stringOverrides_nonEmpty.
  apply objectOverrides_nonEmpty.
Qed.


Example parseStyleMapping_priority_colors :
  parseStyleMapping (VString "low:#111111; high:#222222")
    DEFAULT_PRIORITY_COLOR_MAP
  = <["high" := "#222222"]> (<["medium" := "#facc15"]>
      (<["normal" := "#60a5fa"]> (<["low" := "#111111"]> ∅))).
Proof. vm_compute. reflexivity. Qed.

Example parseStyleMapping_object :
  parseStyleMapping
    (VObject [("High", VString "  red "); ("low", VString "   ");
              ("normal", VNumber 3)])
    DEFAULT_PRIORITY_COLOR_MAP
  = <["high" := "red"]> DEFAULT_PRIORITY_COLOR_MAP.
Proof. vm_compute. reflexivity. Qed.

End StyleMapping.

(** ** Condense level and slot zoom *)
Module CondenseLevel.
Import JS Utils Spec CalendarView FloatFacts.

(** The clamp, branch by branch, away from NaN. *)
Lemma normalizeCondenseLevel_cases (x : float) :
  PrimFloat.is_nan x = false ->
  normalizeCondenseLevel x =
    if PrimFloat.ltb x MAX_CONDENSE_LEVEL
    then (if PrimFloat.ltb 0 x then x else 0%float)
    else MAX_CONDENSE_LEVEL.
Proof.
  intros Hx. unfold normalizeCondenseLevel, Math_min.
  replace (PrimFloat.is_nan MAX_CONDENSE_LEVEL) with false by reflexivity.
  rewrite Hx. simpl orb. cbv iota.
  replace (min_step PrimFloat.infinity MAX_CONDENSE_LEVEL)
    with MAX_CONDENSE_LEVEL by reflexivity.
  unfold min_step at 1.
  replace (is_pos_zero MAX_CONDENSE_LEVEL) with false by reflexivity.
  rewrite andb_false_r, orb_false_r.
  destruct (PrimFloat.ltb x MAX_CONDENSE_LEVEL) eqn:Hlt; [|reflexivity].
  unfold Math_max.
  replace (PrimFloat.is_nan 0) with false by reflexivity.
  rewrite Hx. simpl orb. cbv iota.
  replace (max_step PrimFloat.neg_infinity 0) with 0%float by reflexivity.
  unfold max_step.
  replace (is_neg_zero 0) with false by reflexivity.
  rewrite andb_false_r, orb_false_r. reflexivity.
Qed.

Lemma normalizeCondenseLevel_inRange (x : float) :
  PrimFloat.is_nan x = false -> inRange (normalizeCondenseLevel x) = true.
Proof.
  intros Hx. rewrite normalizeCondenseLevel_cases by assumption.
  unfold inRange.
  destruct (PrimFloat.ltb x MAX_CONDENSE_LEVEL) eqn:H1; [|reflexivity].
  destruct (PrimFloat.ltb 0 x) eqn:H2; [|reflexivity].
  rewrite (ltb_leb _ _ H1), (ltb_leb _ _ H2). reflexivity.
Qed.

Lemma inRange_not_nan (x : float) :
  inRange x = true -> PrimFloat.is_nan x = false.
Proof.
  unfold inRange. intros H. apply andb_true_iff in H as [_ H1].
  apply (leb_not_nan_l _ _ H1).
Qed.

Lemma normalizeCondenseLevel_fixes (x : float) :
  inRange x = true -> PrimFloat.eqb (normalizeCondenseLevel x) x = true.
Proof.
  intros H. pose proof (inRange_not_nan x H) as Hx.
  unfold inRange in H. apply andb_true_iff in H as [H0 H1].
  rewrite normalizeCondenseLevel_cases by assumption.
  destruct (PrimFloat.ltb x MAX_CONDENSE_LEVEL) eqn:E1.
  - destruct (PrimFloat.ltb 0 x) eqn:E2.
    + unfold PrimFloat.is_nan in Hx. apply negb_false_iff in Hx. exact Hx.
    + apply leb_not_ltb_eqb; assumption.
  - rewrite eqb_sym. apply leb_not_ltb_eqb; assumption.
Qed.

Lemma normalizeCondenseLevel_idem (x : float) :
  normalizeCondenseLevel (normalizeCondenseLevel x) = normalizeCondenseLevel x.
Proof.
  destruct (PrimFloat.is_nan x) eqn:Hx.
  - apply is_nan_true in Hx. subst x. reflexivity.
  - rewrite (normalizeCondenseLevel_cases x Hx).
    destruct (PrimFloat.ltb x MAX_CONDENSE_LEVEL) eqn:E1; [|reflexivity].
    destruct (PrimFloat.ltb 0 x) eqn:E2; [|reflexivity].
    rewrite (normalizeCondenseLevel_cases x Hx), E1, E2. reflexivity.
Qed.

(** C6, as the code has it.  For every number [x] that is not NaN the
    normalized level lies in [0, 220]; it equals [x] when [x] lies in
    [0, 220], and is [x] itself unless [x] is the negative zero; and
    normalizing twice is normalizing once.  NaN is normalized to NaN. *)
Theorem normalizeCondenseLevel_clamps (x : float) :
  (PrimFloat.is_nan x = false ->
   inRange (normalizeCondenseLevel x) = true
   /\ (inRange x = true ->
       PrimFloat.eqb (normalizeCondenseLevel x) x = true
       /\ (is_neg_zero x = false -> normalizeCondenseLevel x = x))
   /\ PrimFloat.eqb (normalizeCondenseLevel (normalizeCondenseLevel x))
        (normalizeCondenseLevel x) = true)
  /\ normalizeCondenseLevel (normalizeCondenseLevel x) = normalizeCondenseLevel x
  /\ (PrimFloat.is_nan x = true -> normalizeCondenseLevel x = PrimFloat.nan).
Proof.
  split; [|split].
  - intros Hx. pose proof (normalizeCondenseLevel_inRange x Hx) as Hr.
    split; [exact Hr|]. split.
    + intros Hin. pose proof (normalizeCondenseLevel_fixes x Hin) as He.
      split; [exact He|]. intros Hz. apply eqb_true_eq; [exact He|].
      rewrite Hz. rewrite normalizeCondenseLevel_cases by exact Hx.
      destruct (PrimFloat.ltb x MAX_CONDENSE_LEVEL); [|reflexivity].
      destruct (PrimFloat.ltb 0 x); [exact Hz|reflexivity].
    + rewrite normalizeCondenseLevel_idem.
      pose proof (inRange_not_nan _ Hr) as Hn.
      unfold PrimFloat.is_nan in Hn. apply negb_false_iff in Hn. exact Hn.
  - apply normalizeCondenseLevel_idem.
  - intros Hx. apply is_nan_true in Hx. subst x. reflexivity.
Qed.

(** Levels above, inside and below the range. *)
Lemma normalizeCondenseLevel_clamps_witness :
  normalizeCondenseLevel 300 = 220%float
  /\ normalizeCondenseLevel 80 = 80%float
  /\ normalizeCondenseLevel (-5) = 0%float
  /\ inRange (normalizeCondenseLevel PrimFloat.infinity) = true.
Proof.
  split; [reflexivity|]. split.
  - destruct (normalizeCondenseLevel_clamps 80) as [H _].
    destruct (H eq_refl) as (_ & H1 & _).
    destruct (H1 eq_refl) as [_ H2]. exact (H2 eq_refl).
  - split; [reflexivity|].
    destruct (normalizeCondenseLevel_clamps PrimFloat.infinity) as [H _].
    exact (proj1 (H eq_refl)).
Defined.

(** NaN is a number that the normalization leaves outside [0, 220]. *)
Lemma normalizeCondenseLevel_nan_not_inRange :
  normalizeCondenseLevel PrimFloat.nan = PrimFloat.nan
  /\ inRange (normalizeCondenseLevel PrimFloat.nan) = false
  /\ PrimFloat.eqb (normalizeCondenseLevel (normalizeCondenseLevel PrimFloat.nan))
       (normalizeCondenseLevel PrimFloat.nan) = false.
Proof. repeat split. Qed.

End CondenseLevel.

Module SlotZoom.
Import JS Utils Spec CalendarView FloatFacts FormatFacts.

Lemma zoomAntitone_checked : all_from zoomAntitoneFrom 221 0 = true.
Proof. vm_compute. reflexivity. Qed.

Lemma calculateSlotZoom_antitone_levels (a b : Z) :
  0 <= a -> a <= b -> b <= 220 ->
  PrimFloat.leb (calculateSlotZoom (levelOfZ b))
    (calculateSlotZoom (levelOfZ a)) = true.
Proof.
  intros Ha Hab Hb.
  assert (H := all_from_spec _ _ _ zoomAntitone_checked a ltac:(lia)).
  unfold zoomAntitoneFrom in H.
  apply (all_from_spec _ _ _ H b). rewrite Z2Nat.id; lia.
Qed.

Lemma exact_clamp (a : Q) :
  (0 <= a)%Q -> (a <= 220)%Q -> (Qmax 0 (Qmin 220 a) == a)%Q.
Proof.
  intros H0 H1. rewrite (Q.min_r 220 a) by exact H1. apply Q.max_r. exact H0.
Qed.

(** In exact arithmetic the interpolation does not increase over [0, 220]. *)
Lemma exactSlotZoom_antitone (a b : Q) :
  (0 <= a)%Q -> (a <= b)%Q -> (b <= 220)%Q ->
  (exactSlotZoom b <= exactSlotZoom a)%Q.
Proof.
  intros H0 Hab Hb. unfold exactSlotZoom. cbv zeta.
  rewrite (exact_clamp a), (exact_clamp b) by lra.
  unfold Qdiv. change (/ 220)%Q with (1 # 220)%Q. lra.
Qed.




End SlotZoom.

(** ** Content of a new note *)
Module NoteContent.
Import JS Obsidian Utils Spec NewEventService FormatFacts.

Lemma assignFields_lookup (fmObj : Frontmatter) (fields : gmap string string)
  (k : string) :
  assignFields fmObj fields !! k
  = match fields !! k with
    | Some v => Some (VString v)
    | None => fmObj !! k
    end.
Proof.
  unfold assignFields. rewrite lookup_union, lookup_fmap.
  destruct (fields !! k); simpl.
  - destruct (fmObj !! k); reflexivity.
  - destruct (fmObj !! k); reflexivity.
Qed.

Lemma isAllDay_midnight_minutes (host : Host) (start end_ : Date) :
  isAllDay host start end_
  = inMidnightMinute host start && inMidnightMinute host end_.
Proof.
  apply eq_true_iff_eq. unfold isAllDay.
  rewrite !andb_true_iff, !EventMapping.inMidnightMinute_iff, !Z.eqb_eq. tauto.
Qed.

(** The computed fields: the title, the start and the end under the fields
    bound to them, as [YYYY-MM-DD HH:MM], and the all-day flag as text. *)
Lemma buildFrontmatter_fields (host : Host) (config : NewEventServiceConfig)
  (title : string) (start end_ : Date) :
  buildFrontmatter host config title start end_
  = let fields : gmap string string := {[ "title" := title ]} in
    let fields :=
      match boundField (noteField host (startProperty config)) with
      | Some f => <[f := dateTimeText host start]> fields
      | None => fields
      end in
    let fields :=
      match boundField (noteField host (endProperty config)) with
      | Some f => <[f := dateTimeText host end_]> fields
      | None => fields
      end in
    <[default "allDay" (noteField host (allDayProperty config))
        := if inMidnightMinute host start && inMidnightMinute host end_
           then "true" else "false"]> fields.
Proof.
  unfold buildFrontmatter, boundField. cbv zeta.
  rewrite !formatDateTimeForFrontmatter_text, isAllDay_midnight_minutes.
  destruct (noteField host (startProperty config)) as [sf|];
    destruct (noteField host (endProperty config)) as [ef|];
    try destruct (truthy_str (Some sf)); try destruct (truthy_str (Some ef));
    reflexivity.
Qed.



End NoteContent.

(** ** White space and letter case *)
Module TrimFacts.
Import JS Spec StringFacts.

Lemma append_nil_r (a : string) : a +:+ "" = a.
Proof. induction a as [|x a IH]; [reflexivity|]. rewrite append_cons, IH. reflexivity. Qed.

Lemma rev_app_append (a b : string) : String.rev_app a b = String.rev a +:+ b.
Proof.
  unfold String.rev. revert b. induction a as [|x a IH]; intros b; [reflexivity|].
  cbn [String.rev_app]. rewrite (IH (String x b)), (IH (String x "")).
  rewrite append_assoc. reflexivity.
Qed.

Lemma rev_cons (x : ascii) (a : string) :
  String.rev (String x a) = String.rev a +:+ String x "".
Proof. unfold String.rev at 1. cbn [String.rev_app]. apply rev_app_append. Qed.

Lemma rev_append (a b : string) :
  String.rev (a +:+ b) = String.rev b +:+ String.rev a.
Proof.
  induction a as [|x a IH].
  - rewrite append_nil_l. symmetry. apply append_nil_r.
  - rewrite append_cons, !rev_cons, IH, append_assoc. reflexivity.
Qed.

Lemma rev_involutive (a : string) : String.rev (String.rev a) = a.
Proof.
  induction a as [|x a IH]; [reflexivity|].
  rewrite rev_cons, rev_append, IH. reflexivity.
Qed.

Lemma trimStart_trimmedStart (s : string) : trimmedStart (trimStart s).
Proof.
  induction s as [|c s IH]; [exact I|]. cbn [trimStart].
  destruct (isWhiteSpace c) eqn:E; [exact IH|exact E].
Qed.

Lemma trimStart_fixed (s : string) : trimmedStart s -> trimStart s = s.
Proof. destruct s as [|c s]; [reflexivity|]. cbn. intros ->. reflexivity. Qed.

Lemma trimStart_suffix (s : string) : exists pre, s = pre +:+ trimStart s.
Proof.
  induction s as [|c s [pre IH]]; [exists ""; reflexivity|]. cbn [trimStart].
  destruct (isWhiteSpace c).
  - exists (String c pre). rewrite append_cons, <- IH. reflexivity.
  - exists "". reflexivity.
Qed.

(** A text that begins with a text that is not empty begins as that one. *)
Lemma trimmedStart_prefix (a b : string) :
  a <> "" -> trimmedStart (a +:+ b) -> trimmedStart a.
Proof. destruct a as [|c a]; [congruence|]. intros _ H. exact H. Qed.

Lemma trim_idem (s : string) : trim (trim s) = trim s.
Proof.
  unfold trim, trimEnd.
  set (t := trimStart s). set (u := trimStart (String.rev t)).
  assert (Hu : trimmedStart (String.rev u)).
  { destruct (trimStart_suffix (String.rev t)) as [pre Hpre]. fold u in Hpre.
    destruct (String.rev u) as [|c r] eqn:Er; [exact I|].
    assert (Ht : t = String.rev u +:+ String.rev pre).
    { rewrite <- rev_append, <- Hpre. symmetry. apply rev_involutive. }
    apply (trimmedStart_prefix _ (String.rev pre)); [discriminate|].
    rewrite <- Er, <- Ht. apply trimStart_trimmedStart. }
  rewrite (trimStart_fixed _ Hu), rev_involutive.
  rewrite (trimStart_fixed u); [reflexivity|]. apply trimStart_trimmedStart.
Qed.

Lemma toLowerChar_idem (c : ascii) : toLowerChar (toLowerChar c) = toLowerChar c.
Proof.
  destruct c as [[] [] [] [] [] [] [] []]; reflexivity.
Qed.

Lemma toLowerCase_idem (s : string) : toLowerCase (toLowerCase s) = toLowerCase s.
Proof.
  induction s as [|c s IH]; [reflexivity|].
  cbn [toLowerCase]. rewrite toLowerChar_idem, IH. reflexivity.
Qed.

End TrimFacts.

(** ** The hour window *)
Module HourWindow.
Import JS Obsidian Utils Spec CalendarView FormatFacts StringFacts.

Lemma charIs_eq (x c : ascii) : charIs x c = true -> c = x.
Proof.
  unfold charIs. intros H. apply Nat.eqb_eq in H.
  rewrite <- (ascii_nat_embedding c), <- (ascii_nat_embedding x), H. reflexivity.
Qed.

Lemma charRange_digit (hi c : ascii) :
  charRange "0" hi c = true ->
  exists d, 0 <= d <= Z.of_nat (nat_of_ascii hi) - 48 /\ c = digitChar d.
Proof.
  unfold charRange. intros H. apply andb_true_iff in H as [H1 H2].
  apply Nat.leb_le in H1, H2. change (nat_of_ascii "0") with 48%nat in H1.
  exists (Z.of_nat (nat_of_ascii c) - 48). split; [lia|].
  unfold digitChar.
  replace (48 + Z.to_nat (Z.of_nat (nat_of_ascii c) - 48))%nat
    with (nat_of_ascii c) by lia.
  symmetry. apply ascii_nat_embedding.
Qed.

Lemma two_digits (a b : Z) :
  0 <= a <= 9 -> 0 <= b <= 9 ->
  String (digitChar a) (String (digitChar b) "") = twoDigits (10 * a + b).
Proof.
  intros Ha Hb. unfold twoDigits.
  replace ((10 * a + b) / 10) with a by (Z.div_mod_to_equations; lia).
  replace ((10 * a + b) mod 10) with b by (Z.div_mod_to_equations; lia).
  reflexivity.
Qed.

Lemma one_digit (a : Z) : 0 <= a <= 9 -> String (digitChar a) "" = pretty a.
Proof.
  intros Ha.
  assert (H : all_from (fun k => String.eqb (String (digitChar k) "") (pretty k))
                10 0 = true) by (vm_compute; reflexivity).
  apply String.eqb_eq. apply (all_from_spec _ _ _ H a). lia.
Qed.

(** Taking the class tests of a hypothesis apart into digits. *)
Ltac digits H :=
  repeat match type of H with
         | _ && _ = true =>
             let H1 := fresh "Hc" in apply andb_true_iff in H as [H1 H]
         end;
  repeat match goal with
         | Hc : charIs _ _ = true |- _ => apply charIs_eq in Hc; subst
         | Hc : charRange "0" _ _ = true |- _ =>
             let d := fresh "d" in
             let Hd := fresh "Hd" in
             apply charRange_digit in Hc as (d & Hd & ->);
             match type of Hd with
             | _ <= _ <= ?u =>
                 let v := eval vm_compute in u in change u with v in Hd
             end
         end.

(** The time of day that a text of digits and colons spells. *)
Ltac spell :=
  change "2"%char with (digitChar 2);
  match goal with
  | |- clockTime (String (digitChar ?h) (String ":"
         (String (digitChar ?m1) (String (digitChar ?m2) "")))) =>
      exists h, (10 * m1 + m2), None, false
  | |- clockTime (String (digitChar ?h1) (String (digitChar ?h2) (String ":"
         (String (digitChar ?m1) (String (digitChar ?m2) ""))))) =>
      exists (10 * h1 + h2), (10 * m1 + m2), None, true
  | |- clockTime (String (digitChar ?h) (String ":"
         (String (digitChar ?m1) (String (digitChar ?m2) (String ":"
         (String (digitChar ?s1) (String (digitChar ?s2) ""))))))) =>
      exists h, (10 * m1 + m2), (Some (10 * s1 + s2)), false
  | |- clockTime (String (digitChar ?h1) (String (digitChar ?h2) (String ":"
         (String (digitChar ?m1) (String (digitChar ?m2) (String ":"
         (String (digitChar ?s1) (String (digitChar ?s2) "")))))))) =>
      exists (10 * h1 + h2), (10 * m1 + m2), (Some (10 * s1 + s2)), true
  end;
  (split; [lia|]); (split; [lia|]); (split; [first [exact I|lia]|]);
  unfold clockText; rewrite <- ?one_digit, <- ?two_digits by lia; reflexivity.

Lemma timeRegex_clockTime (s : string) :
  RegExp_test timeRegex s = true -> clockTime s.
Proof.
  unfold RegExp_test, timeRegex. cbn [matchFrom].
  destruct s as [|c1 [|c2 [|c3 [|c4 [|c5 [|c6 [|c7 [|c8 [|c9 s]]]]]]]]];
    cbn [String.eqb];
    rewrite ?andb_false_r, ?orb_false_r, ?orb_false_l; try discriminate;
    intros H.
  - digits H. spell.
  - apply orb_true_iff in H as [H|H]; digits H; spell.
  - digits H. spell.
  - apply orb_true_iff in H as [H|H]; digits H; spell.
Qed.

Lemma class_digit (hi : ascii) (k d : Z) :
  Z.of_nat (nat_of_ascii hi) - 48 = k -> k <= 9 -> 0 <= d <= k ->
  charRange "0" hi (digitChar d) = true.
Proof.
  intros Hk Hhi Hd. unfold charRange, digitChar.
  rewrite nat_ascii_embedding by lia.
  change (nat_of_ascii "0") with 48%nat.
  apply andb_true_iff. split; apply Nat.leb_le; lia.
Qed.

Lemma pretty_two_digits (n : Z) : 10 <= n <= 99 -> pretty n = twoDigits n.
Proof.
  intros Hn.
  assert (H : all_from (fun k => String.eqb (pretty k) (twoDigits k)) 90 10 = true)
    by (vm_compute; reflexivity).
  apply String.eqb_eq. apply (all_from_spec _ _ _ H n). lia.
Qed.

(** The tests of one alternative hold, on digits that are in range. *)
Ltac classes :=
  repeat first
    [ reflexivity
    | eapply class_digit; [vm_compute; reflexivity|lia|lia]
    | apply andb_true_iff; split
    | apply orb_true_iff; left ].

Lemma clockTime_timeRegex (s : string) :
  clockTime s -> RegExp_test timeRegex s = true /\ s <> "".
Proof.
  intros (h & mi & sec & padded & Hh & Hm & Hs & ->).
  split.
  2:{ intros E. apply (f_equal String.length) in E. unfold clockText in E.
      rewrite !append_length in E. simpl in E. lia. }
  assert (Hmi : 0 <= mi / 10 <= 5 /\ 0 <= mi mod 10 <= 9)
    by (Z.div_mod_to_equations; lia).
  assert (Hhd : 0 <= h mod 10 <= 9) by (Z.div_mod_to_equations; lia).
  assert (Hsec : match sec with
                 | Some x => 0 <= x / 10 <= 5 /\ 0 <= x mod 10 <= 9
                 | None => True
                 end).
  { destruct sec; [Z.div_mod_to_equations; lia|exact I]. }
  assert (Hhour :
    (h <= 9 /\ (if padded then twoDigits h else pretty h)
               = String (digitChar h) "")
    \/ ((h / 10 = 0 \/ h / 10 = 1)
        /\ (if padded then twoDigits h else pretty h) = twoDigits h)
    \/ (h / 10 = 2 /\ 0 <= h mod 10 <= 3
        /\ (if padded then twoDigits h else pretty h) = twoDigits h)).
  { destruct padded.
    - right. destruct (Z.le_gt_cases 20 h).
      + right. split; [|split; [|reflexivity]]; Z.div_mod_to_equations; lia.
      + left. split; [|reflexivity]. Z.div_mod_to_equations; lia.
    - destruct (Z.le_gt_cases h 9).
      + left. split; [lia|]. symmetry. apply one_digit. lia.
      + right. rewrite pretty_two_digits by lia. destruct (Z.le_gt_cases 20 h).
        * right. split; [|split; [|reflexivity]]; Z.div_mod_to_equations; lia.
        * left. split; [|reflexivity]. Z.div_mod_to_equations; lia. }
  unfold RegExp_test, timeRegex, clockText.
  destruct Hhour as [[H9 ->]|[[Ht ->]|(Ht & H3 & ->)]]; unfold twoDigits;
    destruct sec as [sec|]; rewrite ?append_cons, ?append_nil_l;
    cbn [matchFrom String.eqb].
  1-2: apply orb_true_iff; left; apply orb_true_iff; right; classes.
  1-2: destruct Ht as [Ht|Ht]; rewrite Ht; apply orb_true_iff; left;
       apply orb_true_iff; left; classes.
  1-2: apply orb_true_iff; right; rewrite Ht; classes.
Qed.

Lemma normalizeHour_test (value : string) :
  normalizeHour value = if RegExp_test timeRegex value then value else "".
Proof.
  unfold normalizeHour. destruct value as [|c rest]; [reflexivity|].
  cbn [nonEmpty String.eqb negb]. destruct (RegExp_test _ _); reflexivity.
Qed.

(** X5.  [normalizeHour] keeps exactly the times of day: a text that spells
    an hour of 0 to 23 on one or two digits, a minute of 0 to 59 on two and
    optionally a second of 0 to 59 on two, with colons between, is returned
    as it is; every other text gives the empty text.  So normalizing twice
    is normalizing once; and [24:00], the default end of the hour window, is
    not a text that it keeps. *)
Theorem normalizeHour_keeps_clock_times (value : string) :
  (clockTime value -> normalizeHour value = value)
  /\ (~ clockTime value -> normalizeHour value = "")
  /\ normalizeHour (normalizeHour value) = normalizeHour value
  /\ normalizeHour "24:00" = "".
Proof.
  rewrite !normalizeHour_test.
  split; [|split; [|split; [|reflexivity]]].
  - intros H. apply clockTime_timeRegex in H as [-> _]. reflexivity.
  - intros H. destruct (RegExp_test timeRegex value) eqn:E; [|reflexivity].
    exfalso. apply H, timeRegex_clockTime, E.
  - destruct (RegExp_test timeRegex value) eqn:E; [rewrite E|]; reflexivity.
Qed.

Lemma normalizeHour_keeps_clock_times_witness :
  normalizeHour "7:05" = "7:05" /\ normalizeHour "19:30:00" = "19:30:00".
Proof.
  split.
  - apply (proj1 (normalizeHour_keeps_clock_times "7:05")).
    exists 7, 5, None, false. repeat split; lia.
  - apply (proj1 (normalizeHour_keeps_clock_times "19:30:00")).
    exists 19, 30, (Some 0), true. repeat split; lia.
Defined.

(** X6.  The hour window that the view hands to the component: its start is
    the configured earliest hour when that is a time of day and [00:00]
    otherwise, its end the configured latest hour when that is a time of day
    and [24:00] otherwise; so the start is always a time of day, and the end
    is one or is [24:00]. *)
Theorem getSlotRange_clock_times (config : ViewConfig) (fromStorage : float) :
  let range := getSlotRange (loadConfig config fromStorage) in
  (forall v, config_minHour config = Some v -> clockTime v -> fst range = v)
  /\ ((forall v, config_minHour config = Some v -> ~ clockTime v) ->
      fst range = "00:00")
  /\ (forall v, config_maxHour config = Some v -> clockTime v -> snd range = v)
  /\ ((forall v, config_maxHour config = Some v -> ~ clockTime v) ->
      snd range = "24:00")
  /\ clockTime (fst range)
  /\ (clockTime (snd range) \/ snd range = "24:00").
Proof.
  assert (Hkeep : forall o v, o = Some v -> clockTime v ->
            normalizeHour (if truthy_str o then default "" o else "") = v
            /\ nonEmpty v = true).
  { intros o v -> Hv. destruct (clockTime_timeRegex v Hv) as [Ht Hne].
    destruct v as [|c rest]; [congruence|]. cbn [truthy_str String.eqb negb default from_option id].
    rewrite normalizeHour_test, Ht. split; reflexivity. }
  assert (Hdrop : forall o, (forall v, o = Some v -> ~ clockTime v) ->
            normalizeHour (if truthy_str o then default "" o else "") = "").
  { intros o Ho. rewrite normalizeHour_test.
    destruct o as [v|]; [|reflexivity].
    destruct (truthy_str (Some v)); [|reflexivity]. cbn [default from_option id].
    destruct (RegExp_test timeRegex v) eqn:E; [|reflexivity].
    exfalso. apply (Ho v eq_refl), timeRegex_clockTime, E. }
  assert (Hany : forall o,
            let h := normalizeHour (if truthy_str o then default "" o else "") in
            h = "" \/ (clockTime h /\ nonEmpty h = true)).
  { intros o h. subst h. rewrite normalizeHour_test.
    destruct (RegExp_test timeRegex _) eqn:E; [|left; reflexivity].
    right. apply timeRegex_clockTime in E.
    split; [exact E|]. apply clockTime_timeRegex in E as [_ E].
    unfold nonEmpty. destruct (String.eqb_spec (if truthy_str o then default "" o else "") "");
      [contradiction|reflexivity]. }
  cbv zeta. unfold getSlotRange, loadConfig. cbn [minHour maxHour fst snd].
  split; [|split; [|split; [|split; [|split]]]].
  - intros v Hc Hv. destruct (Hkeep _ v Hc Hv) as [-> ->]. reflexivity.
  - intros Hc. rewrite (Hdrop _ Hc). reflexivity.
  - intros v Hc Hv. destruct (Hkeep _ v Hc Hv) as [-> ->]. reflexivity.
  - intros Hc. rewrite (Hdrop _ Hc). reflexivity.
  - destruct (Hany (config_minHour config)) as [->|[Hc ->]]; [|exact Hc].
    cbn [nonEmpty String.eqb negb]. exists 0, 0, None, true. repeat split; lia.
  - destruct (Hany (config_maxHour config)) as [->|[Hc ->]]; [right|left; exact Hc].
    reflexivity.
Qed.

(** A window from 6:30, with a latest hour that is no time of day. *)
Lemma getSlotRange_clock_times_witness :
  getSlotRange (loadConfig (mkViewConfig None None (Some "6:30") (Some "25:00")) 80)
  = ("6:30", "24:00").
Proof.
  pose proof (getSlotRange_clock_times
                (mkViewConfig None None (Some "6:30") (Some "25:00")) 80) as H.
  cbv zeta in H. destruct H as (H1 & _ & _ & H2 & _).
  rewrite (surjective_pairing (getSlotRange _)).
  rewrite (H1 "6:30" eq_refl), H2; [reflexivity| |].
  - intros v [= <-] Hc. apply clockTime_timeRegex in Hc as [Hc _]. discriminate Hc.
  - exists 6, 30, None, false. repeat split; lia.
Defined.

End HourWindow.

(** ** Editable views *)
Module Editable.
Import JS Obsidian Utils Spec CalendarView.

(** X7.  The view reports itself editable exactly when the start-date property
    is bound to a note property and the end-date property, if bound, is one
    too.  A write-back is performed only in an editable view; and in an
    editable view every write-back is performed, unless the name that the
    host parses out of a bound property is empty. *)
Theorem isEditable_write_back (host : Host) (view : View)
  (newStart : Date) (newEnd : option Date) (allDay : option bool) :
  (is_Some (updateEntryDates host view newStart newEnd allDay) ->
   isEditable host view = true)
  /\ (isEditable host view = true ->
      (forall id, startDateProp view = Some id ->
                  prop_name (parsePropertyId host id) <> "") ->
      (forall id, endDateProp view = Some id ->
                  prop_name (parsePropertyId host id) <> "") ->
      is_Some (updateEntryDates host view newStart newEnd allDay)).
Proof.
  unfold updateEntryDates, isEditable, getNoteField.
  destruct (startDateProp view) as [sp|]; cbn [default from_option id].
  2:{ split; [intros [w H]; discriminate H|discriminate]. }
  destruct (truthy_str (Some sp)) eqn:Es; cbn [negb].
  2:{ split; [intros [w H]; discriminate H|discriminate]. }
  destruct (prop_type (parsePropertyId host sp)) eqn:Ets.
  2,3: split; [intros [w H]; discriminate H|discriminate].
  destruct (endDateProp view) as [ep|]; cbn [default from_option id].
  2:{ split; [reflexivity|]. intros _ Hs _. specialize (Hs sp eq_refl).
      unfold truthy_str.
      destruct (String.eqb_spec (prop_name (parsePropertyId host sp)) "");
        [contradiction|]. cbn. eauto. }
  destruct (truthy_str (Some ep)) eqn:Ee; cbn [negb andb].
  2:{ split; [reflexivity|]. intros _ Hs _. specialize (Hs sp eq_refl).
      unfold truthy_str at 1.
      destruct (String.eqb_spec (prop_name (parsePropertyId host sp)) "");
        [contradiction|]. cbn. eauto. }
  destruct (prop_type (parsePropertyId host ep)) eqn:Ete.
  - split; [reflexivity|]. intros _ Hs He.
    specialize (Hs sp eq_refl). specialize (He ep eq_refl).
    unfold truthy_str.
    destruct (String.eqb_spec (prop_name (parsePropertyId host sp)) "");
      [contradiction|].
    destruct (String.eqb_spec (prop_name (parsePropertyId host ep)) "");
      [contradiction|]. cbn. eauto.
  - split; [|discriminate]. cbn. intros [w H].
    destruct (negb _) in H; discriminate H.
  - split; [|discriminate]. cbn. intros [w H].
    destruct (negb _) in H; discriminate H.
Qed.

(** The view bound to the note properties [start] and [end] is editable, and
    a drag of one of its entries is written back. *)
Lemma isEditable_write_back_witness :
  isEditable Examples.utcHost Examples.noteView = true
  /\ is_Some (updateEntryDates Examples.utcHost Examples.noteView
                (newDate 0 2024 2 1 9 0) (Some (newDate 0 2024 2 1 10 0)) None).
Proof.
  split; [reflexivity|].
  apply (proj2 (isEditable_write_back Examples.utcHost Examples.noteView
                  (newDate 0 2024 2 1 9 0) (Some (newDate 0 2024 2 1 10 0)) None)).
  - reflexivity.
  - intros id [= <-]. discriminate.
  - intros id [= <-]. discriminate.
Defined.

End Editable.

(** ** The first day of the week *)
Module WeekStart.
Import JS Obsidian Utils Spec CalendarView.

Lemma dayNameToNumber_other (name : string) :
  dayNumber name = None -> dayNameToNumber !! name = None.
Proof.
  unfold dayNumber.
  repeat match goal with
         | |- context [String.eqb name ?d] =>
             destruct (String.eqb_spec name d); [discriminate|]
         end.
  intros _. unfold dayNameToNumber.
  rewrite !lookup_insert_ne by congruence. apply lookup_empty.
Qed.

(** X8.  The first day of the week that the component hands to the widget is
    the number of the configured day, Sunday being 0, when the configuration
    names a day in lower case, and Monday, 1, for every other value and when
    there is none: it is always one of the seven days. *)
Theorem safeWeekStartDay_is_a_day (config : ViewConfig) (fromStorage : float) :
  let day := default 1 (config_weekStartDay config ≫= dayNumber) in
  CalendarReactView.safeWeekStartDay (weekStartDay (loadConfig config fromStorage))
  = numberOfZ day
  /\ 0 <= day <= 6.
Proof.
  cbv zeta. unfold loadConfig. cbn [weekStartDay].
  destruct (config_weekStartDay config) as [name|]; [|split; [reflexivity|cbn; lia]].
  cbn [mbind option_bind default from_option id].
  destruct (dayNumber name) as [n|] eqn:En.
  - unfold dayNumber in En.
    repeat match type of En with
           | context [String.eqb name ?d] =>
               destruct (String.eqb_spec name d);
                 [subst name; cbv iota in En; injection En as <-;
                  split; [vm_compute; reflexivity|cbn; lia]|]
           end.
    discriminate En.
  - split; [|cbn; lia].
    destruct (truthy_str (Some name)); [|reflexivity].
    unfold getWeekStartDay, getProperty.
    rewrite (dayNameToNumber_other name En).
    destruct (String.eqb name "__proto__"); [reflexivity|].
    destruct (isInherited name); reflexivity.
Qed.

End WeekStart.

(** ** Debounced refresh *)
Module RefreshDebounce.
Import JS Obsidian Utils Spec CalendarView.
#[local] Set Warnings "-clear-no-such-hyp".

Lemma scheduleRefresh_one (runtime : Runtime) :
  atMostOneRefresh runtime ->
  let later := scheduleRefresh runtime in
  pendingTimers (timers later) = {[ nextTimer (timers runtime) ]}
  /\ refreshTimeout later = Some (nextTimer (timers runtime))
  /\ nextTimer (timers later) = S (nextTimer (timers runtime))
  /\ entries later = entries runtime.
Proof.
  intros Hinv. unfold scheduleRefresh.
  destruct runtime as [es rt [pending next]]. cbn in *.
  unfold atMostOneRefresh in Hinv. cbn in Hinv.
  destruct rt as [old|]; cbn.
  - split; [|auto]. destruct Hinv as [->|(id & [= <-] & ->)]; set_solver.
  - split; [|auto]. destruct Hinv as [->|(id & [=] & _)]. set_solver.
Qed.

Lemma occur_atMostOneRefresh (runtime : Runtime) (occurrence : Occurrence) :
  atMostOneRefresh runtime -> atMostOneRefresh (occur runtime occurrence).
Proof.
  intros Hinv. destruct occurrence as [path|id collected completed|collected|].
  - cbn. unfold handleTrackedFileChange.
    destruct (hasEntryForFile runtime path); [|exact Hinv].
    destruct (scheduleRefresh_one runtime Hinv) as (Hp & Hr & _).
    right. eexists. split; [exact Hr|exact Hp].
  - cbn. destruct (bool_decide_reflect (id ∈ pendingTimers (timers runtime)))
      as [Hin|_]; [|exact Hinv].
    left. cbn. destruct Hinv as [E|(id' & _ & E)]; rewrite E in *; set_solver.
  - exact Hinv.
  - left. cbn.
    destruct Hinv as [E|(id' & Hr & E)].
    + destruct (refreshTimeout runtime); cbn; rewrite E; set_solver.
    + rewrite Hr. cbn. rewrite E. set_solver.
Qed.

Lemma after_atMostOneRefresh (history : list Occurrence) :
  forall runtime,
    atMostOneRefresh runtime -> atMostOneRefresh (after runtime history).
Proof.
  induction history as [|occurrence rest IH]; intros runtime Hinv; [exact Hinv|].
  cbn. apply IH, occur_atMostOneRefresh, Hinv.
Qed.

(** X9.  However file changes, timers, calendar updates and an unload follow
    one another on a loaded view, at most one refresh timer is pending at
    any time, and it is the one that [refreshTimeout] holds; a callback that
    runs to its end leaves none; and after the unload none is pending and
    [refreshTimeout] is reset. *)
Theorem refresh_at_most_one_timer (next : nat) (history : list Occurrence) :
  let runtime := after (loaded next) history in
  atMostOneRefresh runtime
  /\ (forall id collected,
        id ∈ pendingTimers (timers runtime) ->
        let ran := occur runtime (TimerFired id collected true) in
        pendingTimers (timers ran) = ∅ /\ refreshTimeout ran = None
        /\ entries ran = collected)
  /\ pendingTimers (timers (occur runtime Unloaded)) = ∅
  /\ refreshTimeout (occur runtime Unloaded) = None.
Proof.
  cbv zeta.
  assert (Hinv : atMostOneRefresh (after (loaded next) history)).
  { apply after_atMostOneRefresh. left. reflexivity. }
  split; [exact Hinv|]. split; [|split; [|reflexivity]].
  - intros id collected Hin. cbn.
    rewrite bool_decide_eq_true_2 by exact Hin. cbn.
    split; [|split; reflexivity].
    destruct Hinv as [E|(id' & _ & E)]; rewrite E in *; set_solver.
  - pose proof (occur_atMostOneRefresh _ Unloaded Hinv) as [E|(id & Hr & _)];
      [exact E|discriminate Hr].
Qed.

(** Two changes to the note of an entry, then the timer: no timer is left,
    and the entries are those that the callback collected. *)
Lemma refresh_at_most_one_timer_witness :
  let calEntry :=
    mkCalendarEntry Examples.datedEntry (newDate 0 2024 2 2 10 0) None None in
  let runtime :=
    after (loaded 0)
      [CalendarUpdated [calEntry]; FileChanged "Events/Review.md";
       FileChanged "Events/Review.md"] in
  let ran := occur runtime (TimerFired 1 [calEntry] true) in
  pendingTimers (timers ran) = ∅ /\ refreshTimeout ran = None.
Proof.
  intros calEntry runtime ran.
  destruct (refresh_at_most_one_timer 0
              [CalendarUpdated [calEntry]; FileChanged "Events/Review.md";
               FileChanged "Events/Review.md"]) as (_ & H & _).
  destruct (H 1%nat [calEntry]) as (H1 & H2 & _).
  - apply (bool_decide_unpack _). vm_compute. exact I.
  - split; [exact H1|exact H2].
Defined.

Lemma changes_schedule (path : string) (n : nat) :
  forall runtime,
    atMostOneRefresh runtime -> hasEntryForFile runtime path = true ->
    let later := after runtime (repeat (FileChanged path) (S n)) in
    pendingTimers (timers later) = {[ (nextTimer (timers runtime) + n)%nat ]}
    /\ refreshTimeout later = Some (nextTimer (timers runtime) + n)%nat
    /\ entries later = entries runtime.
Proof.
  induction n as [|n IH]; intros runtime Hinv Hp.
  - cbn. unfold handleTrackedFileChange. rewrite Hp.
    destruct (scheduleRefresh_one runtime Hinv) as (H1 & H2 & _ & H4).
    rewrite Nat.add_0_r. auto.
  - change (after runtime (repeat (FileChanged path) (S (S n))))
      with (after (occur runtime (FileChanged path))
              (repeat (FileChanged path) (S n))).
    assert (Hs : occur runtime (FileChanged path) = scheduleRefresh runtime)
      by (cbn; unfold handleTrackedFileChange; rewrite Hp; reflexivity).
    rewrite Hs.
    destruct (scheduleRefresh_one runtime Hinv) as (H1 & H2 & H3 & H4).
    specialize (IH (scheduleRefresh runtime)). cbv zeta in IH.
    rewrite H3, H4 in IH.
    replace (nextTimer (timers runtime) + S n)%nat
      with (S (nextTimer (timers runtime)) + n)%nat by lia.
    apply IH.
    + right. eexists. split; [exact H2|exact H1].
    + unfold hasEntryForFile in *. rewrite H4. exact Hp.
Qed.

(** X10.  Debouncing: a run of changes to a file that has an entry leaves,
    however long it is, exactly one refresh timer pending, the one set at
    the last change, the earlier ones having been cleared, and leaves the
    entries as they are; a change to a file that has no entry sets no timer
    and changes nothing. *)
Theorem changes_schedule_one_refresh (runtime : Runtime) (path : string)
  (n : nat) :
  atMostOneRefresh runtime ->
  (hasEntryForFile runtime path = true ->
   let later := after runtime (repeat (FileChanged path) (S n)) in
   pendingTimers (timers later) = {[ (nextTimer (timers runtime) + n)%nat ]}
   /\ refreshTimeout later = Some (nextTimer (timers runtime) + n)%nat
   /\ entries later = entries runtime)
  /\ (hasEntryForFile runtime path = false ->
      after runtime (repeat (FileChanged path) (S n)) = runtime).
Proof.
  intros Hinv. split; [apply changes_schedule, Hinv|].
  intros Hp. induction n as [|n IH].
  - cbn. unfold handleTrackedFileChange. rewrite Hp. reflexivity.
  - change (after runtime (repeat (FileChanged path) (S (S n))))
      with (after (occur runtime (FileChanged path))
              (repeat (FileChanged path) (S n))).
    replace (occur runtime (FileChanged path)) with runtime; [exact IH|].
    cbn. unfold handleTrackedFileChange. rewrite Hp. reflexivity.
Qed.

(** Three changes to the note of an entry, on a view whose next timer is the
    fifth: the timer pending afterwards is the seventh. *)
Lemma changes_schedule_one_refresh_witness :
  let calEntry :=
    mkCalendarEntry Examples.datedEntry (newDate 0 2024 2 2 10 0) None None in
  let runtime := mkRuntime [calEntry] None (mkTimers ∅ 5) in
  let later := after runtime (repeat (FileChanged "Events/Review.md") 3) in
  pendingTimers (timers later) = {[ 7%nat ]}
  /\ refreshTimeout later = Some 7%nat.
Proof.
  intros calEntry runtime later.
  destruct (changes_schedule_one_refresh runtime "Events/Review.md" 2) as [H _].
  - left. reflexivity.
  - destruct (H eq_refl) as (H1 & H2 & _). split; [exact H1|exact H2].
Defined.

Lemma hasEntryForFile_In (runtime : Runtime) (path : string) :
  hasEntryForFile runtime path = true
  <-> exists record, In record (List.map entry (entries runtime))
                     /\ file_path record = path.
Proof.
  unfold hasEntryForFile. rewrite existsb_exists. split.
  - intros (e & Hin & He). exists (entry e). split; [apply in_map, Hin|].
    apply String.eqb_eq, He.
  - intros (record & Hin & Hp). apply in_map_iff in Hin as (e & <- & Hin).
    exists e. split; [exact Hin|]. apply String.eqb_eq, Hp.
Qed.

(** X22.  The files whose changes refresh the calendar are the files of the
    records that the calendar shows: after an extraction pass in which no
    title access throws, a path has an entry exactly when it is the path of
    a record of the result set whose start-date property resolves to a
    date.  A change to any other file schedules nothing. *)
Theorem tracked_files_are_dated_records (view : View)
  (startProp : BasesPropertyId) (records : list BasesEntry) (path : string)
  (pending : option nat) (window : Timers) :
  startDateProp view = Some startProp ->
  truthy_str (Some startProp) = true ->
  data view = Some records ->
  titlesReadable startProp (titleProp view) records ->
  exists collected,
    updateCalendar view = Rendered collected
    /\ let runtime := mkRuntime collected pending window in
       (hasEntryForFile runtime path = true
        <-> exists record, In record records
                           /\ resolves startProp record = true
                           /\ file_path record = path)
       /\ (hasEntryForFile runtime path = false ->
           occur runtime (FileChanged path) = runtime).
Proof.
  intros Hs Ht Hd Hr. unfold updateCalendar. rewrite Hd, Hs, Ht.
  destruct (Extraction.extractLoop_entries view startProp records [] Hr)
    as (added & -> & Hm & _).
  exists added. split; [reflexivity|]. cbv zeta. split.
  - rewrite hasEntryForFile_In. cbn [entries]. rewrite Hm. split.
    + intros (record & Hin & Hp). apply filter_In in Hin as [Hin Hres].
      exists record. auto.
    + intros (record & Hin & Hres & Hp). exists record.
      split; [apply filter_In; auto|exact Hp].
  - intros Hp. cbn. unfold handleTrackedFileChange. rewrite Hp. reflexivity.
Qed.

(** Of a note with a text for a start and a dated note, the dated one is
    tracked. *)
Lemma tracked_files_are_dated_records_witness :
  exists collected,
    updateCalendar
      (mkView (Some "note.start") None None None
         (Some [Examples.textStartEntry; Examples.datedEntry]))
    = Rendered collected
    /\ hasEntryForFile (mkRuntime collected None (mkTimers ∅ 0)) "Events/Review.md"
       = true
    /\ hasEntryForFile (mkRuntime collected None (mkTimers ∅ 0)) "Events/Text.md"
       = false.
Proof.
  destruct (tracked_files_are_dated_records
              (mkView (Some "note.start") None None None
                 (Some [Examples.textStartEntry; Examples.datedEntry]))
              "note.start" _ "Events/Review.md" None (mkTimers ∅ 0)
              eq_refl eq_refl eq_refl)
    as (collected & Hc & Ht & _).
  - intros record title _ _ H. discriminate H.
  - exists collected. split; [exact Hc|]. split.
    + apply Ht. exists Examples.datedEntry.
      split; [right; left; reflexivity|]. split; reflexivity.
    + injection Hc as <-. reflexivity.
Defined.

End RefreshDebounce.

(** ** The condense level in the component and in the configuration *)
Module CondenseInput.
Import JS Utils Spec CalendarView CalendarReactView FloatFacts.

Lemma is_nan_spec (x : float) :
  PrimFloat.is_nan x = false -> Prim2SF x <> S754_nan.
Proof.
  unfold PrimFloat.is_nan. rewrite FloatAxioms.eqb_spec. intros H E.
  rewrite E in H. discriminate H.
Qed.

Lemma Math_max_0 (x : float) :
  PrimFloat.is_nan x = false ->
  Math_max 0 x = if PrimFloat.ltb 0 x then x else 0%float.
Proof.
  intros Hx. unfold Math_max.
  replace (PrimFloat.is_nan 0) with false by reflexivity.
  rewrite Hx. cbn [orb].
  replace (max_step PrimFloat.neg_infinity 0) with 0%float by reflexivity.
  unfold max_step.
  replace (is_neg_zero 0) with false by reflexivity.
  rewrite andb_false_r, orb_false_r. reflexivity.
Qed.

Lemma Math_min_MAX (y : float) :
  PrimFloat.is_nan y = false ->
  Math_min MAX_CONDENSE_LEVEL y
  = if PrimFloat.ltb y MAX_CONDENSE_LEVEL then y else MAX_CONDENSE_LEVEL.
Proof.
  intros Hy. unfold Math_min.
  replace (PrimFloat.is_nan MAX_CONDENSE_LEVEL) with false by reflexivity.
  rewrite Hy. cbn [orb].
  replace (min_step PrimFloat.infinity MAX_CONDENSE_LEVEL)
    with MAX_CONDENSE_LEVEL by reflexivity.
  unfold min_step.
  replace (is_pos_zero MAX_CONDENSE_LEVEL) with false by reflexivity.
  rewrite andb_false_r, orb_false_r. reflexivity.
Qed.

(** A number that is not above zero is below the top level. *)
Lemma not_positive_below_MAX (x : float) :
  PrimFloat.is_nan x = false -> PrimFloat.ltb 0 x = false ->
  PrimFloat.ltb x MAX_CONDENSE_LEVEL = true.
Proof.
  intros Hx. apply is_nan_spec in Hx. revert Hx.
  rewrite !FloatAxioms.ltb_spec.
  replace (Prim2SF 0) with (S754_zero false) by reflexivity.
  replace (Prim2SF MAX_CONDENSE_LEVEL)
    with (S754_finite false 7740561859543040 (-45)) by reflexivity.
  destruct (Prim2SF x) as [s|s| |s m e]; try congruence;
    destruct s; intros _ H0; try reflexivity; discriminate H0.
Qed.

Lemma isFinite_not_nan (x : float) :
  Number_isFinite x = true -> PrimFloat.is_nan x = false.
Proof.
  unfold Number_isFinite, PrimFloat.is_finite. intros H.
  apply negb_true_iff, orb_false_iff in H as [H _]. exact H.
Qed.

(** X11.  The level that the slider handler sets lies in [0, 220] whatever
    number the value of the slider converts to: for a finite number it is
    the level that [normalizeCondenseLevel] gives, and for NaN and the
    infinities it is the default level, 80.  The level that the component
    starts with lies in [0, 220] as well. *)
Theorem handleCondenseInput_in_range (rawValue : float) :
  inRange (handleCondenseInput rawValue) = true
  /\ (Number_isFinite rawValue = true ->
      handleCondenseInput rawValue = normalizeCondenseLevel rawValue)
  /\ (Number_isFinite rawValue = false ->
      handleCondenseInput rawValue = DEFAULT_CONDENSE_LEVEL)
  /\ inRange DEFAULT_CONDENSE_LEVEL = true.
Proof.
  assert (Hfin : Number_isFinite rawValue = true ->
                 handleCondenseInput rawValue = normalizeCondenseLevel rawValue).
  { intros Hf. pose proof (isFinite_not_nan _ Hf) as Hx.
    unfold handleCondenseInput. rewrite Hf, (Math_max_0 _ Hx).
    rewrite (CondenseLevel.normalizeCondenseLevel_cases _ Hx).
    destruct (PrimFloat.ltb 0 rawValue) eqn:E0.
    - apply Math_min_MAX, Hx.
    - rewrite (not_positive_below_MAX _ Hx E0). reflexivity. }
  assert (Hinf : Number_isFinite rawValue = false ->
                 handleCondenseInput rawValue = DEFAULT_CONDENSE_LEVEL).
  { intros Hf. unfold handleCondenseInput. rewrite Hf. reflexivity. }
  split; [|split; [exact Hfin|split; [exact Hinf|reflexivity]]].
  destruct (Number_isFinite rawValue) eqn:Hf.
  - rewrite (Hfin eq_refl).
    apply CondenseLevel.normalizeCondenseLevel_inRange, isFinite_not_nan, Hf.
  - rewrite (Hinf eq_refl). reflexivity.
Qed.

Lemma handleCondenseInput_in_range_witness :
  handleCondenseInput 300 = 220%float
  /\ handleCondenseInput PrimFloat.nan = 80%float.
Proof.
  split.
  - rewrite (proj1 (proj2 (handleCondenseInput_in_range 300)) eq_refl).
    reflexivity.
  - apply (proj1 (proj2 (proj2 (handleCondenseInput_in_range PrimFloat.nan)))).
    reflexivity.
Defined.

(** X12.  The level that [updateCondenseLevel] saves is the level that the
    next [loadConfig] restores, whatever is in the storage: saving
    normalizes, and loading a saved level changes nothing. *)
Theorem updateCondenseLevel_restored (config : ViewConfig)
  (level fromStorage : float) :
  let saved := updateCondenseLevel config level in
  fst saved = normalizeCondenseLevel level
  /\ condenseLevel (loadConfig (snd saved) fromStorage) = fst saved
  /\ weekStartDay (loadConfig (snd saved) fromStorage)
     = weekStartDay (loadConfig config fromStorage)
  /\ getSlotRange (loadConfig (snd saved) fromStorage)
     = getSlotRange (loadConfig config fromStorage)
  /\ (config_condenseLevel config = None ->
      condenseLevel (loadConfig config fromStorage) = fromStorage).
Proof.
  cbv zeta. unfold updateCondenseLevel, loadConfig, getSlotRange. cbn.
  split; [reflexivity|]. split; [apply CondenseLevel.normalizeCondenseLevel_idem|].
  split; [reflexivity|]. split; [reflexivity|]. intros ->. reflexivity.
Qed.

End CondenseInput.

(** ** Slot height and zoom label *)
Module SlotHeight.
Import JS Utils Spec FormatFacts.

Lemma exactSlotHeight_closed (n : Z) :
  0 <= n <= 220 -> exactSlotHeight n = (20075 - 72 * n) / 550.
Proof.
  intros Hn.
  assert (H : all_from (fun k => exactSlotHeight k =? (20075 - 72 * k) / 550)
                221 0 = true) by (vm_compute; reflexivity).
  apply Z.eqb_eq. apply (all_from_spec _ _ _ H n). lia.
Qed.

Lemma exactZoomHundredths_closed (n : Z) :
  0 <= n <= 220 -> exactZoomHundredths n = (1111 - 4 * n) / 22.
Proof.
  intros Hn.
  assert (H : all_from (fun k => exactZoomHundredths k =? (1111 - 4 * k) / 22)
                221 0 = true) by (vm_compute; reflexivity).
  apply Z.eqb_eq. apply (all_from_spec _ _ _ H n). lia.
Qed.

(** X13.  At every integer level of the slider, 0 to 220, the height of a slot
    that binary64 arithmetic gives is exactly the height in exact
    arithmetic, 72 times the zoom rounded to the nearest integer: a whole
    number of pixels from 36, at level 0, down to 7, at level 220, that
    never increases with the level; the floor of 4 pixels is never
    reached. *)
Theorem calculateSlotHeight_levels (n : Z) :
  0 <= n <= 220 ->
  calculateSlotHeightFromZoom (calculateSlotZoom (levelOfZ n))
  = numberOfZ (exactSlotHeight n)
  /\ 7 <= exactSlotHeight n <= 36
  /\ (forall m, n <= m <= 220 -> exactSlotHeight m <= exactSlotHeight n)
  /\ exactSlotHeight 0 = 36 /\ exactSlotHeight 220 = 7.
Proof.
  intros Hn.
  assert (H : all_from
                (fun k => PrimFloat.Leibniz.eqb
                            (calculateSlotHeightFromZoom
                               (calculateSlotZoom (levelOfZ k)))
                            (numberOfZ (exactSlotHeight k)))
                221 0 = true) by (vm_compute; reflexivity).
  split; [|split; [|split; [|split; reflexivity]]].
  - apply FloatAxioms.Leibniz.eqb_spec. apply (all_from_spec _ _ _ H n). lia.
  - rewrite exactSlotHeight_closed by lia. Z.div_mod_to_equations; lia.
  - intros m Hm. rewrite !exactSlotHeight_closed by lia.
    Z.div_mod_to_equations; lia.
Qed.

(** At the default level, 80, a slot is 26 pixels high. *)
Lemma calculateSlotHeight_levels_witness :
  calculateSlotHeightFromZoom (calculateSlotZoom 80) = 26%float.
Proof.
  exact (proj1 (calculateSlotHeight_levels 80 ltac:(lia))).
Defined.

(** X14.  At every integer level of the slider the label of the zoom is the
    zoom in exact arithmetic rounded to two decimals, followed by [x]: from
    [0.50x] at level 0 to [0.10x] at level 220, where the binary64 zoom
    itself is below 0.1. *)
Theorem formatZoomLabel_levels (n : Z) :
  0 <= n <= 220 ->
  formatZoomLabel (levelOfZ n)
  = Some ("0." +:+ twoDigits (exactZoomHundredths n) +:+ "x")
  /\ 10 <= exactZoomHundredths n <= 50
  /\ (forall m, n <= m <= 220 -> exactZoomHundredths m <= exactZoomHundredths n)
  /\ formatZoomLabel (levelOfZ 0) = Some "0.50x"
  /\ formatZoomLabel (levelOfZ 220) = Some "0.10x".
Proof.
  intros Hn.
  assert (H : all_from
                (fun k => bool_decide
                            (formatZoomLabel (levelOfZ k)
                             = Some ("0." +:+ twoDigits (exactZoomHundredths k)
                                     +:+ "x")))
                221 0 = true) by (vm_compute; reflexivity).
  split; [|split; [|split; [|split; reflexivity]]].
  - pose proof (all_from_spec _ _ _ H n ltac:(lia)) as Hb. cbv beta in Hb.
    apply bool_decide_eq_true in Hb. exact Hb.
  - rewrite exactZoomHundredths_closed by lia. Z.div_mod_to_equations; lia.
  - intros m Hm. rewrite !exactZoomHundredths_closed by lia.
    Z.div_mod_to_equations; lia.
Qed.

(** At the default level the label is [0.35x]. *)
Lemma formatZoomLabel_levels_witness :
  formatZoomLabel 80 = Some "0.35x".
Proof.
  exact (proj1 (formatZoomLabel_levels 80 ltac:(lia))).
Defined.

End SlotHeight.

(** ** Creation of notes *)
Module Creation.
Import JS Obsidian Utils Spec NewEventService DateFacts FormatFacts.

Lemma uniquePathLoop_free (host : Host) (vault : Vault) (folder title : string)
  (date : Date) (fuel : nat) :
  forall path counter found,
    uniquePathLoop host fuel vault folder title date path counter = Some found ->
    found ∉ vault.
Proof.
  induction fuel as [|fuel IH]; intros path counter found; [discriminate|].
  cbn. destruct (fileExists vault path) eqn:E.
  - apply IH.
  - intros [= <-]. unfold fileExists in E. apply bool_decide_eq_false in E. exact E.
Qed.

Lemma buildUniquePath_free (host : Host) (vault : Vault) (folder title : string)
  (date : Date) (fuel : nat) (found : string) :
  buildUniquePath host fuel vault folder title date = Some found ->
  found ∉ vault.
Proof.
  unfold buildUniquePath.
  destruct (fileExists vault (normalizePath host (folder +:+ "/" +:+ title +:+ ".md")))
    eqn:E; cbn [negb].
  - apply uniquePathLoop_free.
  - intros [= <-]. unfold fileExists in E. apply bool_decide_eq_false in E. exact E.
Qed.

(** X15.  [createEvent] never overwrites a note and creates nothing on a
    cancel: the path it hands to [vault.create] names no existing file or
    folder, whatever the vault holds and however paths are normalized, and
    then the prompt gave a title that is not blank; when the prompt was
    cancelled or gave a blank title, nothing is created. *)
Theorem createEvent_never_overwrites (host : Host) (fuel : nat)
  (config : NewEventServiceConfig) (vault : Vault) (rootPath : string)
  (prompted template : option string) (start end_ : Date) :
  (forall path content,
     createEvent host fuel config vault rootPath prompted template start end_
     = Some (path, content) ->
     (path ∉ vault)
     /\ exists title, prompted = Some title /\ trim title <> "")
  /\ (prompted = None \/ (exists title, prompted = Some title /\ trim title = "") ->
      createEvent host fuel config vault rootPath prompted template start end_
      = None).
Proof.
  unfold createEvent. split.
  - intros path content. destruct prompted as [title|]; [|discriminate].
    destruct (nonEmpty title); cbn [negb orb]; [|discriminate].
    destruct (nonEmpty (trim title)) eqn:Et; cbn [negb]; [|discriminate].
    destruct (buildUniquePath _ _ _ _ _ _) as [found|] eqn:Ep; [|discriminate].
    intros [= <- _]. split; [apply (buildUniquePath_free _ _ _ _ _ _ _ Ep)|].
    exists title. split; [reflexivity|]. intros E. rewrite E in Et. discriminate Et.
  - intros [->|(title & -> & Et)]; [reflexivity|].
    rewrite Et. cbn [nonEmpty String.eqb negb]. rewrite orb_true_r. reflexivity.
Qed.

(** With [Meeting.md] and the dated note in the folder, the note is created
    under a path that is not theirs; a title of blanks creates nothing. *)
Lemma createEvent_never_overwrites_witness :
  let vault : Vault := {[ "Events/Meeting.md"; "Events/Meeting 2024-03-05.md" ]} in
  let config := mkConfig (Some "note.start") None None (Some "Events") None in
  let start := newDate 0 2024 2 5 10 0 in
  (exists path content,
     createEvent Examples.utcHost 4 config vault "/" (Some " Meeting ") None
       start start = Some (path, content)
     /\ path ∉ vault)
  /\ createEvent Examples.utcHost 4 config vault "/" (Some "   ") None start start
     = None.
Proof.
  intros vault config start. split.
  - destruct (createEvent Examples.utcHost 4 config vault "/" (Some " Meeting ")
                None start start) as [[path content]|] eqn:E;
      [|vm_compute in E; discriminate E].
    exists path, content. split; [reflexivity|].
    exact (proj1 (proj1 (createEvent_never_overwrites Examples.utcHost 4 config
                           vault "/" (Some " Meeting ") None start start)
                    path content E)).
  - apply (proj2 (createEvent_never_overwrites Examples.utcHost 4 config vault
                    "/" (Some "   ") None start start)).
    right. exists "   ". split; reflexivity.
Defined.

(** The date that a written text spells has the hour and the minute of the
    date that was written. *)
Lemma newDate_of_fields_time (tza : Z) (d : Date) :
  let rebuilt :=
    newDate tza (getFullYear tza d) (getMonth tza d) (getDate tza d)
      (getHours tza d) (getMinutes tza d) in
  getHours tza rebuilt = getHours tza d
  /\ getMinutes tza rebuilt = getMinutes tza d.
Proof.
  cbv zeta. pose proof (FormatRoundTrip.newDate_of_fields tza d) as Ht.
  set (rebuilt := newDate tza (getFullYear tza d) (getMonth tza d)
                    (getDate tza d) (getHours tza d) (getMinutes tza d)) in *.
  unfold getHours, getMinutes. rewrite Ht.
  unfold getSeconds, getMilliseconds, LocalTime, HourFromTime, MinFromTime,
    SecFromTime, msFromTime, msPerHour, msPerMinute, msPerSecond.
  split; div_lia.
Qed.


(** X21.  What the frontmatter of a new note depends on: the creation service
    takes the field of a note property from the [property] field of the
    parsed identifier.  On a host whose parsed identifiers have no such
    field, a service configured with note properties, or with none, writes
    neither the start nor the end: the frontmatter is the title and the
    all-day text under [allDay], and nothing else. *)
Theorem buildFrontmatter_without_property_field (host : Host)
  (config : NewEventServiceConfig) (title : string) (start end_ : Date) :
  (forall id, prop_type (parsePropertyId host id) = NoteProperty ->
              prop_property (parsePropertyId host id) = None) ->
  (forall id, startProperty config = Some id ->
              prop_type (parsePropertyId host id) = NoteProperty) ->
  (forall id, endProperty config = Some id ->
              prop_type (parsePropertyId host id) = NoteProperty) ->
  (forall id, allDayProperty config = Some id ->
              prop_type (parsePropertyId host id) = NoteProperty) ->
  buildFrontmatter host config title start end_
  = <["allDay" := if isAllDay host start end_ then "true" else "false"]>
      {[ "title" := title ]}.
Proof.
  intros Hhost Hs He Ha.
  assert (Hnone : forall p,
            (forall id, p = Some id ->
                        prop_type (parsePropertyId host id) = NoteProperty) ->
            noteField host p = None).
  { intros [id|] Hp; [|reflexivity]. unfold noteField.
    destruct (truthy_str (Some id)); [|reflexivity].
    rewrite (Hp id eq_refl). apply Hhost, Hp. reflexivity. }
  unfold buildFrontmatter. cbv zeta.
  rewrite (Hnone _ Hs), (Hnone _ He), (Hnone _ Ha). reflexivity.
Qed.

(** A service configured with [note.start] and [note.end], on such a host. *)
Lemma buildFrontmatter_without_property_field_witness :
  buildFrontmatter Examples.nameOnlyHost
    (mkConfig (Some "note.start") (Some "note.end") None None None)
    "Review" (newDate 0 2024 2 1 9 0) (newDate 0 2024 2 1 10 0)
  = <["allDay" := "false"]> {[ "title" := "Review" ]}.
Proof.
  rewrite (buildFrontmatter_without_property_field Examples.nameOnlyHost).
  - vm_compute. reflexivity.
  - intros id _. reflexivity.
  - intros id [= <-]. reflexivity.
  - intros id [= <-]. reflexivity.
  - intros id [=].
Defined.

End Creation.

(** ** The style maps of the settings *)
Module Settings.
Import JS Obsidian Utils Spec Main StyleMapping TrimFacts.
Local Open Scope list_scope.

Lemma objectOverrides_normal (props : list (string * Value)) (k v : string) :
  In (k, v) (objectOverrides props) ->
  toLowerCase k = k /\ trim v = v /\ v <> "".
Proof.
  intros H. pose proof (objectOverrides_nonEmpty props k v H) as Hne.
  unfold objectOverrides in H.
  apply list_elem_of_In, list_elem_of_omap in H as ([key val] & _ & H).
  cbn in H. destruct val; try discriminate.
  destruct (nonEmpty (trim s)); [|discriminate]. injection H as <- <-.
  split; [apply toLowerCase_idem|]. split; [apply trim_idem|exact Hne].
Qed.

Lemma stringOverrides_normal (raw k v : string) :
  In (k, v) (stringOverrides raw) ->
  toLowerCase k = k /\ trim v = v /\ v <> "".
Proof.
  intros H. pose proof (stringOverrides_nonEmpty raw k v H) as Hne.
  unfold stringOverrides in H.
  apply list_elem_of_In, list_elem_of_omap in H as (segment & _ & H).
  destruct (List.map trim (split isColon segment)) as [|key [|mapped rest]] eqn:E;
    try discriminate.
  destruct (nonEmpty key && nonEmpty mapped); [|discriminate].
  injection H as <- <-.
  split; [apply toLowerCase_idem|]. split; [|exact Hne].
  assert (Hin : In mapped (List.map trim (split isColon segment)))
    by (rewrite E; right; left; reflexivity).
  apply in_map_iff in Hin as (part & <- & _). apply trim_idem.
Qed.

Lemma overrides_normal (value : Value) (k v : string) :
  In (k, v) (overrides value) -> toLowerCase k = k /\ trim v = v /\ v <> "".
Proof.
  unfold overrides. destruct (negb (truthy value)); [intros []|].
  destruct value; try apply stringOverrides_normal. apply objectOverrides_normal.
Qed.

(** Parsing over defaults in normal form leaves a map in normal form. *)
Lemma parseStyleMapping_normalForm (value : Value) (defaults : gmap string string) :
  normalForm defaults -> normalForm (parseStyleMapping value defaults).
Proof.
  intros Hd k v Hk. rewrite parseStyleMapping_mergeOver in Hk.
  destruct (mergeOver_lookup defaults (overrides value) k) as [E|(v' & Hin & E)].
  - rewrite E in Hk. apply (Hd k v Hk).
  - rewrite E in Hk. injection Hk as <-. apply (overrides_normal value k v' Hin).
Qed.

(** With one override for each key, every override is in the merge. *)
Lemma mergeOver_NoDup (defaults : gmap string string)
  (supplied : list (string * string)) (k v : string) :
  NoDup (fst <$> supplied) -> In (k, v) supplied ->
  mergeOver defaults supplied !! k = Some v.
Proof.
  induction supplied as [|[k' v'] supplied IH] using rev_ind; [intros _ []|].
  rewrite fmap_app, mergeOver_snoc. cbn. intros Hnd Hin.
  apply NoDup_app in Hnd as (Hnd & Hfresh & _).
  apply in_app_or in Hin as [Hin|[[= <- <-]|[]]].
  - assert (k <> k').
    { intros <-. apply (Hfresh k); [|left].
      apply list_elem_of_fmap. exists (k, v). split; [reflexivity|].
      apply list_elem_of_In, Hin. }
    rewrite lookup_insert_ne by congruence. apply IH; assumption.
  - apply lookup_insert_eq.
Qed.

Lemma objectOverrides_objectOf (map : gmap string string) :
  normalForm map ->
  objectOverrides ((fun kv : string * string => (fst kv, VString (snd kv)))
                     <$> map_to_list map)
  = map_to_list map.
Proof.
  intros Hn. unfold objectOverrides.
  assert (H : Forall (fun kv : string * string => map !! fst kv = Some (snd kv))
                (map_to_list map)).
  { apply Forall_forall. intros [k v] Hin. apply elem_of_map_to_list, Hin. }
  induction (map_to_list map) as [|[k v] rest IH]; [reflexivity|].
  inversion H as [|? ? Hkv Hrest]; subst. cbn [fst snd] in Hkv.
  destruct (Hn k v Hkv) as (Hk & Hv & Hne).
  rewrite fmap_cons. cbn [omap list_omap fst snd]. rewrite Hk, Hv.
  unfold nonEmpty. destruct (String.eqb_spec v ""); [contradiction|].
  cbn [negb]. f_equal. apply IH, Hrest.
Qed.

(** Parsing the object of a parsed map gives the map back. *)
Lemma parseStyleMapping_objectOf (map defaults : gmap string string) :
  normalForm map ->
  (forall k, is_Some (defaults !! k) -> is_Some (map !! k)) ->
  parseStyleMapping (objectOf map) defaults = map.
Proof.
  intros Hn Hkeys. rewrite parseStyleMapping_mergeOver.
  unfold objectOf, overrides. cbn [truthy negb].
  rewrite (objectOverrides_objectOf map Hn).
  apply map_eq. intros k. destruct (map !! k) as [v|] eqn:Ek.
  - apply mergeOver_NoDup; [apply NoDup_fst_map_to_list|].
    apply list_elem_of_In, elem_of_map_to_list, Ek.
  - destruct (mergeOver_lookup defaults (map_to_list map) k)
      as [E|(v & Hin & _)].
    + rewrite E. destruct (defaults !! k) as [d|] eqn:Ed; [|reflexivity].
      destruct (Hkeys k ltac:(eauto)) as [v Hv]. congruence.
    + apply list_elem_of_In, elem_of_map_to_list in Hin. congruence.
Qed.

Lemma DEFAULT_PRIORITY_COLOR_MAP_normalForm : normalForm DEFAULT_PRIORITY_COLOR_MAP.
Proof.
  intros k v H. unfold DEFAULT_PRIORITY_COLOR_MAP in H.
  repeat (apply lookup_insert_Some in H as [[<- <-]|[_ H]];
          [split; [reflexivity|split; [reflexivity|discriminate]]|]).
  rewrite lookup_empty in H. discriminate H.
Qed.

Lemma DEFAULT_STATUS_STYLE_MAP_normalForm : normalForm DEFAULT_STATUS_STYLE_MAP.
Proof.
  intros k v H. unfold DEFAULT_STATUS_STYLE_MAP in H.
  repeat (apply lookup_insert_Some in H as [[<- <-]|[_ H]];
          [split; [reflexivity|split; [reflexivity|discriminate]]|]).
  rewrite lookup_empty in H. discriminate H.
Qed.

(** X17.  Parsing is idempotent: over defaults whose keys are in lower case
    and whose values are trimmed and not empty, as the built-in ones are,
    the parsed map has keys and values of that form, and parsing it again,
    as an object, gives the same map.  So the maps that the plugin hands to
    the calendar are the maps of the settings it loaded, whatever was
    stored. *)
Theorem parseStyleMapping_idempotent (value : Value)
  (defaults : gmap string string) :
  (normalForm defaults ->
   normalForm (parseStyleMapping value defaults)
   /\ parseStyleMapping (objectOf (parseStyleMapping value defaults)) defaults
      = parseStyleMapping value defaults)
  /\ normalForm DEFAULT_PRIORITY_COLOR_MAP
  /\ normalForm DEFAULT_STATUS_STYLE_MAP
  /\ (forall stored,
        getPriorityColorMap (loadSettings stored)
        = priorityColors (loadSettings stored)
        /\ getStatusStyleMap (loadSettings stored)
           = statusStyles (loadSettings stored)).
Proof.
  assert (Hidem : forall v d,
            normalForm d ->
            parseStyleMapping (objectOf (parseStyleMapping v d)) d
            = parseStyleMapping v d).
  { intros v d Hd. apply parseStyleMapping_objectOf.
    - apply parseStyleMapping_normalForm, Hd.
    - intros k. rewrite parseStyleMapping_mergeOver. apply mergeOver_keeps_keys. }
  split; [|split; [|split]].
  - intros Hd. split; [apply parseStyleMapping_normalForm, Hd|apply Hidem, Hd].
  - exact DEFAULT_PRIORITY_COLOR_MAP_normalForm.
  - exact DEFAULT_STATUS_STYLE_MAP_normalForm.
  - intros stored. unfold getPriorityColorMap, getStatusStyleMap, loadSettings.
    cbn [priorityColors statusStyles].
    split; apply Hidem;
      [exact DEFAULT_PRIORITY_COLOR_MAP_normalForm
      |exact DEFAULT_STATUS_STYLE_MAP_normalForm].
Qed.

(** An override with a key in capitals, parsed and parsed again. *)
Lemma parseStyleMapping_idempotent_witness :
  parseStyleMapping
    (objectOf (parseStyleMapping (VString "High: #ff0000")
                 DEFAULT_PRIORITY_COLOR_MAP))
    DEFAULT_PRIORITY_COLOR_MAP
  = <["high" := "#ff0000"]> DEFAULT_PRIORITY_COLOR_MAP.
Proof.
  destruct (parseStyleMapping_idempotent (VString "High: #ff0000")
              DEFAULT_PRIORITY_COLOR_MAP) as (H & Hn & _).
  rewrite (proj2 (H Hn)). vm_compute. reflexivity.
Defined.

End Settings.

(** ** Colour and class names of an event *)
Module EventStyles.
Import JS Obsidian Utils Spec CalendarReactView TrimFacts.
Local Open Scope list_scope.

Lemma normalizeValue_readText (text : PropertyValue -> Access string)
  (record : BasesEntry) (field : option BasesPropertyId)
  (fallback : BasesPropertyId) :
  normalizeValue text
    (if truthy_str field then tryGetValue record (default "" field)
     else tryGetValue record fallback)
  = readText text record field fallback.
Proof.
  unfold readText, tryGetValue.
  destruct (truthy_str field);
    destruct (getValue record _) as [[v|]|]; reflexivity.
Qed.

Lemma keyOf_lower (source fallback : string) :
  toLowerCase fallback = fallback -> fallback <> "" ->
  toLowerCase (keyOf source fallback) = keyOf source fallback
  /\ nonEmpty (keyOf source fallback) = true.
Proof.
  intros Hf Hne. unfold keyOf.
  destruct (nonEmpty (toLowerCase (trim source))) eqn:E.
  - split; [apply toLowerCase_idem|exact E].
  - split; [exact Hf|]. unfold nonEmpty.
    destruct (String.eqb_spec fallback ""); [contradiction|reflexivity].
Qed.

(** Of the names that every object inherits, two are in lower case. *)
Lemma isInherited_lower (key : string) :
  toLowerCase key = key -> isInherited key = true ->
  key = "constructor" \/ key = "__proto__".
Proof.
  intros Hl Hi. unfold isInherited, objectPrototypeKeys in Hi.
  cbn [existsb] in Hi.
  repeat match type of Hi with
         | (String.eqb key ?name || _) = true =>
             apply orb_true_iff in Hi as [Hi|Hi];
               [apply String.eqb_eq in Hi; subst key;
                first [left; reflexivity | right; reflexivity
                      | vm_compute in Hl; discriminate Hl]|]
         end.
  discriminate Hi.
Qed.

(** What a lookup under a key in lower case finds. *)
Lemma getProperty_lower (map : gmap string string) (key : string) :
  toLowerCase key = key ->
  getProperty map key
  = if String.eqb key "__proto__" then Some (Inherited key)
    else match map !! key with
         | Some a => Some (Own a)
         | None => if String.eqb key "constructor"
                   then Some (Inherited key) else None
         end.
Proof.
  intros Hl. unfold getProperty.
  destruct (String.eqb_spec key "__proto__") as [|Hp]; [reflexivity|].
  destruct (map !! key); [reflexivity|].
  destruct (isInherited key) eqn:Hi.
  - destruct (isInherited_lower key Hl Hi) as [-> | ->]; [reflexivity|contradiction].
  - destruct (String.eqb_spec key "constructor") as [->|]; [discriminate Hi|reflexivity].
Qed.

(** The style, from the texts of priority and status. *)
Lemma styleOf_cases (priorityColorMap statusStyleMap : gmap string string)
  (priorityText statusText : string) :
  let priority := keyOf priorityText "normal" in
  let status := keyOf statusText "open" in
  styleOf priorityColorMap statusStyleMap priorityText statusText
  = if String.eqb status "__proto__" then Thrown
    else
      match statusStyleMap !! status with
      | None => if String.eqb status "constructor" then Thrown
                else Returned
                       (mkEventStyle
                          (["bases-calendar-event"]
                           ++ (if existsb (String.eqb priority) ["high"; "medium"; "low"]
                               then ["bases-calendar-event-priority-" +:+ priority]
                               else [])
                           ++ ["bases-calendar-event-status-" +:+ status]
                           ++ List.map (fun name => "bases-calendar-status-" +:+ name)
                                (textStyles "normal"))
                          (match getProperty priorityColorMap priority with
                           | Some found => found
                           | None =>
                               match getProperty priorityColorMap "normal" with
                               | Some found => found
                               | None => Own "#60a5fa"
                               end
                           end))
      | Some style =>
          Returned
            (mkEventStyle
               (["bases-calendar-event"]
                ++ (if existsb (String.eqb priority) ["high"; "medium"; "low"]
                    then ["bases-calendar-event-priority-" +:+ priority]
                    else [])
                ++ ["bases-calendar-event-status-" +:+ status]
                ++ List.map (fun name => "bases-calendar-status-" +:+ name)
                     (textStyles style))
               (match getProperty priorityColorMap priority with
                | Some found => found
                | None =>
                    match getProperty priorityColorMap "normal" with
                    | Some found => found
                    | None => Own "#60a5fa"
                    end
                end))
      end.
Proof.
  cbv zeta. unfold styleOf. cbv zeta.
  fold (keyOf statusText "open"). fold (keyOf priorityText "normal").
  destruct (keyOf_lower statusText "open" eq_refl ltac:(discriminate)) as [Hls Hnes].
  rewrite (getProperty_lower statusStyleMap _ Hls), Hnes.
  destruct (String.eqb (keyOf statusText "open") "__proto__"); [reflexivity|].
  destruct (statusStyleMap !! keyOf statusText "open"); [reflexivity|].
  destruct (String.eqb (keyOf statusText "open") "constructor"); reflexivity.
Qed.

(** X18.  The style of an event fails, by an exception, exactly when the
    text of the priority or of the status cannot be made, or when the
    status of the record, trimmed and in lower case, is [__proto__], or is
    [constructor] and the status styles have no style of that name: the
    lookup then finds what every object inherits, which has no [split].
    A priority or a status that is absent, or whose access throws, is read
    as the empty text and makes nothing fail. *)
Theorem eventStyle_throws (text : PropertyValue -> Access string)
  (priorityField statusField : option BasesPropertyId)
  (priorityColorMap statusStyleMap : gmap string string)
  (calEntry : CalendarEntry) :
  (eventStyle text priorityField statusField priorityColorMap statusStyleMap
     calEntry = Thrown
   <-> match readText text (entry calEntry) priorityField "priority",
             readText text (entry calEntry) statusField "status" with
       | Returned _, Returned statusText =>
           keyOf statusText "open" = "__proto__"
           \/ (keyOf statusText "open" = "constructor"
               /\ statusStyleMap !! "constructor" = None)
       | _, _ => True
       end)
  /\ (forall field fallback,
        getValue (entry calEntry)
          (if truthy_str field then default "" field else fallback) = Thrown
        \/ getValue (entry calEntry)
             (if truthy_str field then default "" field else fallback)
           = Returned None ->
        readText text (entry calEntry) field fallback = Returned "").
Proof.
  split.
  2:{ intros field fallback H. unfold readText. destruct H as [-> | ->]; reflexivity. }
  unfold eventStyle. cbv zeta. rewrite !normalizeValue_readText.
  destruct (readText text (entry calEntry) priorityField "priority")
    as [priorityText|]; [|tauto].
  destruct (readText text (entry calEntry) statusField "status")
    as [statusText|]; [|tauto].
  pose proof (styleOf_cases priorityColorMap statusStyleMap priorityText statusText)
    as Hc. cbv zeta in Hc. rewrite Hc. clear Hc.
  destruct (String.eqb_spec (keyOf statusText "open") "__proto__") as [E|E];
    [tauto|].
  destruct (statusStyleMap !! keyOf statusText "open") as [style|] eqn:Es.
  - split; [discriminate|]. intros [H|[H1 H2]]; [contradiction|].
    rewrite H1 in Es. congruence.
  - destruct (String.eqb_spec (keyOf statusText "open") "constructor") as [E2|E2].
    + split; [|reflexivity]. intros _. right. split; [exact E2|].
      rewrite <- E2. exact Es.
    + split; [discriminate|]. intros [H|[H _]]; contradiction.
Qed.

(** A task whose status is [Constructor], styled with the built-in maps. *)
Lemma eventStyle_throws_witness :
  eventStyle Examples.plainText None None DEFAULT_PRIORITY_COLOR_MAP
    DEFAULT_STATUS_STYLE_MAP
    (mkCalendarEntry (Examples.taskEntry "high" "Constructor")
       (newDate 0 2024 2 1 9 0) None)
  = Thrown.
Proof.
  apply (proj2 (proj1 (eventStyle_throws Examples.plainText None None
                         DEFAULT_PRIORITY_COLOR_MAP DEFAULT_STATUS_STYLE_MAP
                         (mkCalendarEntry (Examples.taskEntry "high" "Constructor")
                            (newDate 0 2024 2 1 9 0) None)))).
  right. split; reflexivity.
Defined.

(** X19.  When the style of an event is computed, the class names are the
    base class, the class of the priority when that is [high], [medium] or
    [low], the class of the status, and one class for each text style of
    the status; the priority and the status are the texts read from the
    record, trimmed and in lower case, and [normal] and [open] when these
    are blank.  Unless the priority is a name that every object inherits,
    the colour is a colour of the priority colours: the one of the priority
    when there is one, and the one of [normal] otherwise.  The maps that
    the plugin supplies always have a colour for [normal]. *)
Theorem eventStyle_colour_and_classes (text : PropertyValue -> Access string)
  (priorityField statusField : option BasesPropertyId)
  (priorityColorMap statusStyleMap : gmap string string)
  (calEntry : CalendarEntry) (style : EventStyle) :
  eventStyle text priorityField statusField priorityColorMap statusStyleMap
    calEntry = Returned style ->
  (exists priorityText statusText,
     readText text (entry calEntry) priorityField "priority" = Returned priorityText
     /\ readText text (entry calEntry) statusField "status" = Returned statusText
     /\ let priority := keyOf priorityText "normal" in
        let status := keyOf statusText "open" in
        classNames style
        = ["bases-calendar-event"]
          ++ (if existsb (String.eqb priority) ["high"; "medium"; "low"]
              then ["bases-calendar-event-priority-" +:+ priority] else [])
          ++ ["bases-calendar-event-status-" +:+ status]
          ++ List.map (fun name => "bases-calendar-status-" +:+ name)
               (textStyles (default "normal" (statusStyleMap !! status)))
        /\ (priority <> "__proto__" -> priority <> "constructor" ->
            is_Some (priorityColorMap !! "normal") ->
            exists colour,
              priorityColor style = Own colour
              /\ (priorityColorMap !! priority = Some colour
                  \/ (priorityColorMap !! priority = None
                      /\ priorityColorMap !! "normal" = Some colour))))
  /\ keyOf "" "normal" = "normal"
  /\ (forall settings, is_Some (Main.getPriorityColorMap settings !! "normal")).
Proof.
  intros Hstyle. split; [|split; [reflexivity|]].
  2:{ intros settings. unfold Main.getPriorityColorMap.
      rewrite StyleMapping.parseStyleMapping_mergeOver.
      apply StyleMapping.mergeOver_keeps_keys. eexists. reflexivity. }
  unfold eventStyle in Hstyle. cbv zeta in Hstyle.
  rewrite !normalizeValue_readText in Hstyle.
  destruct (readText text (entry calEntry) priorityField "priority")
    as [priorityText|]; [|discriminate Hstyle].
  destruct (readText text (entry calEntry) statusField "status")
    as [statusText|]; [|discriminate Hstyle].
  exists priorityText, statusText. split; [reflexivity|]. split; [reflexivity|].
  pose proof (styleOf_cases priorityColorMap statusStyleMap priorityText statusText)
    as Hc. cbv zeta in Hc |- *. rewrite Hc in Hstyle. clear Hc.
  destruct (keyOf_lower priorityText "normal" eq_refl ltac:(discriminate))
    as [Hlp _].
  set (priority := keyOf priorityText "normal") in *.
  set (status := keyOf statusText "open") in *.
  assert (Hcolour :
    priority <> "__proto__" -> priority <> "constructor" ->
    is_Some (priorityColorMap !! "normal") ->
    exists colour,
      match getProperty priorityColorMap priority with
      | Some found => found
      | None =>
          match getProperty priorityColorMap "normal" with
          | Some found => found
          | None => Own "#60a5fa"
          end
      end = Own colour
      /\ (priorityColorMap !! priority = Some colour
          \/ (priorityColorMap !! priority = None
              /\ priorityColorMap !! "normal" = Some colour))).
  { intros Hp1 Hp2 [normal Hnormal].
    rewrite (getProperty_lower priorityColorMap priority Hlp).
    rewrite (getProperty_lower priorityColorMap "normal" eq_refl).
    destruct (String.eqb_spec priority "__proto__"); [contradiction|].
    destruct (String.eqb_spec priority "constructor"); [contradiction|].
    rewrite Hnormal. cbn [String.eqb Ascii.eqb Bool.eqb].
    destruct (priorityColorMap !! priority) as [colour|] eqn:Ec.
    - exists colour. split; [reflexivity|left; reflexivity].
    - exists normal. split; [reflexivity|right; split; reflexivity]. }
  destruct (String.eqb status "__proto__"); [discriminate Hstyle|].
  destruct (statusStyleMap !! status) as [found|].
  - injection Hstyle as <-. cbn [classNames priorityColor default from_option id].
    split; [reflexivity|exact Hcolour].
  - destruct (String.eqb status "constructor"); [discriminate Hstyle|].
    injection Hstyle as <-. cbn [classNames priorityColor default from_option id].
    split; [reflexivity|exact Hcolour].
Qed.

(** A task of priority [High] that is being worked on, styled with the
    built-in maps. *)
Lemma eventStyle_colour_and_classes_witness :
  exists style,
    eventStyle Examples.plainText None None DEFAULT_PRIORITY_COLOR_MAP
      DEFAULT_STATUS_STYLE_MAP
      (mkCalendarEntry (Examples.taskEntry " High" "Working")
         (newDate 0 2024 2 1 9 0) None)
    = Returned style
    /\ priorityColor style = Own "#f87171"
    /\ classNames style
       = ["bases-calendar-event"; "bases-calendar-event-priority-high";
          "bases-calendar-event-status-working"; "bases-calendar-status-bold"].
Proof.
  set (calEntry := mkCalendarEntry (Examples.taskEntry " High" "Working")
                     (newDate 0 2024 2 1 9 0) None).
  destruct (eventStyle Examples.plainText None None DEFAULT_PRIORITY_COLOR_MAP
              DEFAULT_STATUS_STYLE_MAP calEntry) as [style|] eqn:E;
    [|vm_compute in E; discriminate E].
  exists style. split; [reflexivity|].
  destruct (eventStyle_colour_and_classes Examples.plainText None None
              DEFAULT_PRIORITY_COLOR_MAP DEFAULT_STATUS_STYLE_MAP calEntry
              style E) as ((ptext & stext & Hp & Hs & Hn & Hc) & _).
  vm_compute in Hp, Hs. injection Hp as <-. injection Hs as <-.
  cbv zeta in Hn, Hc.
  destruct Hc as (colour & Hcol & Hm).
  - vm_compute. discriminate.
  - vm_compute. discriminate.
  - eexists. reflexivity.
  - rewrite Hcol, Hn. split; [|vm_compute; reflexivity].
    destruct Hm as [Hm|[Hm _]]; vm_compute in Hm;
      [injection Hm as <-; reflexivity|discriminate Hm].
Defined.

End EventStyles.

(** ** The title prompt *)
Module TitlePrompt.
Import JS Obsidian Utils Spec NewEventService TrimFacts.

Lemma act_resolved (prompt : Prompt) (action : PromptAction) :
  resolved prompt = true -> act prompt action = prompt.
Proof.
  intros H. destruct action; unfold act, finish; rewrite H; reflexivity.
Qed.

Lemma actions_resolved (actions : list PromptAction) (prompt : Prompt) :
  resolved prompt = true -> foldl act prompt actions = prompt.
Proof.
  induction actions as [|action rest IH]; intros H; [reflexivity|].
  cbn. rewrite (act_resolved _ _ H). apply IH, H.
Qed.

Lemma enteredTitle_trimmed (inputValue title : string) :
  enteredTitle inputValue = Some title -> trim title = title /\ title <> "".
Proof.
  unfold enteredTitle. destruct (nonEmpty (trim inputValue)) eqn:E; [|discriminate].
  intros [= <-]. split; [apply trim_idem|].
  intros H. rewrite H in E. discriminate E.
Qed.

(** X20.  The title prompt is settled by the first thing the user does with
    it; whatever follows changes nothing.  Enter and the Create button give
    the text of the input, trimmed, when that is not empty, and nothing
    otherwise; Escape, Cancel and closing the modal give nothing.  Once
    settled the focus loop is stopped and the service no longer holds the
    input.  A title that the prompt gives is trimmed and not empty, so
    [createEvent] goes on with it as it is: it creates the note of that
    title whenever a free path is found. *)
Theorem promptForTitle_first_action (action : PromptAction)
  (later : list PromptAction) :
  let prompt := promptForTitle (action :: later) in
  prompt = act opened action
  /\ resolved prompt = true /\ focusLoop prompt = false
  /\ modalInput prompt = false
  /\ resolution prompt
     = Some match action with
            | PressEnter inputValue | SubmitForm inputValue =>
                enteredTitle inputValue
            | PressEscape | ClickCancel | CloseModal => None
            end
  /\ (forall title,
        resolution prompt = Some (Some title) ->
        trim title = title /\ title <> ""
        /\ forall host fuel config vault rootPath template start end_,
             createEvent host fuel config vault rootPath (Some title) template
               start end_
             = (fun path =>
                  (path,
                   buildNoteContent host template
                     (buildFrontmatter host config title start end_)))
               <$> buildUniquePath host fuel vault
                     (resolveFolderPath host config rootPath) title start).
Proof.
  cbv zeta.
  assert (E : promptForTitle (action :: later) = act opened action).
  { unfold promptForTitle. cbn [foldl]. apply actions_resolved.
    destruct action; reflexivity. }
  rewrite E.
  split; [reflexivity|]. split; [destruct action; reflexivity|].
  split; [destruct action; reflexivity|]. split; [destruct action; reflexivity|].
  split; [destruct action; reflexivity|].
  intros title Ht.
  assert (Hent : exists inputValue, enteredTitle inputValue = Some title).
  { destruct action as [v|v| | |]; cbn in Ht; try discriminate Ht;
      exists v; congruence. }
  destruct Hent as [v Hv]. destruct (enteredTitle_trimmed v title Hv) as [Htrim Hne].
  split; [exact Htrim|]. split; [exact Hne|].
  intros host fuel config vault rootPath template start end_.
  unfold createEvent. rewrite Htrim.
  unfold nonEmpty. destruct (String.eqb_spec title ""); [contradiction|].
  cbn [negb orb]. destruct (buildUniquePath _ _ _ _ _ _); reflexivity.
Qed.

(** The user types a title between blanks, presses Enter, and the modal is
    closed. *)
Lemma promptForTitle_first_action_witness :
  resolution (promptForTitle [PressEnter "  Review  "; CloseModal])
  = Some (Some "Review")
  /\ fst <$> createEvent Examples.utcHost 3
               (mkConfig (Some "note.start") None None (Some "Events") None)
               ∅ "/" (Some "Review") None
               (newDate 0 2024 2 1 9 0) (newDate 0 2024 2 1 10 0)
     = Some "Events/Review.md".
Proof.
  destruct (promptForTitle_first_action (PressEnter "  Review  ") [CloseModal])
    as (_ & _ & _ & _ & Hr & Hc).
  split; [rewrite Hr; reflexivity|].
  destruct (Hc "Review") as (_ & _ & Hcreate); [rewrite Hr; reflexivity|].
  rewrite Hcreate. vm_compute. reflexivity.
Defined.

End TitlePrompt.

(** ** Events without an end; stale durations *)
Module Durations.
Import JS Obsidian Utils Spec CalendarView DateFacts FormatFacts WriteBackFacts.



(** X24.  A write-back never removes or resets [duration]: when no end is
    written, and when the end is written but is not later than the start by
    at least half a minute, so that the difference in whole minutes is not
    positive, the value stored under [duration] before is still stored
    afterwards, provided [duration] is not itself one of the bound
    fields. *)
Theorem updateEntryDates_keeps_stale_duration (host : Host) (view : View)
  (newStart : Date) (newEnd : option Date) (allDay : option bool)
  (write : Frontmatter -> Frontmatter) (startField : string) :
  getNoteField host (startDateProp view) = Some startField ->
  updateEntryDates host view newStart newEnd allDay = Some write ->
  startField <> "duration" ->
  getNoteField host (endDateProp view) <> Some "duration" ->
  getNoteField host (allDayProperty view) <> Some "duration" ->
  match newEnd with
  | Some e => getTime e - getTime newStart < 30000
  | None => True
  end ->
  forall fm, write fm !! "duration" = fm !! "duration".
Proof.
  intros Hsf Hw Hs He Ha Hd fm.
  destruct (updateEntryDates_Some host view _ _ _ _ _ Hsf Hw) as [-> Hg].
  rewrite writeDates_writeBack by exact Hg. unfold writeBack, boundField.
  assert (Hfm2 :
    match
      (if truthy_str (getNoteField host (endDateProp view))
       then getNoteField host (endDateProp view) else None), newEnd
    with
    | Some endField, Some newEnd0 =>
        if 0 <? (getTime newEnd0 - getTime newStart + 30000) / 60000
        then <["duration" :=
                 VNumber ((getTime newEnd0 - getTime newStart + 30000) / 60000)]>
               (<[endField := VString (dateTimeText host newEnd0)]>
                  (<[startField := VString (dateTimeText host newStart)]> fm))
        else <[endField := VString (dateTimeText host newEnd0)]>
               (<[startField := VString (dateTimeText host newStart)]> fm)
    | _, _ => <[startField := VString (dateTimeText host newStart)]> fm
    end !! "duration" = fm !! "duration").
  { destruct (truthy_str (getNoteField host (endDateProp view)));
      [|destruct newEnd; rewrite lookup_insert_ne by congruence; reflexivity].
    destruct (getNoteField host (endDateProp view)) as [ef|];
      [|rewrite lookup_insert_ne by congruence; reflexivity].
    destruct newEnd as [e|];
      [|rewrite lookup_insert_ne by congruence; reflexivity].
    replace (0 <? (getTime e - getTime newStart + 30000) / 60000) with false
      by (symmetry; apply Z.ltb_ge; div_lia).
    rewrite !lookup_insert_ne by congruence. reflexivity. }
  cbv zeta.
  destruct (truthy_str (getNoteField host (allDayProperty view))) eqn:Et;
    [|destruct allDay; exact Hfm2].
  destruct (getNoteField host (allDayProperty view)) as [af|];
    [|exact Hfm2].
  destruct allDay as [b|]; [|exact Hfm2].
  rewrite lookup_insert_ne by congruence. exact Hfm2.
Qed.

(** A resize that brings the end onto the start, of an entry whose stored
    duration is 90 minutes: the 90 stays. *)
Lemma updateEntryDates_keeps_stale_duration_witness :
  let s := newDate 0 2024 2 1 9 0 in
  let stored : Frontmatter := {[ "duration" := VNumber 90 ]} in
  writeDates Examples.utcHost Examples.noteView "start" (Some "end")
    (Some "allDay") s (Some s) None stored !! "duration"
  = Some (VNumber 90).
Proof.
  intros s stored.
  rewrite (updateEntryDates_keeps_stale_duration Examples.utcHost
             Examples.noteView s (Some s) None
             (writeDates Examples.utcHost Examples.noteView "start" (Some "end")
                (Some "allDay") s (Some s) None)
             "start" eq_refl eq_refl).
  - reflexivity.
  - discriminate.
  - discriminate.
  - discriminate.
  - cbn. lia.
Defined.

End Durations.
